(** * generate_sales_data.py: the synthetic sales generator

    A shallow embedding of [src/generate_sales_data.py].

    - Python [float]s are idealised as exact rationals [Q]: arithmetic is
      exact, [round(x, 2)] rounds half to even; [int]s are [Z].
    - The process-wide NumPy generator is an explicit state of type [G],
      threaded through every sampling call in the order the script makes
      them.  NumPy itself is not part of the repository: its sampling
      routines, [np.sin] and [np.pi] are the operations of the class
      [NumPy], and what NumPy documents about them is [LawfulNumPy].
    - A Python exception ([KeyError], [ZeroDivisionError], [ValueError]) is
      the result [None] of the state-and-error monad [M].
    - A [dict] is an association list in insertion order, a frame is the
      list of its rows. *)

From Stdlib Require Import ZArith QArith Qround Qabs Lia Lqa List Bool.
From Stdlib Require Import Ascii String Decimal DecimalString DecimalN.
From Stdlib Require Import Sorted Permutation.
Import ListNotations.

Local Open Scope Z_scope.
Local Open Scope Q_scope.

(* ================================================================== *)
(** ** Numbers *)

Module Num.

(** [x < y] on floats, as a boolean. *)
Definition Qlt_bool (x y : Q) : bool := negb (Qle_bool y x).

(** Python's builtin [max(a, b)]: the first argument unless the second
    is strictly greater. *)
Definition py_max (a b : Q) : Q := if Qlt_bool a b then b else a.

(** Python's builtin [min(a, b)]: the first argument unless the second
    is strictly smaller. *)
Definition py_min (a b : Q) : Q := if Qlt_bool b a then b else a.

(** Round to the nearest integer, ties to the even one. *)
Definition round_half_even (q : Q) : Z :=
  let f := Qfloor q in
  let r := q - inject_Z f in
  if Qlt_bool r (1#2) then f
  else if Qlt_bool (1#2) r then (f + 1)%Z
  else if Z.even f then f else (f + 1)%Z.

(** Python's [round(x, 2)]. *)
Definition round2 (q : Q) : Q := round_half_even (q * 100) # 100.

(** Python's true division [a / b], which raises on a zero divisor. *)
Definition py_div (a b : Q) : option Q :=
  if Qeq_bool b 0 then None else Some (a / b).

(** The sum of a column. *)
Definition Qsum (l : list Q) : Q := fold_left Qplus l 0.

(** A whole number of hundredths. *)
Definition cents (x : Q) : Prop := exists k : Z, x == k # 100.

End Num.
Import Num.

(* ================================================================== *)
(** ** Strings and format specifications *)

Module Fmt.

Local Open Scope string_scope.

(** [str(n)] for a non-negative [int]. *)
Definition decimal (n : Z) : string :=
  NilEmpty.string_of_uint (N.to_uint (Z.to_N n)).

(** [s.rjust(w, '0')]. *)
Definition zero_pad (w : nat) (s : string) : string :=
  string_of_list_ascii (repeat "0"%char (w - String.length s))
  ++ s.

(** The format specification [{n:0wd}] for a non-negative [n]. *)
Definition fmt_0d (w : nat) (n : Z) : string := zero_pad w (decimal n).

(** Reading an identifier back: the number after a prefix of [k]
    characters. *)
Definition number_after (k : nat) (s : string) : option Z :=
  match NilEmpty.uint_of_string (substring k (String.length s - k) s) with
  | Some u => Some (Z.of_N (N.of_uint u))
  | None => None
  end.

End Fmt.
Import Fmt.

(* ================================================================== *)
(** ** Calendar dates

    The elements of [pd.date_range(..., freq='D')] are midnight
    timestamps; the script uses only their proleptic Gregorian calendar
    fields, computed here as the [datetime] module computes them. *)

Module Cal.

Local Open Scope Z_scope.

Record date := mkdate { year : Z; month : Z; day : Z }.

Definition is_leap (y : Z) : bool :=
  (y mod 4 =? 0) && (negb (y mod 100 =? 0) || (y mod 400 =? 0)).

Definition days_in_month (y m : Z) : Z :=
  if m =? 2 then (if is_leap y then 29 else 28)
  else if (m =? 4) || (m =? 6) || (m =? 9) || (m =? 11) then 30
  else 31.

Definition days_before_year (y : Z) : Z :=
  let p := y - 1 in p * 365 + p / 4 - p / 100 + p / 400.

Definition days_before_month_table : list Z :=
  [0; 31; 59; 90; 120; 151; 181; 212; 243; 273; 304; 334].

Definition days_before_month (y m : Z) : Z :=
  nth (Z.to_nat (m - 1)) days_before_month_table 0
  + (if (2 <? m) && is_leap y then 1 else 0).

(** [date.toordinal()]. *)
Definition toordinal (d : date) : Z :=
  days_before_year (year d) + days_before_month (year d) (month d) + day d.

(** [date.timetuple().tm_yday]. *)
Definition tm_yday (d : date) : Z :=
  days_before_month (year d) (month d) + day d.

(** [date.weekday()]: Monday is 0, Sunday is 6. *)
Definition weekday (d : date) : Z := (toordinal d + 6) mod 7.

(** [(a - b).days]. *)
Definition days_between (a b : date) : Z := toordinal a - toordinal b.

(** The day after [d]. *)
Definition next_day (d : date) : date :=
  if day d <? days_in_month (year d) (month d)
  then mkdate (year d) (month d) (day d + 1)
  else if month d <? 12 then mkdate (year d) (month d + 1) 1
  else mkdate (year d + 1) 1 1.

Fixpoint days_from (d : date) (n : nat) : list date :=
  match n with
  | O => []
  | S k => d :: days_from (next_day d) k
  end.

(** [pd.date_range(a, b, freq='D')]: every day from [a] to [b], both
    included. *)
Definition date_range (a b : date) : list date :=
  days_from a (Z.to_nat (toordinal b - toordinal a + 1)).

Definition valid_date (d : date) : Prop :=
  1 <= month d <= 12 /\ 1 <= day d <= days_in_month (year d) (month d).

Definition valid_dateb (d : date) : bool :=
  (1 <=? month d) && (month d <=? 12)
  && (1 <=? day d) && (day d <=? days_in_month (year d) (month d)).

Definition date_eqb (a b : date) : bool :=
  (year a =? year b) && (month a =? month b) && (day a =? day b).

(** The Monday that starts ISO week 1 of year [y]. *)
Definition isoweek1monday (y : Z) : Z :=
  let firstday := toordinal (mkdate y 1 1) in
  let firstweekday := (firstday + 6) mod 7 in
  let week1monday := firstday - firstweekday in
  if 3 <? firstweekday then week1monday + 7 else week1monday.

(** [date.isocalendar()[1]]. *)
Definition iso_week (d : date) : Z :=
  let today := toordinal d in
  let week := (today - isoweek1monday (year d)) / 7 in
  if week <? 0 then (today - isoweek1monday (year d - 1)) / 7 + 1
  else if (52 <=? week) && (isoweek1monday (year d + 1) <=? today) then 1
  else week + 1.

Local Open Scope string_scope.

(** [date.strftime('%Y-%m-%d')]. *)
Definition strftime_ymd (d : date) : string :=
  fmt_0d 4 (year d) ++ "-" ++ fmt_0d 2 (month d) ++ "-" ++ fmt_0d 2 (day d).

Definition day_names : list string :=
  ["Monday"; "Tuesday"; "Wednesday"; "Thursday"; "Friday"; "Saturday";
   "Sunday"].

(** [date.strftime('%A')]. *)
Definition strftime_A (d : date) : string :=
  nth (Z.to_nat (weekday d)) day_names "".

End Cal.
Import Cal.

(* ================================================================== *)
(** ** NumPy: the global generator, [np.sin] and [np.pi] *)

(** The operations of [numpy] the script calls.  A sampling routine takes
    the generator state and returns the draw with the next state.
    [choice_index n] is the position [np.random.choice] draws in a
    sequence of [n] elements, [choice_index_p p] the position it draws
    under the probabilities [p]. *)
Class NumPy (G : Type) := {
  np_pi : Q;
  np_sin : Q -> Q;
  seed : Z -> G -> G;
  poisson : Q -> G -> Z * G;
  choice_index : nat -> G -> nat * G;
  choice_index_p : list Q -> G -> nat * G;
  uniform : Q -> Q -> G -> Q * G;
  random : G -> Q * G;
  randint : Z -> Z -> G -> Z * G;
  normal : Q -> Q -> G -> Q * G
}.

(** What NumPy documents about them: the sine is between -1 and 1;
    seeding fixes the state whatever it was before; a drawn position is
    inside the sequence; [uniform] stays between its bounds;
    [randint low high] is in [low, high). *)
Class LawfulNumPy (G : Type) `{NumPy G} : Prop := {
  np_sin_bounded : forall x, - (1) <= np_sin x <= 1;
  seed_resets : forall n g1 g2, seed n g1 = seed n g2;
  choice_index_lt : forall n g, (0 < n)%nat -> (fst (choice_index n g) < n)%nat;
  choice_index_p_lt :
    forall p g, (0 < List.length p)%nat ->
                (fst (choice_index_p p g) < List.length p)%nat;
  uniform_between :
    forall lo hi g, lo <= hi -> lo <= fst (uniform lo hi g) <= hi;
  randint_between :
    forall lo hi g, (lo < hi)%Z -> (lo <= fst (randint lo hi g) < hi)%Z
}.

(* ================================================================== *)
(** ** The state-and-error monad *)

Definition M (G A : Type) : Type := G -> option (A * G).

Definition ret {G A} (a : A) : M G A := fun g => Some (a, g).

Definition bind {G A B} (c : M G A) (k : A -> M G B) : M G B :=
  fun g => match c g with
           | Some (a, g') => k a g'
           | None => None
           end.

(** A call that cannot raise. *)
Definition draw {G A} (f : G -> A * G) : M G A := fun g => Some (f g).

(** A value that is there, or the exception raised for its absence. *)
Definition try {G A} (o : option A) : M G A :=
  fun g => match o with Some a => Some (a, g) | None => None end.

Declare Scope monad_scope.
Delimit Scope monad_scope with monad.
Notation "x <- c ;; k" := (bind c (fun x => k))
  (at level 61, c at next level, right associativity) : monad_scope.
Notation "' pat <- c ;; k" := (bind c (fun x => match x with pat => k end))
  (at level 61, pat pattern, c at next level, right associativity)
  : monad_scope.

(** The same for code that only raises. *)
Definition obind {A B} (o : option A) (k : A -> option B) : option B :=
  match o with Some a => k a | None => None end.

Notation "x <-? c ;; k" := (obind c (fun x => k))
  (at level 61, c at next level, right associativity) : monad_scope.

Fixpoint omap {A B} (f : A -> option B) (l : list A) : option (list B) :=
  match l with
  | [] => Some []
  | a :: t => (b <-? f a ;; bs <-? omap f t ;; Some (b :: bs))%monad
  end.

(* ================================================================== *)
(** ** Dictionaries and table cells *)

(** A [dict] with string keys, in insertion order. *)
Definition dict (V : Type) : Type := list (string * V).

(** [d[k]]: [None] stands for [KeyError]. *)
Fixpoint dict_get {V} (k : string) (d : dict V) : option V :=
  match d with
  | [] => None
  | (k', v) :: t => if String.eqb k k' then Some v else dict_get k t
  end.

Definition keys {V} (d : dict V) : list string := map fst d.

(** A cell of a table. *)
Inductive value : Type :=
| VStr (s : string)
| VInt (n : Z)
| VFloat (x : Q)
| VBool (b : bool).

(** One row: the [dict] the loop body builds. *)
Definition record : Type := dict value.

(** [pd.DataFrame(data)] for a list of rows with the same keys. *)
Definition DataFrame : Type := list record.

(* ================================================================== *)
(** ** Business data parameters (lines 19-38, 81, 91-103, 153-156) *)

Module Params.

Local Open Scope string_scope.

Definition start_date : date := mkdate 2022 1 1.
Definition end_date : date := mkdate 2024 12 31.

Definition products : list string :=
  ["Laptop"; "Desktop"; "Monitor"; "Keyboard"; "Mouse"; "Printer"; "Scanner";
   "Tablet"].

Definition regions : list string :=
  ["North America"; "Europe"; "Asia Pacific"; "South America"; "Africa"].

Definition sales_reps : list string :=
  ["John Smith"; "Sarah Johnson"; "Mike Wilson"; "Lisa Brown"; "Tom Davis";
   "Maria Garcia"; "David Chen"; "Emma Thompson"; "Carlos Rodriguez";
   "Anna Petrov"].

(** [[f'CUST_{i:05d}' for i in range(1, 1001)]]. *)
Definition customers : list string :=
  map (fun i => "CUST_" ++ fmt_0d 5 (Z.of_nat i)) (seq 1 1000).

Definition base_prices : dict Z :=
  [("Laptop", 800); ("Desktop", 600); ("Monitor", 300); ("Keyboard", 50);
   ("Mouse", 25); ("Printer", 150); ("Scanner", 200); ("Tablet", 400)]%Z.

Definition product_categories : dict string :=
  [("Laptop", "Electronics"); ("Desktop", "Electronics");
   ("Monitor", "Electronics"); ("Tablet", "Electronics");
   ("Keyboard", "Accessories"); ("Mouse", "Accessories");
   ("Printer", "Peripherals"); ("Scanner", "Peripherals")].

Definition region_weights : list Q :=
  [0.35; 0.25; 0.20; 0.15; 0.05].

Definition rep_weights : list Q :=
  [0.15; 0.12; 0.11; 0.10; 0.10; 0.09; 0.09; 0.08; 0.08;
   0.08].

Definition region_multipliers : dict Q :=
  [("North America", 1.2); ("Europe", 1.1); ("Asia Pacific", 0.9);
   ("South America", 0.8); ("Africa", 0.7)].

Definition rep_performance : dict Q :=
  [("John Smith", 1.15); ("Sarah Johnson", 1.12);
   ("Mike Wilson", 1.08); ("Lisa Brown", 1.05);
   ("Tom Davis", 1.03); ("Maria Garcia", 1.10);
   ("David Chen", 1.07); ("Emma Thompson", 1.06);
   ("Carlos Rodriguez", 1.04); ("Anna Petrov", 1.09)].

Definition region_delivery_days : dict (Z * Z) :=
  [("North America", (1, 5)); ("Europe", (3, 8)); ("Asia Pacific", (5, 12));
   ("South America", (7, 15)); ("Africa", (10, 20))]%Z.

End Params.
Import Params.

(* ================================================================== *)
(** ** The generator (lines 9-199) *)

(** The local variables of one pass through the transaction loop, before
    the record is built. *)
Record sale := mksale {
  product : string;
  category : string;
  region : string;
  sales_rep : string;
  customer_id : string;
  rep_factor : Q;
  unit_price : Q;
  quantity : Z;
  revenue : Q;
  cost : Q;
  profit : Q;
  profit_margin : Q;
  discount_percent : Q;
  discount_amount : Q;
  final_revenue : Q;
  final_profit : Q;
  final_margin : Q;
  shipping_cost : Q;
  tax_rate : Q;
  tax_amount : Q;
  noise : Q;
  customer_satisfaction : Q;
  delivery_days : Z;
  is_returned : bool
}.

Section Generator.

Context {G : Type} `{NumPy G}.

Local Open Scope monad_scope.
Local Open Scope string_scope.

(** What [np.random.choice] checks of [p] before it draws. *)
Definition valid_p (n : nat) (p : list Q) : bool :=
  Nat.eqb (List.length p) n
  && forallb (Qle_bool 0) p
  && Qeq_bool (Qsum p) 1.

(** [np.random.choice(a)]. *)
Definition choice {A} (a : list A) : M G A :=
  i <- draw (choice_index (List.length a)) ;;
  try (nth_error a i).

(** [np.random.choice(a, p=p)]. *)
Definition choice_p {A} (a : list A) (p : list Q) : M G A :=
  if valid_p (List.length a) p
  then i <- draw (choice_index_p p) ;; try (nth_error a i)
  else try None.

(** [np.random.poisson(lam)], which rejects a negative mean. *)
Definition random_poisson (lam : Q) : M G Z :=
  if Qlt_bool lam 0 then try None else draw (poisson lam).

(** [np.random.randint(low, high)], which rejects an empty range. *)
Definition random_randint (low high : Z) : M G Z :=
  if (low <? high)%Z then draw (randint low high) else try None.

(** [a / b] with a divisor that is not a literal. *)
Definition div (a b : Q) : M G Q := try (py_div a b).

(** Lines 45-54. *)
Definition seasonal_factor (date : date) : Q :=
  let day_of_year := tm_yday date in
  let seasonal_factor :=
    1 + 0.3 * np_sin (2 * np_pi * inject_Z day_of_year / 365) in
  if existsb (Z.eqb (month date)) [11; 12]%Z then seasonal_factor * 1.8
  else if existsb (Z.eqb (month date)) [6; 7]%Z then seasonal_factor * 1.3
  else if existsb (Z.eqb (month date)) [1; 2]%Z then seasonal_factor * 0.7
  else seasonal_factor.

(** Lines 57-60. *)
Definition daily_factor (date : date) : Q :=
  if (weekday date <? 5)%Z then 1.2 else 0.8.

(** Lines 63-64. *)
Definition growth_factor (date : date) : Q :=
  let days_since_start := days_between date start_date in
  1 + (inject_Z days_since_start / 365) * 0.15.

(** The argument of [np.random.poisson], lines 67-70. *)
Definition poisson_mean (date : date) : Q :=
  let base_transactions := 15 in
  base_transactions * seasonal_factor date * daily_factor date
  * growth_factor date.

(** Line 138: the margin after discount, behind its guard. *)
Definition final_margin_of (final_profit final_revenue : Q) : M G Q :=
  if Qlt_bool 0 final_revenue
  then final_ratio <- div final_profit final_revenue ;;
       ret (final_ratio * 100)
  else ret 0.

(** Line 142. *)
Definition tax_rate_of (region : string) : Q :=
  if String.eqb region "North America" then 0.08 else 0.15.

(** Lines 146-150, given the draw of [np.random.normal(0, 0.3)]. *)
Definition customer_satisfaction_of (final_margin rep_factor noise : Q) : Q :=
  let base_satisfaction := 3.5 in
  let satisfaction_boost :=
    (final_margin / 100) * 0.5 + (rep_factor - 1) * 2 in
  py_min 5 (py_max 1 (base_satisfaction + satisfaction_boost + noise)).

(** Lines 73-162: everything one transaction samples and derives. *)
Definition sample_sale : M G sale :=
  product <- choice products ;;
  category <- try (dict_get product product_categories) ;;
  region <- choice_p regions region_weights ;;
  sales_rep <- choice_p sales_reps rep_weights ;;
  customer_id <- choice customers ;;
  base_price <- try (dict_get product base_prices) ;;
  region_multiplier <- try (dict_get region region_multipliers) ;;
  rep_factor <- try (dict_get sales_rep rep_performance) ;;
  price_variation <- draw (uniform 0.85 1.25) ;;
  let unit_price :=
    inject_Z base_price * region_multiplier * rep_factor * price_variation in
  bulk <- draw random ;;
  quantity <- (if Qlt_bool bulk 0.1 then random_randint 5 20
               else random_randint 1 4) ;;
  let revenue := unit_price * inject_Z quantity in
  cost_ratio <- draw (uniform 0.4 0.7) ;;
  let cost := revenue * cost_ratio in
  let profit := revenue - cost in
  ratio <- div profit revenue ;;
  let profit_margin := ratio * 100 in
  discounted <- draw random ;;
  '(discount_percent, discount_amount) <-
    (if Qlt_bool discounted 0.2
     then discount_percent <- draw (uniform 5 25) ;;
          ret (discount_percent, revenue * (discount_percent / 100))
     else ret (0, 0)) ;;
  let final_revenue := revenue - discount_amount in
  let final_profit := final_revenue - cost in
  final_margin <- final_margin_of final_profit final_revenue ;;
  shipping_cost <-
    (if negb (String.eqb region "North America") then draw (uniform 5 25)
     else draw (uniform 2 10)) ;;
  let tax_rate := tax_rate_of region in
  let tax_amount := final_revenue * tax_rate in
  noise <- draw (normal 0 0.3) ;;
  let customer_satisfaction :=
    customer_satisfaction_of final_margin rep_factor noise in
  '(min_days, max_days) <- try (dict_get region region_delivery_days) ;;
  delivery_days <- random_randint min_days (max_days + 1) ;;
  let return_probability :=
    py_max 0.01 (0.15 - (customer_satisfaction - 3) * 0.03) in
  returned <- draw random ;;
  let is_returned := Qlt_bool returned return_probability in
  ret (mksale product category region sales_rep customer_id rep_factor
         unit_price quantity revenue cost profit profit_margin
         discount_percent discount_amount final_revenue final_profit
         final_margin shipping_cost tax_rate tax_amount noise
         customer_satisfaction delivery_days is_returned).

(** Lines 165-194: the record of one sale. *)
Definition create_record (order_id : Z) (date : date) (s : sale) : record :=
  [("Order_ID", VStr ("ORD_" ++ fmt_0d 6 order_id));
   ("Date", VStr (strftime_ymd date));
   ("Customer_ID", VStr (customer_id s));
   ("Product", VStr (product s));
   ("Category", VStr (category s));
   ("Region", VStr (region s));
   ("Sales_Rep", VStr (sales_rep s));
   ("Quantity", VInt (quantity s));
   ("Unit_Price", VFloat (round2 (unit_price s)));
   ("Revenue", VFloat (round2 (revenue s)));
   ("Cost", VFloat (round2 (cost s)));
   ("Profit", VFloat (round2 (profit s)));
   ("Profit_Margin", VFloat (round2 (profit_margin s)));
   ("Discount_Percent", VFloat (round2 (discount_percent s)));
   ("Discount_Amount", VFloat (round2 (discount_amount s)));
   ("Final_Revenue", VFloat (round2 (final_revenue s)));
   ("Final_Profit", VFloat (round2 (final_profit s)));
   ("Final_Margin", VFloat (round2 (final_margin s)));
   ("Shipping_Cost", VFloat (round2 (shipping_cost s)));
   ("Tax_Amount", VFloat (round2 (tax_amount s)));
   ("Customer_Satisfaction", VFloat (round2 (customer_satisfaction s)));
   ("Delivery_Days", VInt (delivery_days s));
   ("Is_Returned", VBool (is_returned s));
   ("Year", VInt (year date));
   ("Month", VInt (month date));
   ("Quarter", VStr ("Q" ++ decimal ((month date - 1) / 3 + 1)));
   ("Day_of_Week", VStr (strftime_A date));
   ("Week_Number", VInt (iso_week date))].

(** The loop of line 72, with [data] and [order_id] as its state. *)
Fixpoint transactions (n : nat) (date : date) (st : list record * Z)
  : M G (list record * Z) :=
  match n with
  | O => ret st
  | S k =>
      s <- sample_sale ;;
      let '(data, order_id) := st in
      transactions k date
        ((data ++ [create_record order_id date s])%list, (order_id + 1)%Z)
  end.

(** Lines 66-70: the number of transactions of a day. *)
Definition num_transactions (date : date) : M G Z :=
  n <- random_poisson (poisson_mean date) ;;
  ret (Z.max 1 n).

(** The body of the loop of line 43. *)
Definition one_day (date : date) (st : list record * Z)
  : M G (list record * Z) :=
  n <- num_transactions date ;;
  transactions (Z.to_nat n) date st.

(** The loop of line 43. *)
Fixpoint days (dates : list date) (st : list record * Z)
  : M G (list record * Z) :=
  match dates with
  | [] => ret st
  | date :: rest => st' <- one_day date st ;; days rest st'
  end.

(** The generator run over any sequence of dates. *)
Definition generate_over (dates : list date) : M G DataFrame :=
  '(data, _) <- days dates ([], 1%Z) ;;
  ret data.

(** [generate_sales_data()]. *)
Definition generate_sales_data : M G DataFrame :=
  generate_over (date_range start_date end_date).

(** The transaction counts of a run over [dates], day by day: each is
    read off the generator state in which its day begins. *)
Fixpoint day_counts (dates : list date) (st : list record * Z) (g : G)
  : list Z :=
  match dates with
  | [] => []
  | date :: rest =>
      Z.max 1 (fst (poisson (poisson_mean date) g))
      :: match one_day date st g with
         | Some (st', g') => day_counts rest st' g'
         | None => []
         end
  end.

End Generator.

(* ================================================================== *)
(** ** The aggregation pass (lines 229-287)

    [groupby] and the aggregate functions are pandas': the groups come
    sorted by key, each group keeps its rows in the order of the frame. *)

Module Pandas.

Local Open Scope monad_scope.
Local Open Scope string_scope.

Definition col_str (c : string) (r : record) : option string :=
  match dict_get c r with Some (VStr s) => Some s | _ => None end.

Definition col_int (c : string) (r : record) : option Z :=
  match dict_get c r with Some (VInt n) => Some n | _ => None end.

Definition col_float (c : string) (r : record) : option Q :=
  match dict_get c r with Some (VFloat x) => Some x | _ => None end.

Definition col_bool (c : string) (r : record) : option bool :=
  match dict_get c r with Some (VBool b) => Some b | _ => None end.

Fixpoint insert_key {K} (leb : K -> K -> bool) (k : K) (l : list K) : list K :=
  match l with
  | [] => [k]
  | h :: t => if leb k h then k :: l else h :: insert_key leb k t
  end.

Definition sort_keys {K} (leb : K -> K -> bool) (l : list K) : list K :=
  fold_right (insert_key leb) [] l.

Section GroupBy.

Context {K : Type} (eq_dec : forall a b : K, {a = b} + {a <> b})
        (leb : K -> K -> bool) (key : record -> option K).

Definition has_key (k : K) (r : record) : bool :=
  match key r with
  | Some k' => if eq_dec k k' then true else false
  | None => false
  end.

(** [df.groupby(key)]: the keys in order, each with its rows. *)
Definition groupby (df : DataFrame) : option (list (K * list record)) :=
  ks <-? omap key df ;;
  Some (map (fun k => (k, filter (has_key k) df))
            (sort_keys leb (nodup eq_dec ks))).

End GroupBy.

(** ['sum'] of a float column. *)
Definition sum_float (c : string) (rows : list record) : option Q :=
  xs <-? omap (col_float c) rows ;; Some (Qsum xs).

(** ['sum'] of an integer column. *)
Definition sum_int (c : string) (rows : list record) : option Z :=
  xs <-? omap (col_int c) rows ;; Some (fold_left Z.add xs 0%Z).

(** ['count']. *)
Definition count (rows : list record) : Z := Z.of_nat (List.length rows).

(** ['mean'] of a float column. *)
Definition mean (c : string) (rows : list record) : option Q :=
  xs <-? omap (col_float c) rows ;;
  py_div (Qsum xs) (inject_Z (Z.of_nat (List.length xs))).

(** [(x == True).sum()]. *)
Definition count_true (c : string) (rows : list record) : option Z :=
  bs <-? omap (col_bool c) rows ;;
  Some (Z.of_nat (List.length (filter (fun b => b) bs))).

(** ['nunique'] of a string column. *)
Definition nunique (c : string) (rows : list record) : option Z :=
  ss <-? omap (col_str c) rows ;;
  Some (Z.of_nat (List.length (nodup string_dec ss))).

(** ['first'] of a string column. *)
Definition first (c : string) (rows : list record) : option string :=
  match rows with r :: _ => col_str c r | [] => None end.

(** ['min'] and ['max'] of a string column. *)
Definition min_str (c : string) (rows : list record) : option string :=
  ss <-? omap (col_str c) rows ;;
  match ss with
  | [] => None
  | s :: t => Some (fold_left (fun m x => if String.ltb x m then x else m) t s)
  end.

Definition max_str (c : string) (rows : list record) : option string :=
  ss <-? omap (col_str c) rows ;;
  match ss with
  | [] => None
  | s :: t => Some (fold_left (fun m x => if String.ltb m x then x else m) t s)
  end.

End Pandas.
Import Pandas.

Section Summaries.

Local Open Scope monad_scope.
Local Open Scope string_scope.

Definition by_string (c : string) (df : DataFrame)
  : option (list (string * list record)) :=
  groupby string_dec String.leb (col_str c) df.

(** Lines 230-243. *)
Definition customer_row (group : string * list record) : option record :=
  let '(k, rows) := group in
  total_revenue <-? sum_float "Final_Revenue" rows ;;
  total_quantity <-? sum_int "Quantity" rows ;;
  avg_satisfaction <-? mean "Customer_Satisfaction" rows ;;
  returns_count <-? count_true "Is_Returned" rows ;;
  region <-? first "Region" rows ;;
  first_order <-? min_str "Date" rows ;;
  last_order <-? max_str "Date" rows ;;
  Some [("Customer_ID", VStr k);
        ("Total_Revenue", VFloat (round2 total_revenue));
        ("Total_Quantity", VInt total_quantity);
        ("Total_Orders", VInt (count rows));
        ("Avg_Satisfaction", VFloat (round2 avg_satisfaction));
        ("Returns_Count", VInt returns_count);
        ("Region", VStr region);
        ("First_Order_Date", VStr first_order);
        ("Last_Order_Date", VStr last_order)].

Definition customers_data (df : DataFrame) : option DataFrame :=
  gs <-? by_string "Customer_ID" df ;;
  omap customer_row gs.

(** Lines 247-258. *)
Definition product_row (group : string * list record) : option record :=
  let '(k, rows) := group in
  total_revenue <-? sum_float "Final_Revenue" rows ;;
  total_quantity <-? sum_int "Quantity" rows ;;
  avg_margin <-? mean "Final_Margin" rows ;;
  avg_satisfaction <-? mean "Customer_Satisfaction" rows ;;
  returned <-? count_true "Is_Returned" rows ;;
  return_ratio <-? py_div (inject_Z returned) (inject_Z (count rows)) ;;
  Some [("Product", VStr k);
        ("Total_Revenue", VFloat (round2 total_revenue));
        ("Total_Quantity", VInt total_quantity);
        ("Total_Orders", VInt (count rows));
        ("Avg_Margin", VFloat (round2 avg_margin));
        ("Avg_Satisfaction", VFloat (round2 avg_satisfaction));
        ("Return_Rate", VFloat (round2 (return_ratio * 100)))].

Definition product_data (df : DataFrame) : option DataFrame :=
  gs <-? by_string "Product" df ;;
  omap product_row gs.

(** Lines 262-272. *)
Definition rep_row (group : string * list record) : option record :=
  let '(k, rows) := group in
  total_revenue <-? sum_float "Final_Revenue" rows ;;
  avg_margin <-? mean "Final_Margin" rows ;;
  avg_satisfaction <-? mean "Customer_Satisfaction" rows ;;
  unique_customers <-? nunique "Customer_ID" rows ;;
  Some [("Sales_Rep", VStr k);
        ("Total_Revenue", VFloat (round2 total_revenue));
        ("Total_Orders", VInt (count rows));
        ("Avg_Margin", VFloat (round2 avg_margin));
        ("Avg_Customer_Satisfaction",
         VFloat (round2 avg_satisfaction));
        ("Unique_Customers", VInt unique_customers)].

Definition rep_data (df : DataFrame) : option DataFrame :=
  gs <-? by_string "Sales_Rep" df ;;
  omap rep_row gs.

Definition year_month (r : record) : option (Z * Z) :=
  y <-? col_int "Year" r ;; m <-? col_int "Month" r ;; Some (y, m).

Definition year_month_dec (a b : Z * Z) : {a = b} + {a <> b}.
Proof. decide equality; apply Z.eq_dec. Defined.

Definition year_month_leb (a b : Z * Z) : bool :=
  (fst a <? fst b)%Z || ((fst a =? fst b)%Z && (snd a <=? snd b)%Z).

(** Lines 276-286. *)
Definition month_row (group : Z * Z * list record) : option record :=
  let '((y, m), rows) := group in
  revenue <-? sum_float "Final_Revenue" rows ;;
  profit <-? sum_float "Final_Profit" rows ;;
  unique_customers <-? nunique "Customer_ID" rows ;;
  units_sold <-? sum_int "Quantity" rows ;;
  Some [("Year", VInt y);
        ("Month", VInt m);
        ("Revenue", VFloat (round2 revenue));
        ("Profit", VFloat (round2 profit));
        ("Orders", VInt (count rows));
        ("Unique_Customers", VInt unique_customers);
        ("Units_Sold", VInt units_sold);
        ("Date", VStr (strftime_ymd (mkdate y m 1)))].

Definition monthly_data (df : DataFrame) : option DataFrame :=
  gs <-? groupby year_month_dec year_month_leb year_month df ;;
  omap month_row gs.

End Summaries.

(* ================================================================== *)
(** ** The script *)

(** The five tables the script writes. *)
Record outputs := mkoutputs {
  sales_data : DataFrame;
  customer_summary : DataFrame;
  product_performance : DataFrame;
  sales_rep_performance : DataFrame;
  monthly_summary : DataFrame
}.

Section Script.

Context {G : Type} `{NumPy G}.

Local Open Scope monad_scope.

(** The module body: seed the global generator (line 7), generate
    (line 203), aggregate (lines 229-287). *)
Definition script : M G outputs :=
  _ <- draw (fun g => (tt, seed 42 g)) ;;
  df <- generate_sales_data ;;
  customers <- try (customers_data df) ;;
  products <- try (product_data df) ;;
  reps <- try (rep_data df) ;;
  months <- try (monthly_data df) ;;
  ret (mkoutputs df customers products reps months).

End Script.

(* ================================================================== *)
(** ** A scripted generator

    An instance of [NumPy] to run the generator on: the state is a tape
    of numbers, each call consumes one and maps its fractional part, a
    number in [0, 1), into the range of the routine.  An exhausted tape
    keeps answering 0. *)

Module Tape.

Definition frac (u : Q) : Q := u - inject_Z (Qfloor u).

Definition pop (g : list Q) : Q * list Q :=
  match g with
  | [] => (0, [])
  | u :: t => (frac u, t)
  end.

(** The position of [u] under the cumulative weights [p]. *)
Fixpoint pick (p : list Q) (u : Q) : nat :=
  match p with
  | [] => O
  | w :: t =>
      match t with
      | [] => O
      | _ => if Qlt_bool u w then O else S (pick t (u - w))
      end
  end.

(** Bhaskara's rational approximation of the sine on [0, 2 pi], kept
    between -1 and 1 elsewhere. *)
Definition sin_approx (pi x : Q) : Q :=
  let f y := 16 * y * (pi - y) / (5 * pi * pi - 4 * y * (pi - y)) in
  py_max (- (1)) (py_min 1 (if Qle_bool x pi then f x else - f (x - pi))).

Definition tape_of_seed (n : Z) : list Q :=
  map (fun k => ((Z.of_nat k * 37 + n) mod 101)%Z # 101) (seq 0 64).

#[export] Instance tape_numpy : NumPy (list Q) := {
  np_pi := 355 # 113;
  np_sin := sin_approx (355 # 113);
  seed := fun n _ => tape_of_seed n;
  poisson := fun lam g => let (u, g') := pop g in (Qfloor (2 * lam * u), g');
  choice_index := fun n g =>
    let (u, g') := pop g in (Z.to_nat (Qfloor (u * inject_Z (Z.of_nat n))), g');
  choice_index_p := fun p g => let (u, g') := pop g in (pick p u, g');
  uniform := fun lo hi g => let (u, g') := pop g in (lo + (hi - lo) * u, g');
  random := pop;
  randint := fun lo hi g =>
    let (u, g') := pop g in ((lo + Qfloor (u * inject_Z (hi - lo)))%Z, g');
  normal := fun mu sigma g =>
    let (u, g') := pop g in (mu + sigma * (6 * u - 3), g')
}.

End Tape.
Import Tape.

(* ================================================================== *)
(** ** The specification's own formulas, to compare the code with *)

Section Spec.

Context {G : Type} `{NumPy G}.

Local Open Scope string_scope.

(** The categorical override of a month, in month-check order. *)
Definition spec_override (m : Z) : Q :=
  if ((m =? 11) || (m =? 12))%Z then 1.8
  else if ((m =? 6) || (m =? 7))%Z then 1.3
  else if ((m =? 1) || (m =? 2))%Z then 0.7
  else 1.

(** Saturday and Sunday. *)
Definition spec_weekend (d : date) : bool :=
  String.eqb (strftime_A d) "Saturday" || String.eqb (strftime_A d) "Sunday".

(** The Poisson mean of a day as the specification words it. *)
Definition spec_mean (d : date) : Q :=
  15
  * ((1 + 0.3 * np_sin (2 * np_pi * inject_Z (tm_yday d) / 365))
     * spec_override (month d))
  * (if spec_weekend d then 0.8 else 1.2)
  * (1 + (inject_Z (days_between d start_date) / 365) * 0.15).

End Spec.

(** The fields of the transaction record, in the order the specification
    lists them. *)
Definition spec_fields : list string :=
  ["order_id"; "date"; "customer_id"; "product"; "category"; "region";
   "sales_rep"; "quantity"; "unit_price"; "revenue"; "cost"; "profit";
   "profit_margin"; "discount_percent"; "discount_amount"; "final_revenue";
   "final_profit"; "final_margin"; "shipping_cost"; "tax_amount";
   "customer_satisfaction"; "delivery_days"; "is_returned"; "year"; "month";
   "quarter"; "day_of_week"; "week_number"]%string.

Definition lower_ascii (c : ascii) : ascii :=
  let n := nat_of_ascii c in
  if (65 <=? n)%nat && (n <=? 90)%nat then ascii_of_nat (n + 32) else c.

Fixpoint lower (s : string) : string :=
  match s with
  | EmptyString => EmptyString
  | String c t => String (lower_ascii c) (lower t)
  end.

(* ================================================================== *)
(** ** Vocabulary of the proofs *)

(** [c] returns from [g], with a result and a state that satisfy [P]. *)
Definition returns {G A} (c : M G A) (P : A -> G -> Prop) (g : G) : Prop :=
  exists a g', c g = Some (a, g') /\ P a g'.

(** What holds of the local variables once a sale is sampled. *)
Record sale_invariant (s : sale) : Prop := {
  inv_product : In (product s) products;
  inv_category : dict_get (product s) product_categories = Some (category s);
  inv_region : In (region s) regions;
  inv_sales_rep : In (sales_rep s) sales_reps;
  inv_customer : In (customer_id s) customers;
  inv_rep_factor : dict_get (sales_rep s) rep_performance = Some (rep_factor s);
  inv_quantity : (1 <= quantity s < 20)%Z;
  inv_unit_price : 15 <= unit_price s;
  inv_revenue : revenue s = unit_price s * inject_Z (quantity s);
  inv_cost : 0 <= cost s <= revenue s * 0.7;
  inv_profit : profit s = revenue s - cost s;
  inv_profit_margin : profit_margin s = profit s / revenue s * 100;
  inv_discount_percent : 0 <= discount_percent s <= 25;
  inv_discount_amount :
    discount_amount s == revenue s * (discount_percent s / 100);
  inv_final_revenue : final_revenue s = revenue s - discount_amount s;
  inv_final_profit : final_profit s = final_revenue s - cost s;
  inv_final_margin :
    final_margin s = final_profit s / final_revenue s * 100;
  inv_tax_rate : tax_rate s = tax_rate_of (region s);
  inv_tax_amount : tax_amount s = final_revenue s * tax_rate s;
  inv_satisfaction :
    customer_satisfaction s
    = customer_satisfaction_of (final_margin s) (rep_factor s) (noise s)
}.

(** The records of a sequence of dated sales, numbered from [order_id]. *)
Fixpoint records_from (order_id : Z) (entries : list (date * sale))
  : list record :=
  match entries with
  | [] => []
  | (d, s) :: rest =>
      create_record order_id d s :: records_from (order_id + 1) rest
  end.

(** The sales of a run, day by day, each with its date. *)
Fixpoint entries_of (dates : list date) (sales : list (list sale))
  : list (date * sale) :=
  match dates, sales with
  | d :: dates', ss :: sales' => map (pair d) ss ++ entries_of dates' sales'
  | _, _ => []
  end.

(** [generate_sales_data()] returns from [g], its frame is the records,
    numbered from 1, of one list of sales per day of the range, and every
    one of these sales satisfies [P]. *)
Definition every_generated_sale {G} `{NumPy G} (P : sale -> Prop) (g : G)
  : Prop :=
  returns generate_sales_data
    (fun df _ =>
       exists sales,
         List.length (date_range start_date end_date) = List.length sales
         /\ df = records_from 1 (entries_of (date_range start_date end_date)
                                            sales)
         /\ Forall (Forall P) sales) g.

(** The sequence number an [Order_ID] carries after its prefix. *)
Definition order_number (r : record) : option Z :=
  obind (col_str "Order_ID" r) (number_after 4).

(** The rows of a product in a frame. *)
Definition product_rows (p : string) (df : DataFrame) : list record :=
  filter (has_key string_dec (col_str "Product") p) df.

(** A date that is not before [start_date]. *)
Definition from_start (d : date) : Prop :=
  (toordinal start_date <= toordinal d)%Z.

(** A row of the primary dataset. *)
Definition is_row (r : record) : Prop :=
  exists k d s, r = create_record k d s.

(** The first row of the run on the exhausted tape, where every draw is
    the lowest its routine can make: one transaction on 2022-01-01, a
    Laptop sold in North America by John Smith to the first customer at
    800 * 1.2 * 1.15 * 0.85 = 938.4, a bulk order of 5, cost ratio 0.4,
    discount 5 percent, noise -0.9. *)
Definition zero_tape_row : record :=
  [("Order_ID", VStr "ORD_000001");
   ("Date", VStr "2022-01-01");
   ("Customer_ID", VStr "CUST_00001");
   ("Product", VStr "Laptop");
   ("Category", VStr "Electronics");
   ("Region", VStr "North America");
   ("Sales_Rep", VStr "John Smith");
   ("Quantity", VInt 5);
   ("Unit_Price", VFloat 938.40);
   ("Revenue", VFloat 4692.00);
   ("Cost", VFloat 1876.80);
   ("Profit", VFloat 2815.20);
   ("Profit_Margin", VFloat 60.00);
   ("Discount_Percent", VFloat 5.00);
   ("Discount_Amount", VFloat 234.60);
   ("Final_Revenue", VFloat 4457.40);
   ("Final_Profit", VFloat 2580.60);
   ("Final_Margin", VFloat 57.89);
   ("Shipping_Cost", VFloat 2.00);
   ("Tax_Amount", VFloat 356.59);
   ("Customer_Satisfaction", VFloat 3.19);
   ("Delivery_Days", VInt 1);
   ("Is_Returned", VBool true);
   ("Year", VInt 2022);
   ("Month", VInt 1);
   ("Quarter", VStr "Q1");
   ("Day_of_Week", VStr "Saturday");
   ("Week_Number", VInt 52)]%string.

(** A tape for a sale whose tax falls just above a rounding boundary:
    one transaction on 2022-01-01, a Laptop sold in North America by John
    Smith, the price variation drawn so that the unit price is
    800 * 1.2 * 1.15 * (0.85 + 0.4 * 616649/4416000) = 1000.0649, a single
    item, cost ratio 0.4, no discount; the tax is 80.005192. *)
Definition boundary_tape : list Q :=
  [0; 0; 0; 0; 0; 616649 # 4416000; 1#2; 0; 0; 1#2].

(** The first row of the run on [boundary_tape]. *)
Definition boundary_row : record :=
  [("Order_ID", VStr "ORD_000001");
   ("Date", VStr "2022-01-01");
   ("Customer_ID", VStr "CUST_00001");
   ("Product", VStr "Laptop");
   ("Category", VStr "Electronics");
   ("Region", VStr "North America");
   ("Sales_Rep", VStr "John Smith");
   ("Quantity", VInt 1);
   ("Unit_Price", VFloat 1000.06);
   ("Revenue", VFloat 1000.06);
   ("Cost", VFloat 400.03);
   ("Profit", VFloat 600.04);
   ("Profit_Margin", VFloat 60.00);
   ("Discount_Percent", VFloat 0.00);
   ("Discount_Amount", VFloat 0.00);
   ("Final_Revenue", VFloat 1000.06);
   ("Final_Profit", VFloat 600.04);
   ("Final_Margin", VFloat 60.00);
   ("Shipping_Cost", VFloat 2.00);
   ("Tax_Amount", VFloat 80.01);
   ("Customer_Satisfaction", VFloat 3.20);
   ("Delivery_Days", VInt 1);
   ("Is_Returned", VBool true);
   ("Year", VInt 2022);
   ("Month", VInt 1);
   ("Quarter", VStr "Q1");
   ("Day_of_Week", VStr "Saturday");
   ("Week_Number", VInt 52)]%string.

(** The column names of the primary dataset. *)
Definition sales_columns : list string :=
  ["Order_ID"; "Date"; "Customer_ID"; "Product"; "Category"; "Region";
   "Sales_Rep"; "Quantity"; "Unit_Price"; "Revenue"; "Cost"; "Profit";
   "Profit_Margin"; "Discount_Percent"; "Discount_Amount"; "Final_Revenue";
   "Final_Profit"; "Final_Margin"; "Shipping_Cost"; "Tax_Amount";
   "Customer_Satisfaction"; "Delivery_Days"; "Is_Returned"; "Year"; "Month";
   "Quarter"; "Day_of_Week"; "Week_Number"]%string.

(* ================================================================== *)
(** ** Further vocabulary *)

(** The ranges the draws of one transaction leave its local variables
    in (lines 87-162). *)
Record sale_ranges (s : sale) : Prop := {
  rg_quantity : (1 <= quantity s <= 3 \/ 5 <= quantity s <= 19)%Z;
  rg_unit_price :
    exists b, dict_get (product s) base_prices = Some b
              /\ inject_Z b * 0.61285 <= unit_price s <= inject_Z b * 1.725;
  rg_cost : revenue s * 0.4 <= cost s <= revenue s * 0.7;
  rg_discount :
    (discount_percent s = 0 /\ discount_amount s = 0)
    \/ (5 <= discount_percent s <= 25
        /\ discount_amount s = revenue s * (discount_percent s / 100));
  rg_shipping :
    if String.eqb (region s) "North America"
    then 2 <= shipping_cost s <= 10
    else 5 <= shipping_cost s <= 25;
  rg_delivery :
    exists lo hi, dict_get (region s) region_delivery_days = Some (lo, hi)
                  /\ (lo <= delivery_days s <= hi)%Z;
  rg_returned :
    exists u,
      is_returned s
      = Qlt_bool u
          (py_max 0.01 (0.15 - (customer_satisfaction s - 3) * 0.03))
}.

(** Everything known of a generated sale. *)
Definition sale_facts (s : sale) : Prop := sale_invariant s /\ sale_ranges s.

(** Line 21 (the script never reads it). *)
Definition categories : list string :=
  ["Electronics"; "Accessories"; "Peripherals"]%string.

(** Line 161. *)
Definition return_probability (customer_satisfaction : Q) : Q :=
  py_max 0.01 (0.15 - (customer_satisfaction - 3) * 0.03).

(** Every element is at most every later one, in string order. *)
Fixpoint ascending (l : list string) : bool :=
  match l with
  | [] => true
  | x :: t => forallb (String.leb x) t && ascending t
  end.

(** What a date of the range gives the calendar columns. *)
Definition calendar_ok (d : date) : bool :=
  (2022 <=? year d)%Z && (year d <=? 2024)%Z
  && (1 <=? month d)%Z && (month d <=? 12)%Z
  && (1 <=? (month d - 1) / 3 + 1)%Z && ((month d - 1) / 3 + 1 <=? 4)%Z
  && (1 <=? iso_week d)%Z && (iso_week d <=? 53)%Z
  && (String.length (strftime_ymd d) =? 10)%nat
  && existsb (String.eqb (strftime_A d)) day_names.

(** A float column read as a weight of the rows. *)
Definition weight (c : string) (r : record) : Q :=
  match col_float c r with Some x => x | None => 0 end.

(** An integer column read as a weight of the rows. *)
Definition units (c : string) (r : record) : Z :=
  match col_int c r with Some n => n | None => 0%Z end.

(** The totals of a column over a list of rows. *)
Definition total (c : string) (rows : list record) : Q :=
  Qsum (map (weight c) rows).

Definition total_units (c : string) (rows : list record) : Z :=
  fold_right Z.add 0%Z (map (units c) rows).

(** The frame of a run of the generator: the records, numbered from 1,
    of one list of sales per day of the range, none of them empty. *)
Definition generated (df : DataFrame) : Prop :=
  exists sales,
    List.length (date_range start_date end_date) = List.length sales
    /\ df = records_from 1 (entries_of (date_range start_date end_date)
                                       sales)
    /\ Forall (Forall sale_facts) sales
    /\ Forall (fun ss => ss <> []) sales.

(** The four summary tables are the ones of the frame. *)
Definition tables_of (o : outputs) : Prop :=
  customers_data (sales_data o) = Some (customer_summary o)
  /\ product_data (sales_data o) = Some (product_performance o)
  /\ rep_data (sales_data o) = Some (sales_rep_performance o)
  /\ monthly_data (sales_data o) = Some (monthly_summary o).

(** A row of a run of the generator: the record of a sale of a day of
    the range. *)
Definition generated_row (r : record) : Prop :=
  exists k d s,
    In d (date_range start_date end_date) /\ sale_facts s
    /\ r = create_record k d s.

(** The months of the range, in order. *)
Definition months : list (Z * Z) :=
  flat_map (fun y => map (pair y) [1; 2; 3; 4; 5; 6; 7; 8; 9; 10; 11; 12]%Z)
    [2022; 2023; 2024]%Z.

(** The orders a key comparison gives. *)
Definition ascending_by {K} (leb : K -> K -> bool) (a b : K) : Prop :=
  leb a b = true.

Definition strictly_by {K} (leb : K -> K -> bool) (a b : K) : Prop :=
  leb a b = true /\ a <> b.

(* ================================================================== *)
(** ** The figures the script prints *)

Module Report.


Local Open Scope monad_scope.
Local Open Scope string_scope.


End Report.

(* ================================================================== *)
(** ** The dashboard (sales_dashboard.py) *)

Module Dashboard.

Local Open Scope monad_scope.
Local Open Scope string_scope.

(** One row of the sample frame, lines 113-128; its [Date] is a
    [Timestamp] at midnight, its [Quarter] a number. *)
Record row := mkrow {
  Date : date;
  Product : string;
  Category : string;
  Region : string;
  Sales_Rep : string;
  Quantity : Z;
  Unit_Price : Q;
  Revenue : Q;
  Cost : Q;
  Profit : Q;
  Profit_Margin : Q;
  Year : Z;
  Month : Z;
  Quarter : Z
}.

(** Lines 76-77. *)
Definition start_date : date := mkdate 2022 1 1.
Definition end_date : date := mkdate 2024 12 31.

(** Lines 81-84. *)
Definition products : list string :=
  ["Laptop"; "Desktop"; "Monitor"; "Keyboard"; "Mouse"; "Printer";
   "Scanner"; "Tablet"].

Definition categories : list string :=
  ["Electronics"; "Accessories"; "Peripherals"].

Definition regions : list string :=
  ["North America"; "Europe"; "Asia Pacific"; "South America"; "Africa"].

Definition sales_reps : list string :=
  ["John Smith"; "Sarah Johnson"; "Mike Wilson"; "Lisa Brown"; "Tom Davis"].

(** Lines 99-102. *)
Definition base_prices : dict Z :=
  [("Laptop", 800); ("Desktop", 600); ("Monitor", 300); ("Keyboard", 50);
   ("Mouse", 25); ("Printer", 150); ("Scanner", 200); ("Tablet", 400)]%Z.

(** [dates[::3]]. *)
Fixpoint every_third {A} (l : list A) : list A :=
  match l with
  | a :: _ :: _ :: t => a :: every_third t
  | a :: _ => [a]
  | [] => []
  end.

(** [Timestamp.quarter]. *)
Definition quarter (d : date) : Z := (month d - 1) / 3 + 1.

Section Sample.

Context {G : Type} `{NumPy G}.

(** Lines 109-110. *)
Definition month_factor (date : date) : Q :=
  1 + 0.2 * np_sin (2 * np_pi * inject_Z (month date) / 12).

Definition year_factor (date : date) : Q :=
  1 + 0.1 * inject_Z (year date - 2022).

(** Lines 93-128: one sale of the sample. *)
Definition sample_row (date : date) : M G row :=
  product <- choice products ;;
  category <- choice categories ;;
  region <- choice regions ;;
  sales_rep <- choice sales_reps ;;
  base_price <- try (dict_get product base_prices) ;;
  variation <- draw (uniform 0.8 1.3) ;;
  let price := inject_Z base_price * variation in
  quantity <- random_randint 1 5 ;;
  let revenue := price * inject_Z quantity in
  let revenue := revenue * (month_factor date * year_factor date) in
  ret (mkrow date product category region sales_rep quantity
         (round2 price) (round2 revenue) (round2 (revenue * 0.6))
         (round2 (revenue * 0.4)) 40.0 (year date) (month date)
         (quarter date)).

(** The loop of line 92. *)
Fixpoint sales (n : nat) (date : date) (data : list row)
  : M G (list row) :=
  match n with
  | O => ret data
  | S k => r <- sample_row date ;; sales k date (data ++ [r])%list
  end.

(** The loop of line 89; a day whose draw is 0 adds no row. *)
Fixpoint sample_days (dates : list date) (data : list row)
  : M G (list row) :=
  match dates with
  | [] => ret data
  | date :: rest =>
      num_sales <- random_poisson 8 ;;
      data' <- sales (Z.to_nat num_sales) date data ;;
      sample_days rest data'
  end.

(** [generate_sample_data()], lines 71-131. *)
Definition generate_sample_data : M G (list row) :=
  _ <- draw (fun g => (tt, seed 42 g)) ;;
  sample_days (every_third (date_range start_date end_date)) [].

End Sample.

(** *** The filters, lines 155-193 *)



(** [Series.unique()]: the values in order of first appearance. *)
Fixpoint unique (l : list string) : list string :=
  match l with
  | [] => []
  | x :: t => x :: filter (fun y => negb (String.eqb x y)) (unique t)
  end.






(** *** The metrics, lines 198-228 *)

Definition total_revenue (df : list row) : Q := Qsum (map Revenue df).







(** *** Vocabulary *)

(** What holds of every row of the sample. *)
Record sample_facts (r : row) : Prop := {
  sf_date : In (Date r) (every_third (date_range start_date end_date));
  sf_product : In (Product r) products;
  sf_category : In (Category r) categories;
  sf_region : In (Region r) regions;
  sf_sales_rep : In (Sales_Rep r) sales_reps;
  sf_quantity : (1 <= Quantity r <= 4)%Z;
  sf_unit_price :
    exists b, dict_get (Product r) base_prices = Some b
              /\ inject_Z b * 0.8 <= Unit_Price r <= inject_Z b * 1.3;
  sf_revenue : 16 <= Revenue r <= 5990.4;
  sf_split : Qabs (Cost r + Profit r - Revenue r) <= 0.01;
  sf_margin : Profit_Margin r = 40.0;
  sf_year : Year r = year (Date r) /\ (2022 <= Year r <= 2024)%Z;
  sf_month : Month r = month (Date r) /\ (1 <= Month r <= 12)%Z;
  sf_quarter :
    (Quarter r = (Month r - 1) / 3 + 1)%Z /\ (1 <= Quarter r <= 4)%Z
}.


End Dashboard.

(* ================================================================== *)
(** * Properties *)

(** ** The model on known values *)

Example start_date_is_a_saturday :
  weekday start_date = 5%Z /\ strftime_A start_date = "Saturday"%string
  /\ strftime_ymd start_date = "2022-01-01"%string
  /\ iso_week start_date = 52%Z /\ tm_yday end_date = 366%Z
  /\ iso_week end_date = 1%Z /\ days_between end_date start_date = 1095%Z.
Proof. vm_compute. repeat split. Qed.

Example range_has_1096_days :
  List.length (date_range start_date end_date) = 1096%nat.
Proof. vm_compute. reflexivity. Qed.

Example customers_pool :
  hd_error customers = Some "CUST_00001"%string
  /\ nth_error customers 999 = Some "CUST_01000"%string.
Proof. vm_compute. split; reflexivity. Qed.

Example weights_are_probabilities :
  valid_p 5 region_weights = true /\ valid_p 10 rep_weights = true.
Proof. vm_compute. split; reflexivity. Qed.

Example round2_ties_to_even :
  round2 0.125 = 0.12 /\ round2 0.135 = 0.14 /\ round2 356.592 = 356.59
  /\ round2 (- 0.125) = - 0.12.
Proof. vm_compute. repeat split. Qed.

Example first_day_factors {G : Type} `{NumPy G} :
  daily_factor start_date = 0.8 /\ growth_factor start_date == 1
  /\ spec_override (month start_date) = 0.7.
Proof. vm_compute. repeat split. Qed.

(** ** Arithmetic *)

Lemma Qlt_bool_iff (x y : Q) : Qlt_bool x y = true <-> x < y.
Proof.
  unfold Qlt_bool. rewrite negb_true_iff. split; intro E.
  - apply Qnot_le_lt. intro L. apply Qle_bool_iff in L. congruence.
  - destruct (Qle_bool y x) eqn:B; [|reflexivity].
    apply Qle_bool_iff in B. exfalso. apply (Qlt_not_le _ _ E B).
Qed.

Lemma Qlt_bool_false (x y : Q) : Qlt_bool x y = false <-> y <= x.
Proof.
  unfold Qlt_bool. rewrite negb_false_iff. apply Qle_bool_iff.
Qed.

Lemma py_max_ge (a b : Q) : a <= py_max a b /\ b <= py_max a b.
Proof.
  unfold py_max. destruct (Qlt_bool a b) eqn:E.
  - apply Qlt_bool_iff in E. split; lra.
  - apply Qlt_bool_false in E. split; lra.
Qed.

Lemma py_min_le (a b : Q) : py_min a b <= a /\ py_min a b <= b.
Proof.
  unfold py_min. destruct (Qlt_bool b a) eqn:E.
  - apply Qlt_bool_iff in E. split; lra.
  - apply Qlt_bool_false in E. split; lra.
Qed.

Lemma py_min_ge (a b c : Q) : c <= a -> c <= b -> c <= py_min a b.
Proof. unfold py_min. destruct (Qlt_bool b a); auto. Qed.

Lemma py_max_le (a b c : Q) : a <= c -> b <= c -> py_max a b <= c.
Proof. unfold py_max. destruct (Qlt_bool a b); auto. Qed.

Lemma clamp_between (x : Q) : 1 <= py_min 5 (py_max 1 x) <= 5.
Proof.
  split.
  - apply py_min_ge; [lra | apply py_max_ge].
  - apply py_min_le.
Qed.

Lemma py_div_some (a b : Q) : ~ b == 0 -> py_div a b = Some (a / b).
Proof.
  intro N. unfold py_div. destruct (Qeq_bool b 0) eqn:E; [|reflexivity].
  apply Qeq_bool_eq in E. contradiction.
Qed.

(** Rounding moves a number by half a unit at most. *)
Lemma round_half_even_near (q : Q) :
  inject_Z (round_half_even q) - (1#2) <= q
  /\ q <= inject_Z (round_half_even q) + (1#2).
Proof.
  unfold round_half_even.
  pose proof (Qfloor_le q) as L. pose proof (Qlt_floor q) as U.
  rewrite inject_Z_plus in U. change (inject_Z 1) with 1 in U.
  destruct (Qlt_bool (q - inject_Z (Qfloor q)) (1#2)) eqn:A.
  - apply Qlt_bool_iff in A. split; lra.
  - apply Qlt_bool_false in A.
    destruct (Qlt_bool (1#2) (q - inject_Z (Qfloor q))) eqn:B.
    + rewrite inject_Z_plus. change (inject_Z 1) with 1. split; lra.
    + apply Qlt_bool_false in B.
      destruct (Z.even (Qfloor q)).
      * split; lra.
      * rewrite inject_Z_plus. change (inject_Z 1) with 1. split; lra.
Qed.

(** Rounding leaves an integer alone. *)
Lemma round_half_even_Z (q : Q) (k : Z) :
  q == inject_Z k -> round_half_even q = k.
Proof.
  intro E. unfold round_half_even.
  assert (F : Qfloor q = k) by (rewrite E; apply Qfloor_Z).
  rewrite F.
  assert (A : Qlt_bool (q - inject_Z k) (1#2) = true)
    by (apply Qlt_bool_iff; lra).
  rewrite A. reflexivity.
Qed.

Lemma Qmake_100 (k : Z) : k # 100 == inject_Z k * (1 # 100).
Proof. unfold Qeq, Qmult, inject_Z. simpl. lia. Qed.

Lemma round2_near (q : Q) : Qabs (round2 q - q) <= 1 # 200.
Proof.
  unfold round2. rewrite Qmake_100.
  destruct (round_half_even_near (q * 100)) as [L U].
  apply Qabs_Qle_condition. split; lra.
Qed.

Lemma round2_cents (q : Q) : cents (round2 q).
Proof. exists (round_half_even (q * 100)). reflexivity. Qed.

Lemma round2_of_cents (x : Q) : cents x -> round2 x == x.
Proof.
  intros [k E]. unfold round2.
  rewrite (round_half_even_Z (x * 100) k).
  - symmetry. exact E.
  - rewrite E, (Qmake_100 k). lra.
Qed.

Lemma fold_Qplus_acc (l : list Q) (a : Q) :
  fold_left Qplus l a == a + fold_left Qplus l 0.
Proof.
  revert a. induction l as [|x l IH]; intro a; simpl.
  - lra.
  - rewrite IH. rewrite (IH (0 + x)). lra.
Qed.

Lemma Qsum_cons (x : Q) (l : list Q) : Qsum (x :: l) == x + Qsum l.
Proof. unfold Qsum. simpl. rewrite fold_Qplus_acc. lra. Qed.

Lemma Qsum_cents (l : list Q) : Forall cents l -> cents (Qsum l).
Proof.
  induction 1 as [|x l [k E] _ [m IH]].
  - exists 0%Z. reflexivity.
  - exists (k + m)%Z.
    rewrite Qsum_cons, E, IH, (Qmake_100 k), (Qmake_100 m),
      (Qmake_100 (k + m)), inject_Z_plus.
    lra.
Qed.

(** ** The monad *)

Section MonadFacts.

Context {G : Type}.

Lemma bind_inv {A B} (c : M G A) (k : A -> M G B) g b g2 :
  bind c k g = Some (b, g2) ->
  exists a g1, c g = Some (a, g1) /\ k a g1 = Some (b, g2).
Proof.
  unfold bind. destruct (c g) as [[a g1]|]; [|discriminate].
  intro E. exists a, g1. auto.
Qed.

Lemma bind_some {A B} (c : M G A) (k : A -> M G B) g a g1 :
  c g = Some (a, g1) -> bind c k g = k a g1.
Proof. unfold bind. intros ->. reflexivity. Qed.

Lemma draw_some {A} (f : G -> A * G) g :
  draw f g = Some (fst (f g), snd (f g)).
Proof. unfold draw. destruct (f g); reflexivity. Qed.

Lemma try_inv {A} (o : option A) (g : G) a g1 :
  try o g = Some (a, g1) -> o = Some a /\ g1 = g.
Proof. unfold try. destruct o; [|discriminate]. intro E. inversion E. auto. Qed.

Lemma try_some {A} (o : option A) (g : G) a :
  o = Some a -> try o g = Some (a, g).
Proof. intros ->. reflexivity. Qed.

End MonadFacts.

(** Take a successful run apart, one call at a time. *)
Ltac unbind H :=
  let a := fresh "v" in
  let g := fresh "g" in
  let E := fresh "E" in
  apply bind_inv in H; destruct H as (a & g & E & H).

(** ** The lookup tables *)

Lemma product_tables (p : string) :
  In p products ->
  exists c b, dict_get p product_categories = Some c
              /\ dict_get p base_prices = Some b /\ (25 <= b)%Z.
Proof.
  unfold products. simpl.
  intros [<-|[<-|[<-|[<-|[<-|[<-|[<-|[<-|[]]]]]]]]];
    do 2 eexists; (split; [reflexivity|split; [reflexivity|lia]]).
Qed.

Lemma region_tables (r : string) :
  In r regions ->
  exists m lo hi, dict_get r region_multipliers = Some m /\ 0.7 <= m
                  /\ dict_get r region_delivery_days = Some (lo, hi)
                  /\ (lo < hi + 1)%Z.
Proof.
  unfold regions. simpl.
  intros [<-|[<-|[<-|[<-|[<-|[]]]]]];
    do 3 eexists;
    (split; [reflexivity|split; [|split; [reflexivity|lia]]]);
    unfold Qle; simpl; lia.
Qed.

Lemma rep_tables (r : string) :
  In r sales_reps ->
  exists f, dict_get r rep_performance = Some f /\ 1.03 <= f.
Proof.
  unfold sales_reps. simpl.
  intros [<-|[<-|[<-|[<-|[<-|[<-|[<-|[<-|[<-|[<-|[]]]]]]]]]]];
    eexists; (split; [reflexivity|]); unfold Qle; simpl; lia.
Qed.

Lemma customers_length : List.length customers = 1000%nat.
Proof. unfold customers. rewrite length_map, length_seq. reflexivity. Qed.

(** ** The date range *)

Section DateRange.

Local Open Scope Z_scope.

Lemma valid_dateb_iff d : valid_dateb d = true <-> valid_date d.
Proof.
  unfold valid_dateb, valid_date. rewrite !andb_true_iff, !Z.leb_le. tauto.
Qed.

Lemma date_eqb_eq a b : date_eqb a b = true <-> a = b.
Proof.
  destruct a, b. unfold date_eqb. simpl.
  rewrite !andb_true_iff, !Z.eqb_eq. split.
  - intros [[-> ->] ->]. reflexivity.
  - intro E. inversion E. auto.
Qed.

Lemma year_day_bound y m dd :
  valid_date (mkdate y m dd) ->
  1 <= days_before_month y m + dd <= 366
  /\ (is_leap y = false -> days_before_month y m + dd <= 365).
Proof.
  unfold valid_date. cbn [year month day]. intros [Hm Hd].
  assert (C : m = 1 \/ m = 2 \/ m = 3 \/ m = 4 \/ m = 5 \/ m = 6 \/ m = 7
              \/ m = 8 \/ m = 9 \/ m = 10 \/ m = 11 \/ m = 12) by lia.
  unfold days_before_month, days_in_month in *.
  destruct C as [->|[->|[->|[->|[->|[->|[->|[->|[->|[->|[->| ->]]]]]]]]]]];
    destruct (is_leap y);
    repeat match goal with
      | |- context [nth ?a ?b ?c] =>
          let v := eval vm_compute in (nth a b c) in
          change (nth a b c) with v
      | |- context [if ?c then ?a else ?b] =>
          let v := eval vm_compute in (if c then a else b) in
          change (if c then a else b) with v
      | H : context [if ?c then ?a else ?b] |- _ =>
          let v := eval vm_compute in (if c then a else b) in
          change (if c then a else b) with v in H
      end;
    (split; [lia|intro; first [discriminate | lia]]).
Qed.

Lemma range_years d :
  valid_date d ->
  toordinal start_date <= toordinal d <= toordinal end_date ->
  2022 <= year d <= 2024.
Proof.
  destruct d as [y m dd]. intros V.
  destruct (year_day_bound y m dd V) as [B L].
  change (toordinal start_date) with 738156.
  change (toordinal end_date) with 739251.
  unfold toordinal, days_before_year. cbn [year month day]. intros R.
  destruct (Z.eq_dec y 2021) as [->|N1].
  - specialize (L eq_refl).
    change ((2021 - 1) * 365 + (2021 - 1) / 4 - (2021 - 1) / 100
            + (2021 - 1) / 400) with 737790 in R.
    lia.
  - destruct (Z.eq_dec y 2025) as [->|N2].
    + change ((2025 - 1) * 365 + (2025 - 1) / 4 - (2025 - 1) / 100
              + (2025 - 1) / 400) with 739251 in R.
      lia.
    + clear L V. Z.div_mod_to_equations. lia.
Qed.

(** [date_range start_date end_date] holds every calendar day from
    2022-01-01 to 2024-12-31, and nothing else. *)
Lemma date_range_days (d : date) :
  In d (date_range start_date end_date)
  <-> valid_date d
      /\ toordinal start_date <= toordinal d <= toordinal end_date.
Proof.
  split.
  - intro I.
    assert (C : forallb
                  (fun d => valid_dateb d
                            && (toordinal start_date <=? toordinal d)
                            && (toordinal d <=? toordinal end_date))
                  (date_range start_date end_date) = true)
      by (vm_compute; reflexivity).
    rewrite forallb_forall in C. specialize (C d I).
    rewrite !andb_true_iff, !Z.leb_le, valid_dateb_iff in C. tauto.
  - intros [V R]. pose proof (range_years d V R) as Y.
    assert (C : forallb
                  (fun y =>
                     forallb
                       (fun m =>
                          forallb
                            (fun dd =>
                               implb (valid_dateb (mkdate y m dd))
                                 (existsb (date_eqb (mkdate y m dd))
                                    (date_range start_date end_date)))
                            (map Z.of_nat (seq 1 31)))
                       (map Z.of_nat (seq 1 12)))
                  [2022; 2023; 2024] = true)
      by (vm_compute; reflexivity).
    destruct d as [y m dd]. cbn [year] in Y.
    pose proof V as [Vm Vd]. cbn [year month day] in Vm, Vd.
    assert (Dm : days_in_month y m <= 31)
      by (unfold days_in_month;
          repeat match goal with |- context [if ?c then _ else _] =>
                   destruct c end; lia).
    rewrite forallb_forall in C.
    assert (Iy : In y [2022; 2023; 2024]) by (simpl; lia).
    specialize (C y Iy). rewrite forallb_forall in C.
    assert (Im : In m (map Z.of_nat (seq 1 12))).
    { apply in_map_iff. exists (Z.to_nat m). split; [lia|].
      apply in_seq. lia. }
    specialize (C m Im). rewrite forallb_forall in C.
    assert (Id : In dd (map Z.of_nat (seq 1 31))).
    { apply in_map_iff. exists (Z.to_nat dd). split; [lia|].
      apply in_seq. lia. }
    specialize (C dd Id).
    apply valid_dateb_iff in V. rewrite V in C. cbn [implb] in C.
    apply existsb_exists in C as (d' & I & E).
    apply date_eqb_eq in E. rewrite E. exact I.
Qed.

Lemma range_from_start :
  Forall from_start (date_range start_date end_date).
Proof.
  apply Forall_forall. intros d I. apply date_range_days in I. apply I.
Qed.

End DateRange.

(** ** Sampling *)

Section Sampling.

Context {G : Type} `{NumPy G}.

Lemma choice_inv {A} (a : list A) (g : G) x g1 :
  choice a g = Some (x, g1) -> In x a.
Proof.
  unfold choice. intro E. unbind E.
  apply try_inv in E as [E _]. eapply nth_error_In; eauto.
Qed.

Lemma choice_p_inv {A} (a : list A) (p : list Q) (g : G) x g1 :
  choice_p a p g = Some (x, g1) -> In x a.
Proof.
  unfold choice_p. destruct (valid_p _ _); [|discriminate].
  intro E. unbind E.
  apply try_inv in E as [E _]. eapply nth_error_In; eauto.
Qed.

Context `{!LawfulNumPy G}.

Lemma choice_total {A} (a : list A) (g : G) :
  (0 < List.length a)%nat -> exists x g1, choice a g = Some (x, g1).
Proof.
  intro L. unfold choice.
  pose proof (choice_index_lt (List.length a) g L) as B.
  destruct (nth_error a (fst (choice_index (List.length a) g))) as [x|] eqn:E.
  - exists x, (snd (choice_index (List.length a) g)).
    rewrite (bind_some _ _ _ _ _ (draw_some _ _)).
    apply try_some. exact E.
  - apply nth_error_None in E. lia.
Qed.

Lemma choice_p_total {A} (a : list A) (p : list Q) (g : G) :
  valid_p (List.length a) p = true -> (0 < List.length a)%nat ->
  exists x g1, choice_p a p g = Some (x, g1).
Proof.
  intros V L. unfold choice_p. rewrite V.
  assert (E : List.length p = List.length a).
  { unfold valid_p in V. apply andb_prop in V as [V _].
    apply andb_prop in V as [V _]. apply Nat.eqb_eq in V. exact V. }
  assert (B : (fst (choice_index_p p g) < List.length a)%nat).
  { rewrite <- E. apply choice_index_p_lt. lia. }
  destruct (nth_error a (fst (choice_index_p p g))) as [x|] eqn:N.
  - exists x, (snd (choice_index_p p g)).
    rewrite (bind_some _ _ _ _ _ (draw_some _ _)).
    apply try_some. exact N.
  - apply nth_error_None in N. lia.
Qed.

End Sampling.

(** ** Reasoning about a run, call by call *)

Section Returns.

Context {G : Type} `{NumPy G}.

Lemma returns_bind {A B} (c : M G A) (k : A -> M G B) P g :
  returns c (fun a g1 => returns (k a) P g1) g -> returns (bind c k) P g.
Proof.
  intros (a & g1 & E & b & g2 & E2 & HP).
  exists b, g2. split; [|exact HP].
  rewrite (bind_some _ _ _ _ _ E). exact E2.
Qed.

Lemma returns_ret {A} (a : A) (P : A -> G -> Prop) g :
  P a g -> returns (ret a) P g.
Proof. intro HP. exists a, g. auto. Qed.

Lemma returns_draw {A} (f : G -> A * G) (P : A -> G -> Prop) g :
  P (fst (f g)) (snd (f g)) -> returns (draw f) P g.
Proof.
  intro HP. exists (fst (f g)), (snd (f g)).
  split; [apply draw_some|auto].
Qed.

Lemma returns_try {A} (o : option A) (P : A -> G -> Prop) g a :
  o = Some a -> P a g -> returns (try o) P g.
Proof. intros -> HP. exists a, g. auto. Qed.

Lemma returns_weaken {A} (c : M G A) (P Q : A -> G -> Prop) g :
  (forall a g1, P a g1 -> Q a g1) -> returns c P g -> returns c Q g.
Proof. intros W (a & g1 & E & HP). exists a, g1. auto. Qed.

Lemma returns_unique {A} (c : M G A) (P : A -> G -> Prop) g a g1 :
  returns c P g -> c g = Some (a, g1) -> P a g1.
Proof.
  intros (a' & g' & E & HP) E'. rewrite E in E'.
  inversion E'; subst. exact HP.
Qed.

Context `{!LawfulNumPy G}.

Lemma returns_choice {A} (a : list A) (P : A -> G -> Prop) g :
  (0 < List.length a)%nat -> (forall x g1, In x a -> P x g1) ->
  returns (choice a) P g.
Proof.
  intros L HP. destruct (choice_total a g L) as (x & g1 & E).
  exists x, g1. split; [exact E|]. apply HP. eapply choice_inv; eauto.
Qed.

Lemma returns_choice_p {A} (a : list A) (p : list Q) (P : A -> G -> Prop) g :
  valid_p (List.length a) p = true -> (0 < List.length a)%nat ->
  (forall x g1, In x a -> P x g1) ->
  returns (choice_p a p) P g.
Proof.
  intros V L HP. destruct (choice_p_total a p g V L) as (x & g1 & E).
  exists x, g1. split; [exact E|]. apply HP. eapply choice_p_inv; eauto.
Qed.

Lemma returns_uniform (lo hi : Q) (P : Q -> G -> Prop) g :
  lo <= hi -> (forall x g1, lo <= x <= hi -> P x g1) ->
  returns (draw (uniform lo hi)) P g.
Proof. intros L HP. apply returns_draw, HP, uniform_between, L. Qed.

Lemma returns_randint (lo hi : Z) (P : Z -> G -> Prop) g :
  (lo < hi)%Z -> (forall x g1, (lo <= x < hi)%Z -> P x g1) ->
  returns (random_randint lo hi) P g.
Proof.
  intros L HP. unfold random_randint.
  destruct (Z.ltb_spec lo hi) as [_|N]; [|lia].
  apply returns_draw, HP, randint_between, L.
Qed.

Lemma returns_poisson (lam : Q) (P : Z -> G -> Prop) g :
  0 <= lam -> P (fst (poisson lam g)) (snd (poisson lam g)) ->
  returns (random_poisson lam) P g.
Proof.
  intros L HP. unfold random_poisson.
  destruct (Qlt_bool lam 0) eqn:E.
  - apply Qlt_bool_iff in E. lra.
  - apply returns_draw, HP.
Qed.

(** The guard of line 138 never lets the division raise. *)
Lemma returns_final_margin (fp fr : Q) (P : Q -> G -> Prop) g :
  P (if Qlt_bool 0 fr then fp / fr * 100 else 0) g ->
  returns (final_margin_of fp fr) P g.
Proof.
  unfold final_margin_of. destruct (Qlt_bool 0 fr) eqn:E; intro HP.
  - apply Qlt_bool_iff in E. apply returns_bind. unfold div.
    eapply returns_try; [apply py_div_some; lra|].
    apply returns_ret. exact HP.
  - apply returns_ret. exact HP.
Qed.

End Returns.

(** ** One sale *)

Lemma inject_Z_le_1 (q : Z) : (1 <= q)%Z -> 1 <= inject_Z q.
Proof. intro L. change 1 with (inject_Z 1). rewrite <- Zle_Qle. exact L. Qed.

(** The cheapest product, in the cheapest region, sold by the weakest
    representative at the lowest variation. *)
Lemma unit_price_floor (b : Z) (m f pv : Q) :
  (25 <= b)%Z -> 0.7 <= m -> 1.03 <= f -> 0.85 <= pv ->
  15 <= inject_Z b * m * f * pv.
Proof.
  intros Lb Lm Lf Lpv.
  assert (B : 25 <= inject_Z b)
    by (change 25 with (inject_Z 25); rewrite <- Zle_Qle; exact Lb).
  assert (S1 : 25 * 0.7 <= inject_Z b * m)
    by (apply Qmult_le_compat_nonneg; split; (lra || assumption)).
  assert (S2 : 25 * 0.7 * 1.03 <= inject_Z b * m * f)
    by (apply Qmult_le_compat_nonneg; split; (lra || assumption)).
  assert (S3 : 25 * 0.7 * 1.03 * 0.85 <= inject_Z b * m * f * pv)
    by (apply Qmult_le_compat_nonneg; split; (lra || assumption)).
  lra.
Qed.

Section Run.

Context {G : Type} `{NumPy G} `{!LawfulNumPy G}.

(** Sampling a sale returns, and its variables satisfy the invariant. *)
Lemma sample_sale_spec (g : G) :
  returns sample_sale (fun s _ => sale_invariant s) g.
Proof.
  unfold sample_sale.
  apply returns_bind, returns_choice; [simpl; lia|]. intros p g1 Hp.
  destruct (product_tables p Hp) as (c & b & Ec & Eb & Lb).
  apply returns_bind. eapply returns_try; [exact Ec|].
  apply returns_bind, returns_choice_p; [reflexivity|simpl; lia|].
  intros r g2 Hr.
  destruct (region_tables r Hr) as (m & lo & hi & Em & Lm & Ed & Ld).
  apply returns_bind, returns_choice_p; [reflexivity|simpl; lia|].
  intros rep g3 Hrep.
  destruct (rep_tables rep Hrep) as (f & Ef & Lf).
  apply returns_bind, returns_choice; [rewrite customers_length; lia|].
  intros cu g4 Hcu.
  apply returns_bind. eapply returns_try; [exact Eb|].
  apply returns_bind. eapply returns_try; [exact Em|].
  apply returns_bind. eapply returns_try; [exact Ef|].
  apply returns_bind, returns_uniform; [lra|]. intros pv g5 [Lpv _].
  pose proof (unit_price_floor b m f pv Lb Lm Lf Lpv) as Lup.
  cbv zeta. remember (inject_Z b * m * f * pv) as up eqn:Eup. clear Eup.
  apply returns_bind, returns_draw.
  apply returns_bind.
  apply returns_weaken with (P := fun q _ => (1 <= q < 20)%Z).
  2:{ destruct (Qlt_bool _ _); apply returns_randint; try lia; intros; lia. }
  intros q g7 Lq.
  assert (Lrev : 15 <= up * inject_Z q).
  { pose proof (inject_Z_le_1 q (proj1 Lq)).
    assert (15 * 1 <= up * inject_Z q)
      by (apply Qmult_le_compat_nonneg; split; (lra || assumption)).
    lra. }
  remember (up * inject_Z q) as rev eqn:Erev.
  apply returns_bind, returns_uniform; [lra|]. intros cr g8 Lcr.
  apply returns_bind. unfold div at 1.
  eapply returns_try; [apply py_div_some; lra|].
  apply returns_bind, returns_draw.
  apply returns_bind.
  apply returns_weaken
    with (P := fun x _ => 0 <= fst x <= 25 /\ snd x == rev * (fst x / 100)).
  2:{ destruct (Qlt_bool _ _).
      - apply returns_bind, returns_uniform; [lra|]. intros dp g9 Ldp.
        apply returns_ret. simpl. split; [lra|reflexivity].
      - apply returns_ret. simpl. split; [lra|]. field. }
  intros [dp da] g10 [Ldp Eda]. simpl in Ldp, Eda.
  assert (Lfr : rev * (3#4) <= rev - da).
  { rewrite Eda.
    assert (rev * (dp / 100) <= rev * (1#4)).
    { apply Qmult_le_compat_nonneg; split; try lra.
      - apply Qle_shift_div_l; lra.
      - apply Qle_shift_div_r; lra. }
    lra. }
  apply returns_bind, returns_final_margin.
  assert (Pfr : Qlt_bool 0 (rev - da) = true) by (apply Qlt_bool_iff; lra).
  rewrite Pfr.
  apply returns_bind.
  apply returns_weaken with (P := fun _ _ => True).
  2:{ destruct (negb _); apply returns_draw; exact I. }
  intros sh g11 _.
  apply returns_bind, returns_draw.
  apply returns_bind. eapply returns_try; [exact Ed|].
  apply returns_bind, returns_randint; [exact Ld|]. intros dl g12 _.
  apply returns_bind, returns_draw.
  apply returns_ret.
  constructor; simpl; auto; try reflexivity; try lia; try lra.
  assert (0 <= rev * cr /\ rev * cr <= rev * 0.7).
  { split.
    - apply Qmult_le_0_compat; lra.
    - apply Qmult_le_compat_nonneg; split; lra. }
  lra.
Qed.

End Run.

(** The revenue figures of a sale are positive. *)
Lemma sale_revenue_pos (s : sale) :
  sale_invariant s -> 15 <= revenue s /\ 11 <= final_revenue s.
Proof.
  intros [].
  assert (R : 15 <= revenue s).
  { rewrite inv_revenue0.
    pose proof (inject_Z_le_1 _ (proj1 inv_quantity0)).
    assert (15 * 1 <= unit_price s * inject_Z (quantity s))
      by (apply Qmult_le_compat_nonneg; split; (lra || assumption)).
    lra. }
  split; [exact R|].
  rewrite inv_final_revenue0, inv_discount_amount0.
  assert (revenue s * (discount_percent s / 100) <= revenue s * (1#4)).
  { apply Qmult_le_compat_nonneg; split; try lra.
    - apply Qle_shift_div_l; lra.
    - apply Qle_shift_div_r; lra. }
  lra.
Qed.

(** ** The loops *)

Lemma records_from_app (oid : Z) (l1 l2 : list (date * sale)) :
  records_from oid (l1 ++ l2)
  = (records_from oid l1
     ++ records_from (oid + Z.of_nat (List.length l1)) l2)%list.
Proof.
  revert oid. induction l1 as [|[d s] l1 IH]; intro oid; simpl.
  - f_equal. lia.
  - rewrite IH. do 3 f_equal. lia.
Qed.

Lemma records_from_length (oid : Z) (l : list (date * sale)) :
  List.length (records_from oid l) = List.length l.
Proof.
  revert oid. induction l as [|[d s] l IH]; intro oid; simpl; auto.
Qed.

Lemma records_from_nth (oid : Z) (l : list (date * sale)) (i : nat) r :
  nth_error (records_from oid l) i = Some r ->
  exists d s, nth_error l i = Some (d, s)
              /\ r = create_record (oid + Z.of_nat i) d s.
Proof.
  revert oid i. induction l as [|[d s] l IH]; intros oid i E.
  - destruct i; discriminate.
  - destruct i as [|i]; simpl in E.
    + inversion E. exists d, s. split; [reflexivity|].
      f_equal. simpl. lia.
    + destruct (IH _ _ E) as (d' & s' & N & R).
      exists d', s'. split; [exact N|]. rewrite R. f_equal. lia.
Qed.

Lemma records_from_In (oid : Z) (l : list (date * sale)) r :
  In r (records_from oid l) ->
  exists k d s, In (d, s) l /\ r = create_record k d s.
Proof.
  intro I. apply In_nth_error in I as [i E].
  destruct (records_from_nth _ _ _ _ E) as (d & s & N & R).
  exists (oid + Z.of_nat i)%Z, d, s. split; [|exact R].
  eapply nth_error_In; eauto.
Qed.

Lemma entries_of_In (dates : list date) (sales : list (list sale)) d s :
  In (d, s) (entries_of dates sales) ->
  In d dates /\ exists ss, In ss sales /\ In s ss.
Proof.
  revert sales. induction dates as [|d0 dates IH]; intros [|ss sales] I;
    simpl in I; try contradiction.
  apply in_app_or in I as [I|I].
  - apply in_map_iff in I as (s' & E & I). inversion E; subst.
    split; [left; reflexivity|]. exists ss. split; [left; reflexivity|exact I].
  - destruct (IH _ I) as (Id & ss' & Iss & Is).
    split; [right; exact Id|]. exists ss'. split; [right; exact Iss|exact Is].
Qed.

Lemma entries_of_length (dates : list date) (sales : list (list sale)) :
  List.length dates = List.length sales ->
  List.length (entries_of dates sales)
  = fold_right (fun ss n => (List.length ss + n)%nat) O sales.
Proof.
  revert sales. induction dates as [|d dates IH]; intros [|ss sales] E;
    simpl in *; try discriminate; auto.
  rewrite length_app, length_map, IH; auto.
Qed.

Section Loops.

Context {G : Type} `{NumPy G} `{!LawfulNumPy G}.

(** From [start_date] on, the mean handed to the Poisson draw is not
    negative, so the draw is accepted. *)
Lemma poisson_mean_nonneg (d : date) : from_start d -> 0 <= poisson_mean d.
Proof.
  intro S. unfold poisson_mean.
  assert (A : 0 <= seasonal_factor d).
  { unfold seasonal_factor. cbv zeta.
    pose proof (np_sin_bounded (2 * np_pi * inject_Z (tm_yday d) / 365)) as B.
    set (x := np_sin _) in *. clearbody x.
    repeat match goal with |- context [if ?c then _ else _] =>
             destruct c end; lra. }
  assert (B : 0 <= daily_factor d)
    by (unfold daily_factor; destruct (weekday d <? 5)%Z; lra).
  assert (C : 0 <= growth_factor d).
  { unfold growth_factor, days_between. cbv zeta.
    assert (0 <= inject_Z (toordinal d - toordinal start_date))
      by (change 0 with (inject_Z 0); rewrite <- Zle_Qle;
          unfold from_start in S; lia).
    assert (0 <= inject_Z (toordinal d - toordinal start_date) / 365)
      by (apply Qle_shift_div_l; lra).
    lra. }
  repeat apply Qmult_le_0_compat; (lra || assumption).
Qed.

Lemma transactions_spec (n : nat) (d : date) data oid (g : G) :
  returns (transactions n d (data, oid))
    (fun st _ =>
       exists ss, List.length ss = n /\ Forall sale_invariant ss
                  /\ st = ((data ++ records_from oid (map (pair d) ss))%list,
                           (oid + Z.of_nat n)%Z)) g.
Proof.
  revert data oid g. induction n as [|n IH]; intros data oid g.
  - apply returns_ret. exists []. simpl.
    rewrite app_nil_r, Z.add_0_r. auto.
  - cbn [transactions]. apply returns_bind.
    eapply returns_weaken; [|apply sample_sale_spec].
    intros s g1 Hs. cbv beta.
    eapply returns_weaken; [|apply IH].
    intros st g2 (ss & L & F & ->). exists (s :: ss).
    split; [simpl; lia|]. split; [constructor; assumption|].
    f_equal; [|lia]. cbn [map records_from].
    rewrite <- app_assoc. reflexivity.
Qed.

Lemma one_day_spec (d : date) data oid (g : G) :
  from_start d ->
  returns (one_day d (data, oid))
    (fun st _ =>
       exists ss,
         Z.of_nat (List.length ss)
         = Z.max 1 (fst (poisson (poisson_mean d) g))
         /\ Forall sale_invariant ss
         /\ st = ((data ++ records_from oid (map (pair d) ss))%list,
                  (oid + Z.of_nat (List.length ss))%Z)) g.
Proof.
  intro S. unfold one_day, num_transactions.
  apply returns_bind, returns_bind, returns_poisson;
    [apply poisson_mean_nonneg, S|].
  apply returns_ret.
  eapply returns_weaken; [|apply transactions_spec].
  intros st g2 (ss & L & F & ->). exists ss.
  split; [rewrite L; lia|]. split; [exact F|]. rewrite L. reflexivity.
Qed.

Lemma days_spec (dates : list date) data oid (g : G) :
  Forall from_start dates ->
  returns (days dates (data, oid))
    (fun st _ =>
       exists sales,
         List.length dates = List.length sales
         /\ Forall (Forall sale_invariant) sales
         /\ map (fun ss => Z.of_nat (List.length ss)) sales
            = day_counts dates (data, oid) g
         /\ st = ((data ++ records_from oid (entries_of dates sales))%list,
                  (oid + Z.of_nat (List.length (entries_of dates sales)))%Z))
    g.
Proof.
  intro S. revert data oid g.
  induction S as [|d dates Sd S IH]; intros data oid g.
  - apply returns_ret. exists []. simpl.
    rewrite app_nil_r, Z.add_0_r. auto.
  - cbn [days day_counts].
    destruct (one_day_spec d data oid g Sd)
      as (st1 & g1 & E & ss & L & F & ->).
    rewrite E.
    apply returns_bind. eexists; exists g1. split; [exact E|].
    eapply returns_weaken; [|apply IH].
    intros st g2 (sales & Ls & Fs & C & ->). exists (ss :: sales).
    split; [simpl; lia|]. split; [constructor; assumption|].
    split; [cbn [map]; rewrite C; f_equal; exact L|].
    cbn [entries_of]. rewrite records_from_app, length_app, !length_map.
    rewrite <- app_assoc. f_equal. lia.
Qed.

(** The generator returns, whatever the state it starts from, and its
    frame is the numbered records of the sales of each day. *)
Lemma generate_over_spec (dates : list date) (g : G) :
  Forall from_start dates ->
  returns (generate_over dates)
    (fun df _ =>
       exists sales,
         List.length dates = List.length sales
         /\ Forall (Forall sale_invariant) sales
         /\ map (fun ss => Z.of_nat (List.length ss)) sales
            = day_counts dates ([], 1%Z) g
         /\ df = records_from 1 (entries_of dates sales)) g.
Proof.
  intro S. unfold generate_over. apply returns_bind.
  eapply returns_weaken; [|apply days_spec, S].
  intros st g1 (sales & L & F & C & ->). apply returns_ret.
  exists sales. auto.
Qed.

(** Every row of the frame is the record of a sale that satisfies the
    invariant, on a date of the range. *)
Lemma generated_rows (dates : list date) (g : G) :
  Forall from_start dates ->
  returns (generate_over dates)
    (fun df _ =>
       forall r, In r df ->
         exists k d s, In d dates /\ sale_invariant s
                       /\ r = create_record k d s) g.
Proof.
  intro S. eapply returns_weaken; [|apply generate_over_spec, S].
  intros df g1 (sales & L & F & C & ->) r I.
  apply records_from_In in I as (k & d & s & I & ->).
  apply entries_of_In in I as (Id & ss & Iss & Is).
  exists k, d, s. split; [exact Id|]. split; [|reflexivity].
  rewrite Forall_forall in F. specialize (F _ Iss).
  rewrite Forall_forall in F. auto.
Qed.

End Loops.

(** ** The scripted generator is lawful *)

Lemma frac_unit (u : Q) : 0 <= frac u < 1.
Proof.
  unfold frac. pose proof (Qfloor_le u) as L. pose proof (Qlt_floor u) as U.
  rewrite inject_Z_plus in U. change (inject_Z 1) with 1 in U. split; lra.
Qed.

Lemma pop_unit (g : list Q) : 0 <= fst (pop g) < 1.
Proof. destruct g as [|u t]; simpl; [split; lra|apply frac_unit]. Qed.

Lemma floor_scale (u : Q) (n : Z) :
  0 <= u < 1 -> (0 < n)%Z -> (0 <= Qfloor (u * inject_Z n) < n)%Z.
Proof.
  intros [L U] N.
  assert (Pn : 0 < inject_Z n)
    by (change 0 with (inject_Z 0); rewrite <- Zlt_Qlt; exact N).
  split.
  - change 0%Z with (Qfloor 0). apply Qfloor_resp_le.
    apply Qmult_le_0_compat; lra.
  - rewrite Zlt_Qlt.
    apply Qle_lt_trans with (u * inject_Z n); [apply Qfloor_le|].
    setoid_replace (inject_Z n) with (1 * inject_Z n) at 2 by ring.
    apply Qmult_lt_compat_r; assumption.
Qed.

Lemma pick_lt (p : list Q) (u : Q) :
  (0 < List.length p)%nat -> (pick p u < List.length p)%nat.
Proof.
  revert u. induction p as [|w t IH]; intros u L; simpl in *; [lia|].
  destruct t as [|w' t']; [lia|].
  destruct (Qlt_bool u w); [lia|].
  apply -> Nat.succ_lt_mono. apply IH. simpl. lia.
Qed.

Lemma tape_lawful : LawfulNumPy (list Q).
Proof.
  constructor.
  - intro x. cbn [np_sin tape_numpy]. unfold sin_approx. split.
    + apply py_max_ge.
    + apply py_max_le; [lra|apply py_min_le].
  - reflexivity.
  - intros n g L. cbn [choice_index tape_numpy].
    pose proof (pop_unit g) as U.
    destruct (pop g) as [u g']. cbn [fst] in *.
    pose proof (floor_scale u (Z.of_nat n) U ltac:(lia)). lia.
  - intros p g L. cbn [choice_index_p tape_numpy].
    destruct (pop g) as [u g']. cbn [fst].
    apply pick_lt, L.
  - intros lo hi g L. cbn [uniform tape_numpy].
    pose proof (pop_unit g) as U.
    destruct (pop g) as [u g']. cbn [fst] in *.
    assert (0 <= (hi - lo) * u) by (apply Qmult_le_0_compat; lra).
    assert ((hi - lo) * u <= (hi - lo) * 1)
      by (apply Qmult_le_compat_nonneg; split; lra).
    split; lra.
  - intros lo hi g L. cbn [randint tape_numpy].
    pose proof (pop_unit g) as U.
    destruct (pop g) as [u g']. cbn [fst] in *.
    pose proof (floor_scale u (hi - lo) U ltac:(lia)). lia.
Qed.

(** ** Every generated sale *)

Section Claims.

Context {G : Type} `{NumPy G} `{!LawfulNumPy G}.

Lemma every_generated_sale_intro (P : sale -> Prop) (g : G) :
  (forall s, sale_invariant s -> P s) -> every_generated_sale P g.
Proof.
  intro W. unfold every_generated_sale, generate_sales_data.
  eapply returns_weaken; [|apply generate_over_spec, range_from_start].
  intros df g1 (sales & L & F & C & ->). exists sales.
  split; [exact L|]. split; [reflexivity|].
  eapply Forall_impl; [|exact F].
  intros ss Fs. eapply Forall_impl; [|exact Fs]. exact W.
Qed.

End Claims.

(** Rounding to hundredths does not cross a number of hundredths. *)
Lemma round2_le (x c : Q) : cents c -> x <= c -> round2 x <= c.
Proof.
  intros [k E] L. unfold round2. rewrite E.
  destruct (round_half_even_near (x * 100)) as [N _].
  set (r := round_half_even (x * 100)) in *. clearbody r.
  assert (K : inject_Z r < inject_Z (k + 1)).
  { rewrite inject_Z_plus. change (inject_Z 1) with 1.
    rewrite E, (Qmake_100 k) in L. clear E. lra. }
  rewrite <- Zlt_Qlt in K.
  unfold Qle. simpl. lia.
Qed.

Lemma round2_ge (x c : Q) : cents c -> c <= x -> c <= round2 x.
Proof.
  intros [k E] L. unfold round2. rewrite E.
  destruct (round_half_even_near (x * 100)) as [_ N].
  set (r := round_half_even (x * 100)) in *. clearbody r.
  assert (K : inject_Z k < inject_Z (r + 1)).
  { rewrite inject_Z_plus. change (inject_Z 1) with 1.
    rewrite E, (Qmake_100 k) in L. clear E. lra. }
  rewrite <- Zlt_Qlt in K.
  unfold Qle. simpl. lia.
Qed.

Lemma cents_Z (n : Z) : cents (inject_Z n).
Proof. exists (n * 100)%Z. unfold Qeq, inject_Z. simpl. lia. Qed.

(** Saturday and Sunday are the days [weekday] numbers 5 and 6. *)
Lemma spec_weekend_weekday (d : date) :
  spec_weekend d = negb (weekday d <? 5)%Z.
Proof.
  unfold spec_weekend, strftime_A.
  assert (R : (0 <= weekday d < 7)%Z)
    by (unfold weekday; apply Z.mod_pos_bound; lia).
  remember (weekday d) as w eqn:E. clear E.
  assert (C : w = 0%Z \/ w = 1%Z \/ w = 2%Z \/ w = 3%Z \/ w = 4%Z
              \/ w = 5%Z \/ w = 6%Z) by lia.
  destruct C as [->|[->|[->|[->|[->|[->| ->]]]]]]; reflexivity.
Qed.

(** ** The first record of a run *)

Section FirstRecord.

Context {G : Type} `{NumPy G} `{!LawfulNumPy G}.

(** The frame opens with the record of the sale sampled right after the
    first day's count is drawn. *)
Lemma first_record (d : date) (rest : list date) (g : G) :
  Forall from_start (d :: rest) ->
  returns (generate_over (d :: rest))
    (fun df _ =>
       forall s g1,
         sample_sale (snd (poisson (poisson_mean d) g)) = Some (s, g1) ->
         hd_error df = Some (create_record 1 d s)) g.
Proof.
  intro S. inversion S as [|? ? Sd Sr]; subst.
  unfold generate_over. apply returns_bind. cbn [days].
  apply returns_bind. unfold one_day. apply returns_bind.
  unfold num_transactions.
  apply returns_bind, returns_poisson; [apply poisson_mean_nonneg, Sd|].
  apply returns_ret.
  destruct (Z.to_nat (Z.max 1 (fst (poisson (poisson_mean d) g))))
    as [|k] eqn:N; [lia|].
  cbn [transactions]. apply returns_bind.
  destruct (sample_sale_spec (snd (poisson (poisson_mean d) g)))
    as (s & g1 & E & _).
  exists s, g1. split; [exact E|].
  eapply returns_weaken; [|apply transactions_spec].
  intros st g2 (ss & _ & _ & ->).
  eapply returns_weaken; [|apply days_spec, Sr].
  intros st g3 (sales & _ & _ & _ & ->).
  apply returns_ret. intros s' g1' E'. rewrite E in E'.
  inversion E'; subst. reflexivity.
Qed.

End FirstRecord.

Lemma date_range_first :
  date_range start_date end_date
  = start_date :: days_from (next_day start_date) 1095.
Proof. vm_compute. reflexivity. Qed.

(** On the scripted generator, the frame opens with the record of the
    sale sampled from the tape once the first count is drawn. *)
Lemma tape_first_row (tape : list Q) (r : record) :
  option_map (fun x => create_record 1 start_date (fst x))
    (sample_sale (snd (poisson (poisson_mean start_date) tape))) = Some r ->
  returns generate_sales_data (fun df _ => hd_error df = Some r) tape.
Proof.
  intro E. unfold generate_sales_data.
  pose proof range_from_start as S. rewrite date_range_first in *.
  eapply returns_weaken;
    [|apply (@first_record (list Q) tape_numpy tape_lawful), S].
  intros df g1 F. cbn beta in F.
  destruct (sample_sale (G := list Q)
              (snd (poisson (poisson_mean start_date) tape)))
    as [[s g2]|]; [|discriminate].
  rewrite (F s g2 eq_refl). exact E.
Qed.

(** The run on the exhausted tape opens with [zero_tape_row]. *)
Lemma zero_tape_first_row :
  returns (G := list Q) generate_sales_data
    (fun df _ => hd_error df = Some zero_tape_row) [].
Proof. apply tape_first_row. vm_compute. reflexivity. Qed.

(** The run on [boundary_tape] opens with [boundary_row]. *)
Lemma boundary_tape_first_row :
  returns (G := list Q) generate_sales_data
    (fun df _ => hd_error df = Some boundary_row) boundary_tape.
Proof. apply tape_first_row. vm_compute. reflexivity. Qed.

(** ** Order identifiers *)

Lemma substring_all (s : string) : substring 0 (String.length s) s = s.
Proof.
  induction s as [|c s IH]; simpl; [reflexivity|].
  rewrite IH. reflexivity.
Qed.

Lemma uint_of_zeros (k : nat) (s : string) :
  NilEmpty.uint_of_string
    (string_of_list_ascii (repeat "0"%char k) ++ s)
  = option_map (Nat.iter k D0) (NilEmpty.uint_of_string s).
Proof.
  induction k as [|k IH]; simpl.
  - destruct (NilEmpty.uint_of_string s); reflexivity.
  - rewrite IH. destruct (NilEmpty.uint_of_string s); reflexivity.
Qed.

Lemma of_uint_zeros (k : nat) (u : uint) :
  N.of_uint (Nat.iter k D0 u) = N.of_uint u.
Proof. induction k as [|k IH]; simpl; [reflexivity|exact IH]. Qed.

(** The number printed in an identifier reads back. *)
Lemma number_after_fmt (prefix : string) (w : nat) (n : Z) :
  (0 <= n)%Z ->
  number_after (String.length prefix) (prefix ++ fmt_0d w n) = Some n.
Proof.
  intro P. unfold number_after.
  assert (S : forall p t : string,
             substring (String.length p)
               (String.length (p ++ t) - String.length p) (p ++ t) = t).
  { induction p as [|c p IH]; intro t; simpl.
    - rewrite Nat.sub_0_r. apply substring_all.
    - apply IH. }
  rewrite S. unfold fmt_0d, zero_pad, decimal.
  rewrite uint_of_zeros, NilEmpty.usu. simpl.
  rewrite of_uint_zeros, DecimalN.Unsigned.of_to, Z2N.id; auto.
Qed.

Lemma order_number_record (k : Z) (d : date) (s : sale) :
  (0 <= k)%Z -> order_number (create_record k d s) = Some k.
Proof.
  intro P. unfold order_number.
  change (col_str "Order_ID" (create_record k d s))
    with (Some ("ORD_" ++ fmt_0d 6 k)%string).
  cbn [obind]. apply (number_after_fmt "ORD_" 6 k P).
Qed.

Lemma returns_and {G A} (c : M G A) (P Q : A -> G -> Prop) (g : G) :
  returns c P g -> returns c Q g -> returns c (fun a g' => P a g' /\ Q a g') g.
Proof.
  intros (a & g1 & E & HP) HQ. exists a, g1. split; [exact E|].
  split; [exact HP|]. eapply returns_unique; eauto.
Qed.


(** ** Daily counts *)

Lemma day_counts_ge_1 {G : Type} `{NumPy G} (dates : list date) st (g : G) :
  Forall (fun n => (1 <= n)%Z) (day_counts dates st g).
Proof.
  revert st g. induction dates as [|d dates IH]; intros st g; simpl.
  - constructor.
  - constructor; [lia|].
    destruct (one_day d st g) as [[st' g']|]; [apply IH|constructor].
Qed.

Lemma total_of_lengths (sales : list (list sale)) :
  Z.of_nat (fold_right (fun ss n => (List.length ss + n)%nat) O sales)
  = fold_right Z.add 0%Z (map (fun ss => Z.of_nat (List.length ss)) sales).
Proof. induction sales as [|ss sales IH]; simpl; [reflexivity|]. lia. Qed.

Lemma entries_of_covers (dates : list date) (sales : list (list sale)) d :
  List.length dates = List.length sales ->
  Forall (fun ss => (1 <= Z.of_nat (List.length ss))%Z) sales ->
  In d dates -> exists s, In (d, s) (entries_of dates sales).
Proof.
  revert sales. induction dates as [|d0 dates IH]; intros [|ss sales] L F I;
    simpl in *; try contradiction; try discriminate.
  inversion F as [|? ? F1 F2]; subst. destruct I as [->|I].
  - destruct ss as [|s ss]; [simpl in F1; lia|].
    exists s. left. reflexivity.
  - destruct (IH sales ltac:(lia) F2 I) as (s & Is).
    exists s. apply in_or_app. right. exact Is.
Qed.

Lemma records_from_covers (oid : Z) (l : list (date * sale)) d s :
  In (d, s) l -> exists k, In (create_record k d s) (records_from oid l).
Proof.
  revert oid. induction l as [|[d0 s0] l IH]; intros oid I; simpl in *.
  - contradiction.
  - destruct I as [E|I].
    + inversion E; subst. exists oid. left. reflexivity.
    + destruct (IH (oid + 1)%Z I) as (k & Ik). exists k. right. exact Ik.
Qed.

(** ** Aggregation *)

Lemma obind_inv {A B} (o : option A) (k : A -> option B) b :
  obind o k = Some b -> exists a, o = Some a /\ k a = Some b.
Proof. destruct o as [a|]; [|discriminate]. intro E. exists a. auto. Qed.

Lemma omap_total {A B} (f : A -> option B) (P : B -> Prop) (l : list A) :
  (forall a, In a l -> exists b, f a = Some b /\ P b) ->
  exists bs, omap f l = Some bs /\ Forall P bs
             /\ List.length bs = List.length l.
Proof.
  induction l as [|a l IH]; intro T; simpl.
  - exists []. auto.
  - destruct (T a (or_introl eq_refl)) as (b & E & Pb).
    destruct IH as (bs & Es & Ps & Ls); [intros; apply T; right; assumption|].
    exists (b :: bs). rewrite E, Es. simpl. auto.
Qed.

Lemma omap_inv {A B} (f : A -> option B) (l : list A) bs :
  omap f l = Some bs -> Forall2 (fun a b => f a = Some b) l bs.
Proof.
  revert bs. induction l as [|a l IH]; intros bs E; simpl in E.
  - inversion E. constructor.
  - apply obind_inv in E as (b & Eb & E).
    apply obind_inv in E as (bs' & Es & E). inversion E; subst.
    constructor; auto.
Qed.

Lemma Forall2_In_l {A B} (R : A -> B -> Prop) l l' a :
  Forall2 R l l' -> In a l -> exists b, In b l' /\ R a b.
Proof.
  induction 1 as [|x y l l' Rxy F IH]; intro I; [contradiction|].
  destruct I as [->|I].
  - exists y. split; [left; reflexivity|exact Rxy].
  - destruct (IH I) as (b & Ib & Rb).
    exists b. split; [right; exact Ib|exact Rb].
Qed.

Lemma Forall2_In_r {A B} (R : A -> B -> Prop) l l' b :
  Forall2 R l l' -> In b l' -> exists a, In a l /\ R a b.
Proof.
  induction 1 as [|x y l l' Rxy F IH]; intro I; [contradiction|].
  destruct I as [->|I].
  - exists x. split; [left; reflexivity|exact Rxy].
  - destruct (IH I) as (a & Ia & Ra).
    exists a. split; [right; exact Ia|exact Ra].
Qed.

Lemma insert_key_In {K} (leb : K -> K -> bool) (k x : K) (l : list K) :
  In x (insert_key leb k l) <-> x = k \/ In x l.
Proof.
  induction l as [|h t IH]; simpl.
  - intuition.
  - destruct (leb k h); simpl; rewrite ?IH; intuition.
Qed.

Lemma sort_keys_In {K} (leb : K -> K -> bool) (x : K) (l : list K) :
  In x (sort_keys leb l) <-> In x l.
Proof.
  induction l as [|h t IH]; simpl; [tauto|].
  unfold sort_keys in IH. rewrite insert_key_In, IH. intuition.
Qed.

Lemma insert_key_NoDup {K} (leb : K -> K -> bool) (k : K) (l : list K) :
  ~ In k l -> NoDup l -> NoDup (insert_key leb k l).
Proof.
  induction l as [|h t IH]; intros N D; simpl.
  - constructor; [tauto|constructor].
  - destruct (leb k h).
    + constructor; assumption.
    + inversion D; subst. constructor.
      * rewrite insert_key_In. simpl in N. intuition.
      * apply IH; [simpl in N; tauto|assumption].
Qed.

Lemma sort_keys_NoDup {K} (leb : K -> K -> bool) (l : list K) :
  NoDup l -> NoDup (sort_keys leb l).
Proof.
  induction 1 as [|h t N D IH]; simpl; [constructor|].
  apply insert_key_NoDup; [|exact IH].
  fold (sort_keys leb t). rewrite sort_keys_In. exact N.
Qed.

(** The rows of a product add up. *)
Lemma product_row_spec (p : string) (rows : list record) :
  rows <> [] -> Forall is_row rows ->
  exists xs t,
    omap (col_float "Final_Revenue") rows = Some xs
    /\ Forall cents xs
    /\ product_row (p, rows) = Some t
    /\ col_str "Product" t = Some p
    /\ col_float "Total_Revenue" t = Some (round2 (Qsum xs)).
Proof.
  intros NE F. rewrite Forall_forall in F.
  assert (L : (0 < List.length rows)%nat)
    by (destruct rows; [contradiction|simpl; lia]).
  destruct (omap_total (col_float "Final_Revenue") cents rows)
    as (xs & Exs & Cxs & _).
  { intros r Ir. destruct (F r Ir) as (k & d & s & ->).
    eexists. split; [reflexivity|apply round2_cents]. }
  destruct (omap_total (col_int "Quantity") (fun _ => True) rows)
    as (qs & Eqs & _ & _).
  { intros r Ir. destruct (F r Ir) as (k & d & s & ->).
    eexists. split; [reflexivity|exact I]. }
  destruct (omap_total (col_float "Final_Margin") (fun _ => True) rows)
    as (ms & Ems & _ & Lms).
  { intros r Ir. destruct (F r Ir) as (k & d & s & ->).
    eexists. split; [reflexivity|exact I]. }
  destruct (omap_total (col_float "Customer_Satisfaction") (fun _ => True)
              rows) as (cs & Ecs & _ & Lcs).
  { intros r Ir. destruct (F r Ir) as (k & d & s & ->).
    eexists. split; [reflexivity|exact I]. }
  destruct (omap_total (col_bool "Is_Returned") (fun _ => True) rows)
    as (bs & Ebs & _ & _).
  { intros r Ir. destruct (F r Ir) as (k & d & s & ->).
    eexists. split; [reflexivity|exact I]. }
  assert (NZ : forall n : nat, (0 < n)%nat -> ~ inject_Z (Z.of_nat n) == 0).
  { intros n P E. unfold Qeq in E. simpl in E. lia. }
  exists xs. eexists. split; [exact Exs|]. split; [exact Cxs|].
  unfold product_row, sum_float, sum_int, mean, count_true, count.
  rewrite Exs, Eqs, Ems, Ecs, Ebs. cbn [obind].
  rewrite Lms, Lcs, !(py_div_some _ _ (NZ _ L)). cbn [obind].
  split; [reflexivity|]. split; reflexivity.
Qed.

Lemma NoDup_map_Some {A} (l : list A) : NoDup l -> NoDup (map Some l).
Proof.
  induction 1 as [|a l N D IH]; simpl; constructor; [|exact IH].
  intro X. apply in_map_iff in X as (b & E & Ib). inversion E. subst.
  contradiction.
Qed.

(** The product summary has one row per product of the frame, and its
    [Total_Revenue] is the rounded sum of the product's rows. *)
Lemma product_data_spec (df : DataFrame) :
  Forall is_row df ->
  exists pd,
    product_data df = Some pd
    /\ NoDup (map (col_str "Product") pd)
    /\ forall p,
         In (Some p) (map (col_str "Product") df) ->
         (exists t, In t pd /\ col_str "Product" t = Some p)
         /\ forall t,
              In t pd -> col_str "Product" t = Some p ->
              exists xs,
                omap (col_float "Final_Revenue") (product_rows p df) = Some xs
                /\ col_float "Total_Revenue" t = Some (round2 (Qsum xs))
                /\ round2 (Qsum xs) == Qsum xs.
Proof.
  intro F. pose proof F as F'. rewrite Forall_forall in F'.
  destruct (omap_total (col_str "Product") (fun _ => True) df)
    as (ks & Eks & _ & _).
  { intros r Ir. destruct (F' r Ir) as (k & d & s & ->).
    eexists. split; [reflexivity|exact I]. }
  pose proof (omap_inv _ _ _ Eks) as K2.
  set (keys' := sort_keys String.leb (nodup string_dec ks)).
  assert (Kin : forall k, In k keys' <-> In k ks).
  { intro k. unfold keys'. rewrite sort_keys_In, nodup_In. tauto. }
  assert (Knd : NoDup keys')
    by (apply sort_keys_NoDup, NoDup_nodup).
  assert (R : forall k, In k keys' ->
                exists xs t,
                  omap (col_float "Final_Revenue") (product_rows k df) = Some xs
                  /\ Forall cents xs
                  /\ product_row (k, product_rows k df) = Some t
                  /\ col_str "Product" t = Some k
                  /\ col_float "Total_Revenue" t = Some (round2 (Qsum xs))).
  { intros k I. apply Kin in I.
    destruct (Forall2_In_r _ _ _ _ K2 I) as (r & Ir & Er).
    apply product_row_spec.
    - intro E.
      assert (X : In r (product_rows k df)).
      { apply filter_In. split; [exact Ir|].
        unfold has_key. rewrite Er.
        destruct (string_dec k k); [reflexivity|contradiction]. }
      rewrite E in X. contradiction.
    - apply Forall_forall. intros r' I'. apply filter_In in I' as [I' _].
      apply F', I'. }
  destruct (omap_total product_row
              (fun t => True)
              (map (fun k => (k, product_rows k df)) keys'))
    as (pd & Epd & _ & _).
  { intros [k rows] I. apply in_map_iff in I as (k' & E & I).
    inversion E; subst. destruct (R k I) as (xs & t & _ & _ & Et & _).
    exists t. auto. }
  pose proof (omap_inv _ _ _ Epd) as P2.
  assert (T : forall t, In t pd ->
                exists k, In k keys'
                          /\ product_row (k, product_rows k df) = Some t).
  { intros t I. destruct (Forall2_In_r _ _ _ _ P2 I) as ([k rows] & Ig & Et).
    apply in_map_iff in Ig as (k' & E & Ik). inversion E; subst.
    exists k. auto. }
  exists pd. split; [|split].
  - unfold product_data, by_string, groupby. rewrite Eks. cbn [obind].
    exact Epd.
  - assert (E : map (col_str "Product") pd = map Some keys').
    { clear - P2 R. revert pd P2. induction keys' as [|k l IH]; intros pd P2.
      - inversion P2. reflexivity.
      - inversion P2 as [|? t ? pd' Et F2]; subst. simpl. f_equal.
        + destruct (R k (or_introl eq_refl))
            as (xs & t' & _ & _ & Et' & Ep & _).
          rewrite Et in Et'. inversion Et'. subst. exact Ep.
        + apply IH; [|exact F2]. intros k' I'. apply R. right. exact I'. }
    rewrite E. apply NoDup_map_Some, Knd.
  - intros p I. apply in_map_iff in I as (r & Er & Ir).
    assert (Ip : In p keys').
    { apply Kin. destruct (Forall2_In_l _ _ _ _ K2 Ir) as (k & Ik & Ek).
      rewrite Er in Ek. inversion Ek. subst. exact Ik. }
    split.
    + destruct (R p Ip) as (xs & t & _ & _ & Et & Ep & _).
      exists t. split; [|exact Ep].
      destruct (Forall2_In_l _ _ _ _ P2
                  (in_map (fun k => (k, product_rows k df)) _ _ Ip))
        as (t' & It & Et').
      cbv beta in Et'. rewrite Et in Et'. inversion Et'. subst. exact It.
    + intros t It Ep. destruct (T t It) as (k & Ik & Et).
      destruct (R k Ik) as (xs & t' & Exs & Cxs & Et' & Ep' & Etr).
      rewrite Et in Et'. inversion Et'. subst t'.
      rewrite Ep in Ep'. inversion Ep'. subst k.
      exists xs. split; [exact Exs|]. split; [exact Etr|].
      apply round2_of_cents, Qsum_cents, Cxs.
Qed.

(** ** The script returns *)

Lemma column_total {B} (f : record -> option B) (rows : list record) :
  Forall is_row rows ->
  (forall k d s, exists b, f (create_record k d s) = Some b) ->
  exists bs, omap f rows = Some bs /\ List.length bs = List.length rows.
Proof.
  intros F T. rewrite Forall_forall in F.
  destruct (omap_total f (fun _ => True) rows) as (bs & E & _ & L).
  - intros r Ir. destruct (F r Ir) as (k & d & s & ->).
    destruct (T k d s) as (b & Eb). exists b. auto.
  - exists bs. auto.
Qed.

Lemma groupby_groups {K} (eq_dec : forall a b : K, {a = b} + {a <> b})
  (leb : K -> K -> bool) (key : record -> option K) (df : DataFrame) :
  Forall is_row df ->
  (forall k d s, exists b, key (create_record k d s) = Some b) ->
  exists gs,
    groupby eq_dec leb key df = Some gs
    /\ Forall (fun g => snd g <> [] /\ Forall is_row (snd g)) gs.
Proof.
  intros F T. destruct (column_total key df F T) as (ks & E & _).
  unfold groupby. rewrite E. cbn [obind]. eexists. split; [reflexivity|].
  apply Forall_forall. intros [k rows] I.
  apply in_map_iff in I as (k' & X & I). inversion X; subst. cbn [snd].
  apply sort_keys_In, nodup_In in I.
  destruct (Forall2_In_r _ _ _ _ (omap_inv _ _ _ E) I) as (r & Ir & Er).
  split.
  - intro Z.
    assert (X' : In r (filter (has_key eq_dec key k) df)).
    { apply filter_In. split; [exact Ir|]. unfold has_key. rewrite Er.
      destruct (eq_dec k k); [reflexivity|contradiction]. }
    rewrite Z in X'. contradiction.
  - rewrite Forall_forall in *. intros r' I'.
    apply filter_In in I' as [I' _]. auto.
Qed.

Lemma nonzero_length (n : nat) : (0 < n)%nat -> ~ inject_Z (Z.of_nat n) == 0.
Proof. intros P E. unfold Qeq in E. simpl in E. lia. Qed.

Ltac column c rows F x E L :=
  destruct (column_total c rows F) as (x & E & L);
  [intros; eexists; reflexivity|].

Lemma customer_row_total (g : string * list record) :
  snd g <> [] -> Forall is_row (snd g) -> exists t, customer_row g = Some t.
Proof.
  destruct g as [k rows]. cbn [snd]. intros NE F.
  assert (L : (0 < List.length rows)%nat)
    by (destruct rows; [contradiction|simpl; lia]).
  column (col_float "Final_Revenue") rows F xs Exs Lxs.
  column (col_int "Quantity") rows F qs Eqs Lqs.
  column (col_float "Customer_Satisfaction") rows F cs Ecs Lcs.
  column (col_bool "Is_Returned") rows F bs Ebs Lbs.
  column (col_str "Date") rows F ds Eds Lds.
  assert (Er : exists r, first "Region" rows = Some r).
  { destruct rows as [|r rows]; [contradiction|].
    inversion F as [|? ? (k' & d & s & ->) _]. eexists. reflexivity. }
  destruct Er as (r & Er).
  unfold customer_row, sum_float, sum_int, mean, count_true, min_str, max_str.
  rewrite Exs, Eqs, Ecs, Ebs, Eds, Er. cbn [obind].
  rewrite Lcs, !py_div_some by (apply nonzero_length, L). cbn [obind].
  destruct ds as [|d0 ds]; [simpl in Lds; lia|]. eexists. reflexivity.
Qed.

Lemma product_row_total (g : string * list record) :
  snd g <> [] -> Forall is_row (snd g) -> exists t, product_row g = Some t.
Proof.
  destruct g as [k rows]. cbn [snd]. intros NE F.
  destruct (product_row_spec k rows NE F) as (xs & t & _ & _ & E & _).
  exists t. exact E.
Qed.

Lemma rep_row_total (g : string * list record) :
  snd g <> [] -> Forall is_row (snd g) -> exists t, rep_row g = Some t.
Proof.
  destruct g as [k rows]. cbn [snd]. intros NE F.
  assert (L : (0 < List.length rows)%nat)
    by (destruct rows; [contradiction|simpl; lia]).
  column (col_float "Final_Revenue") rows F xs Exs Lxs.
  column (col_float "Final_Margin") rows F ms Ems Lms.
  column (col_float "Customer_Satisfaction") rows F cs Ecs Lcs.
  column (col_str "Customer_ID") rows F us Eus Lus.
  unfold rep_row, sum_float, mean, nunique.
  rewrite Exs, Ems, Ecs, Eus. cbn [obind].
  rewrite Lms, Lcs, !py_div_some by (apply nonzero_length, L). cbn [obind].
  eexists. reflexivity.
Qed.

Lemma month_row_total (g : Z * Z * list record) :
  snd g <> [] -> Forall is_row (snd g) -> exists t, month_row g = Some t.
Proof.
  destruct g as [[y m] rows]. cbn [snd]. intros NE F.
  column (col_float "Final_Revenue") rows F xs Exs Lxs.
  column (col_float "Final_Profit") rows F ps Eps Lps.
  column (col_str "Customer_ID") rows F us Eus Lus.
  column (col_int "Quantity") rows F qs Eqs Lqs.
  unfold month_row, sum_float, sum_int, nunique.
  rewrite Exs, Eps, Eus, Eqs. cbn [obind]. eexists. reflexivity.
Qed.

Lemma summary_total {K} (eq_dec : forall a b : K, {a = b} + {a <> b})
  (leb : K -> K -> bool) (key : record -> option K)
  (row : K * list record -> option record) (df : DataFrame) :
  Forall is_row df ->
  (forall k d s, exists b, key (create_record k d s) = Some b) ->
  (forall g, snd g <> [] -> Forall is_row (snd g) ->
             exists t, row g = Some t) ->
  exists table, obind (groupby eq_dec leb key df) (omap row) = Some table.
Proof.
  intros F T R.
  destruct (groupby_groups eq_dec leb key df F T) as (gs & E & P).
  rewrite E. cbn [obind]. rewrite Forall_forall in P.
  destruct (omap_total row (fun _ => True) gs) as (table & Et & _).
  - intros g I. destruct (P g I) as [NE Fg].
    destruct (R g NE Fg) as (t & Er). exists t. auto.
  - exists table. exact Et.
Qed.

Section ScriptReturns.

Context {G : Type} `{NumPy G} `{!LawfulNumPy G}.

(** The script returns its five tables, whatever state it starts in. *)
Lemma script_returns (g : G) : exists o g', script g = Some (o, g').
Proof.
  assert (R : returns script (fun _ _ => True) g).
  { unfold script. apply returns_bind, returns_draw. cbn [fst snd].
    apply returns_bind. unfold generate_sales_data.
    eapply returns_weaken; [|apply generated_rows, range_from_start].
    intros df g1 Rows.
    assert (F : Forall is_row df).
    { apply Forall_forall. intros r I.
      destruct (Rows r I) as (k & d & s & _ & _ & ->).
      exists k, d, s. reflexivity. }
    destruct (summary_total string_dec String.leb (col_str "Customer_ID")
                customer_row df F) as (t1 & E1);
      [intros; eexists; reflexivity|exact customer_row_total|].
    destruct (summary_total string_dec String.leb (col_str "Product")
                product_row df F) as (t2 & E2);
      [intros; eexists; reflexivity|exact product_row_total|].
    destruct (summary_total string_dec String.leb (col_str "Sales_Rep")
                rep_row df F) as (t3 & E3);
      [intros; eexists; reflexivity|exact rep_row_total|].
    destruct (summary_total year_month_dec year_month_leb year_month
                month_row df F) as (t4 & E4);
      [intros; eexists; reflexivity|exact month_row_total|].
    apply returns_bind. eapply returns_try; [exact E1|].
    apply returns_bind. eapply returns_try; [exact E2|].
    apply returns_bind. eapply returns_try; [exact E3|].
    apply returns_bind. eapply returns_try; [exact E4|].
    apply returns_ret. exact I. }
  destruct R as (o & g' & E & _). exists o, g'. exact E.
Qed.

End ScriptReturns.

(* ================================================================== *)
(** * The claims *)

(** C1. Determinism: whatever state the global generator is in when the
    script starts, seeding it first makes two runs return the same frame
    of transaction records and the same four summaries, and leave the
    same generator state; the tables are in fact produced; and the
    generator is a function of the seed, whatever the seed. *)
Theorem C1_script_deterministic {G : Type} `{NumPy G} `{!LawfulNumPy G}
  (g1 g2 : G) :
  (exists o g', script g1 = Some (o, g') /\ script g2 = Some (o, g'))
  /\ (forall n, generate_sales_data (seed n g1)
                = generate_sales_data (seed n g2)).
Proof.
  assert (S : forall n, seed n g1 = seed n g2) by (intro; apply seed_resets).
  split.
  - destruct (script_returns g1) as (o & g' & E).
    exists o, g'. split; [exact E|].
    rewrite <- E. unfold script, bind, draw. rewrite (S 42%Z). reflexivity.
  - intro n. rewrite (S n). reflexivity.
Qed.

(** C1 on the scripted generator, started from two different tapes. *)
Lemma C1_witness :
  (exists o g', script (tape_of_seed 7) = Some (o, g')
                /\ script [1#2; 1#3] = Some (o, g'))
  /\ (forall n, generate_sales_data (seed n (tape_of_seed 7))
                = generate_sales_data (seed n [1#2; 1#3])).
Proof.
  exact (@C1_script_deterministic (list Q) tape_numpy tape_lawful
           (tape_of_seed 7) [1#2; 1#3]).
Defined.

(** C2. Computing [final_margin] never raises: for any figures the guarded
    expression returns, with 0 when [final_revenue] is 0 and the quotient
    times 100 when it is positive; and for every generated record
    [final_margin] is 0 if [final_revenue] is 0, and
    [final_profit / final_revenue * 100] otherwise. *)
Theorem C2_final_margin_guarded {G : Type} `{NumPy G} `{!LawfulNumPy G}
  (g : G) :
  (forall fp fr (g0 : G),
      exists fm, final_margin_of fp fr g0 = Some (fm, g0)
                 /\ (fr == 0 -> fm == 0)
                 /\ (0 < fr -> fm == fp / fr * 100))
  /\ every_generated_sale
       (fun s =>
          final_margin_of (final_profit s) (final_revenue s) g
          = Some (final_margin s, g)
          /\ (final_revenue s == 0 -> final_margin s == 0)
          /\ (~ final_revenue s == 0 ->
              final_margin s == final_profit s / final_revenue s * 100)) g.
Proof.
  assert (K : forall fp fr (g0 : G),
             final_margin_of fp fr g0
             = Some (if Qlt_bool 0 fr then fp / fr * 100 else 0, g0)).
  { intros fp fr g0.
    destruct (returns_final_margin fp fr
                (fun a g1 =>
                   a = (if Qlt_bool 0 fr then fp / fr * 100 else 0)
                   /\ g1 = g0) g0) as (a & g1 & E & -> & ->); auto. }
  split.
  - intros fp fr g0. eexists. split; [apply K|].
    destruct (Qlt_bool 0 fr) eqn:B.
    + apply Qlt_bool_iff in B. split; intros; [lra|reflexivity].
    + apply Qlt_bool_false in B. split; intros; [reflexivity|lra].
  - apply every_generated_sale_intro. intros s I.
    destruct (sale_revenue_pos s I) as [_ P].
    assert (B : Qlt_bool 0 (final_revenue s) = true)
      by (apply Qlt_bool_iff; lra).
    split; [|split].
    + rewrite K, B. rewrite <- (inv_final_margin s I). reflexivity.
    + intro Z. lra.
    + intros _. rewrite (inv_final_margin s I). reflexivity.
Qed.

(** C2 on the scripted generator. *)
Lemma C2_witness :
  (forall fp fr (g0 : list Q),
      exists fm, final_margin_of fp fr g0 = Some (fm, g0)
                 /\ (fr == 0 -> fm == 0)
                 /\ (0 < fr -> fm == fp / fr * 100))
  /\ every_generated_sale
       (fun s =>
          final_margin_of (final_profit s) (final_revenue s) [1#4]
          = Some (final_margin s, [1#4])
          /\ (final_revenue s == 0 -> final_margin s == 0)
          /\ (~ final_revenue s == 0 ->
              final_margin s == final_profit s / final_revenue s * 100))
       [1#4].
Proof.
  exact (@C2_final_margin_guarded (list Q) tape_numpy tape_lawful [1#4]).
Defined.

(** C3. The dates of the run are the calendar days from [start_date] to
    [end_date].  The frame is the records of one list of sales per day;
    the length of a day's list is its count, the maximum of 1 and the
    Poisson draw made with [poisson_mean] of that day in the state the day
    begins in; so every count is at least 1, every date of the range is
    the [Date] of some record, and the number of records is the sum of the
    counts. *)
Theorem C3_daily_counts {G : Type} `{NumPy G} `{!LawfulNumPy G} (g : G) :
  let dates := date_range start_date end_date in
  (forall d,
      In d dates
      <-> valid_date d
          /\ (toordinal start_date <= toordinal d <= toordinal end_date)%Z)
  /\ (forall d rest st g0,
         day_counts (d :: rest) st g0
         = Z.max 1 (fst (poisson (poisson_mean d) g0))
           :: match one_day d st g0 with
              | Some (st', g') => day_counts rest st' g'
              | None => []
              end)
  /\ returns generate_sales_data
       (fun df _ =>
          exists sales,
            List.length dates = List.length sales
            /\ df = records_from 1 (entries_of dates sales)
            /\ map (fun ss => Z.of_nat (List.length ss)) sales
               = day_counts dates ([], 1%Z) g
            /\ Forall (fun n => (1 <= n)%Z) (day_counts dates ([], 1%Z) g)
            /\ Z.of_nat (List.length df)
               = fold_right Z.add 0%Z (day_counts dates ([], 1%Z) g)
            /\ forall d, In d dates ->
                 exists r, In r df
                           /\ col_str "Date" r = Some (strftime_ymd d)) g.
Proof.
  intro dates. split; [exact date_range_days|]. split; [reflexivity|].
  unfold generate_sales_data. fold dates.
  eapply returns_weaken; [|apply generate_over_spec, range_from_start].
  intros df g1 (sales & L & F & C & ->). exists sales.
  pose proof (day_counts_ge_1 dates ([], 1%Z) g) as P.
  split; [exact L|]. split; [reflexivity|]. split; [exact C|].
  split; [exact P|]. split.
  - rewrite records_from_length, entries_of_length by exact L.
    rewrite total_of_lengths, C. reflexivity.
  - intros d I. rewrite <- C in P. rewrite Forall_map in P.
    destruct (entries_of_covers dates sales d L P I) as (s & Is).
    destruct (records_from_covers 1 _ d s Is) as (k & Ik).
    exists (create_record k d s). split; [exact Ik|reflexivity].
Qed.

(** C3 on the scripted generator. *)
Lemma C3_witness :
  let dates := date_range start_date end_date in
  (forall d,
      In d dates
      <-> valid_date d
          /\ (toordinal start_date <= toordinal d <= toordinal end_date)%Z)
  /\ (forall d rest st (g0 : list Q),
         day_counts (d :: rest) st g0
         = Z.max 1 (fst (poisson (poisson_mean d) g0))
           :: match one_day d st g0 with
              | Some (st', g') => day_counts rest st' g'
              | None => []
              end)
  /\ returns generate_sales_data
       (fun df _ =>
          exists sales,
            List.length dates = List.length sales
            /\ df = records_from 1 (entries_of dates sales)
            /\ map (fun ss => Z.of_nat (List.length ss)) sales
               = day_counts dates ([], 1%Z) [7#8; 1#5]
            /\ Forall (fun n => (1 <= n)%Z)
                 (day_counts dates ([], 1%Z) [7#8; 1#5])
            /\ Z.of_nat (List.length df)
               = fold_right Z.add 0%Z (day_counts dates ([], 1%Z) [7#8; 1#5])
            /\ forall d, In d dates ->
                 exists r, In r df
                           /\ col_str "Date" r = Some (strftime_ymd d))
       [7#8; 1#5].
Proof.
  exact (@C3_daily_counts (list Q) tape_numpy tape_lawful [7#8; 1#5]).
Defined.

(** C4. The mean handed to the Poisson draw of a day is 15 times the
    sinusoid of the day of the year, times the one override of its month
    (1.8 in November and December, else 1.3 in June and July, else 0.7 in
    January and February, else 1), times 1.2 on a weekday and 0.8 at the
    weekend, times the growth factor; the day's count is the draw with
    that mean, floored at 1 (NumPy rejects a negative mean). *)
Theorem C4_poisson_mean {G : Type} `{NumPy G} (d : date) (g : G) :
  poisson_mean d == spec_mean d
  /\ num_transactions d g
     = (if Qlt_bool (poisson_mean d) 0 then None
        else Some (Z.max 1 (fst (poisson (poisson_mean d) g)),
                   snd (poisson (poisson_mean d) g))).
Proof.
  split.
  2:{ unfold num_transactions, random_poisson, bind, draw, ret.
      destruct (Qlt_bool (poisson_mean d) 0); [reflexivity|].
      destruct (poisson (poisson_mean d) g); reflexivity. }
  unfold poisson_mean, spec_mean, seasonal_factor, daily_factor,
    growth_factor, spec_override.
  rewrite spec_weekend_weekday.
  set (a := np_sin _). set (b := inject_Z (days_between d start_date) / 365).
  cbn [existsb].
  destruct (weekday d <? 5)%Z; cbn [negb];
    destruct (month d =? 11)%Z, (month d =? 12)%Z, (month d =? 6)%Z,
      (month d =? 7)%Z, (month d =? 1)%Z, (month d =? 2)%Z;
    cbn [orb]; ring.
Qed.

(** C5, the claim as stated fails: the run on [boundary_tape] opens with
    a North America record whose [Final_Revenue] is 1000.06 and whose
    [Tax_Amount] is 80.01, which is neither 1000.06 * 0.08 = 80.0048 nor
    that product rounded to 2 decimal places, 80.00: the tax is computed
    from the unrounded revenue 1000.0649 and rounded on its own. *)
Lemma C5_counterexample :
  exists df g' r,
    generate_sales_data (G := list Q) boundary_tape = Some (df, g')
    /\ hd_error df = Some r
    /\ col_str "Region" r = Some "North America"%string
    /\ col_float "Final_Revenue" r = Some 1000.06
    /\ col_float "Tax_Amount" r = Some 80.01
    /\ ~ 80.01 == 1000.06 * 0.08
    /\ ~ 80.01 == round2 (1000.06 * 0.08).
Proof.
  destruct boundary_tape_first_row as (df & g' & E & Hd).
  exists df, g', boundary_row.
  repeat (split; [first [exact E | exact Hd | reflexivity]|]).
  split; intro X; vm_compute in X; discriminate.
Qed.

(** C5, amended. For every generated record the tax is the unrounded
    final revenue times the rate of the region, 0.08 in North America and
    0.15 elsewhere; the fields [Tax_Amount] and [Final_Revenue] are the
    two figures rounded separately to 2 decimal places, so [Tax_Amount]
    is within 0.005 * (1 + rate) of [Final_Revenue] times the rate. *)
Theorem C5_tax_amount {G : Type} `{NumPy G} `{!LawfulNumPy G} (g : G) :
  every_generated_sale
    (fun s =>
       let rate :=
         if String.eqb (region s) "North America" then 0.08 else 0.15 in
       tax_amount s = final_revenue s * rate
       /\ forall k d,
            col_str "Region" (create_record k d s) = Some (region s)
            /\ col_float "Final_Revenue" (create_record k d s)
               = Some (round2 (final_revenue s))
            /\ col_float "Tax_Amount" (create_record k d s)
               = Some (round2 (final_revenue s * rate))
            /\ Qabs (round2 (final_revenue s * rate)
                     - round2 (final_revenue s) * rate)
               <= 0.005 * (1 + rate)) g.
Proof.
  apply every_generated_sale_intro. intros s I. cbv zeta.
  assert (T : tax_amount s
              = final_revenue s
                * (if String.eqb (region s) "North America"
                   then 0.08 else 0.15)).
  { rewrite (inv_tax_amount s I), (inv_tax_rate s I). reflexivity. }
  split; [exact T|]. intros k d.
  split; [reflexivity|]. split; [reflexivity|].
  split; [cbn; rewrite T; reflexivity|].
  pose proof (round2_near (final_revenue s)) as A.
  apply Qabs_Qle_condition in A.
  destruct (String.eqb (region s) "North America").
  - pose proof (round2_near (final_revenue s * 0.08)) as B.
    apply Qabs_Qle_condition in B.
    apply Qabs_Qle_condition. split; lra.
  - pose proof (round2_near (final_revenue s * 0.15)) as B.
    apply Qabs_Qle_condition in B.
    apply Qabs_Qle_condition. split; lra.
Qed.

(** C5, amended, on the scripted generator. *)
Lemma C5_witness :
  every_generated_sale
    (fun s =>
       let rate :=
         if String.eqb (region s) "North America" then 0.08 else 0.15 in
       tax_amount s = final_revenue s * rate
       /\ forall k d,
            col_str "Region" (create_record k d s) = Some (region s)
            /\ col_float "Final_Revenue" (create_record k d s)
               = Some (round2 (final_revenue s))
            /\ col_float "Tax_Amount" (create_record k d s)
               = Some (round2 (final_revenue s * rate))
            /\ Qabs (round2 (final_revenue s * rate)
                     - round2 (final_revenue s) * rate)
               <= 0.005 * (1 + rate)) [2#3; 4#5].
Proof.
  exact (@C5_tax_amount (list Q) tape_numpy tape_lawful [2#3; 4#5]).
Defined.

(** C6. The first record's [Order_ID] is ORD_000001; the record at
    position [i] (from 0) carries 'ORD_' followed by [i + 1] zero-padded
    to 6 digits, so each number is one more than the one before and the
    numbers strictly increase; no identifier occurs twice. *)
Theorem C6_order_ids {G : Type} `{NumPy G} `{!LawfulNumPy G} (g : G) :
  returns generate_sales_data
    (fun df _ =>
       (exists r, hd_error df = Some r
                  /\ col_str "Order_ID" r = Some "ORD_000001"%string)
       /\ (forall i r,
              nth_error df i = Some r ->
              col_str "Order_ID" r
              = Some ("ORD_" ++ fmt_0d 6 (Z.of_nat i + 1))%string
              /\ order_number r = Some (Z.of_nat i + 1)%Z)
       /\ (forall i j ri rj,
              nth_error df i = Some ri -> nth_error df j = Some rj ->
              (i < j)%nat ->
              exists m n, order_number ri = Some m /\ order_number rj = Some n
                          /\ (m < n)%Z /\ (j = S i -> n = m + 1)%Z)
       /\ NoDup (map (col_str "Order_ID") df)) g.
Proof.
  unfold generate_sales_data.
  eapply returns_weaken.
  2:{ apply returns_and.
      - pose proof range_from_start as S. rewrite date_range_first in *.
        apply first_record, S.
      - apply generate_over_spec, range_from_start. }
  intros df g1 [F (sales & _ & _ & _ & E)]. cbv beta in F.
  assert (N : forall i r,
             nth_error df i = Some r ->
             col_str "Order_ID" r
             = Some ("ORD_" ++ fmt_0d 6 (Z.of_nat i + 1))%string
             /\ order_number r = Some (Z.of_nat i + 1)%Z).
  { intros i r X. rewrite E in X.
    apply records_from_nth in X as (d & s & _ & ->).
    rewrite (Z.add_comm 1). split; [reflexivity|].
    apply order_number_record. lia. }
  split; [|split; [exact N|split]].
  - destruct (sample_sale_spec
                (snd (poisson (poisson_mean start_date) g)))
      as (s & g2 & S & _).
    eexists. split; [apply (F s g2 S)|reflexivity].
  - intros i j ri rj Xi Xj L.
    exists (Z.of_nat i + 1)%Z, (Z.of_nat j + 1)%Z.
    split; [apply (N i ri Xi)|]. split; [apply (N j rj Xj)|]. lia.
  - apply NoDup_nth_error. intros i j L X.
    rewrite length_map in L. rewrite !nth_error_map in X.
    destruct (nth_error df i) as [ri|] eqn:Xi;
      [|apply nth_error_None in Xi; lia].
    destruct (nth_error df j) as [rj|] eqn:Xj; [|discriminate].
    destruct (N i ri Xi) as [_ Oi]. destruct (N j rj Xj) as [_ Oj].
    unfold order_number in Oi, Oj. cbn [option_map] in X.
    inversion X as [X']. rewrite X' in Oi. rewrite Oi in Oj.
    inversion Oj. lia.
Qed.

(** C6 on the scripted generator. *)
Lemma C6_witness :
  returns (G := list Q) generate_sales_data
    (fun df _ =>
       (exists r, hd_error df = Some r
                  /\ col_str "Order_ID" r = Some "ORD_000001"%string)
       /\ (forall i r,
              nth_error df i = Some r ->
              col_str "Order_ID" r
              = Some ("ORD_" ++ fmt_0d 6 (Z.of_nat i + 1))%string
              /\ order_number r = Some (Z.of_nat i + 1)%Z)
       /\ (forall i j ri rj,
              nth_error df i = Some ri -> nth_error df j = Some rj ->
              (i < j)%nat ->
              exists m n, order_number ri = Some m /\ order_number rj = Some n
                          /\ (m < n)%Z /\ (j = S i -> n = m + 1)%Z)
       /\ NoDup (map (col_str "Order_ID") df)) [5#6].
Proof.
  exact (@C6_order_ids (list Q) tape_numpy tape_lawful [5#6]).
Defined.

(** C7, the claim as stated fails: the first row of the run on the
    exhausted tape has 28 columns, not 29. *)
Lemma C7_counterexample :
  exists df g' r,
    generate_sales_data (G := list Q) [] = Some (df, g')
    /\ hd_error df = Some r
    /\ List.length (keys r) = 28%nat
    /\ List.length (keys r) <> 29%nat.
Proof.
  destruct zero_tape_first_row as (df & g' & E & Hd).
  exists df, g', zero_tape_row.
  split; [exact E|]. split; [exact Hd|]. split; [reflexivity|].
  simpl. lia.
Qed.

(** C7, amended. Every row of the primary dataset has exactly the 28
    columns of the transaction record, in the order the specification
    lists its fields, and each of them holds a value. *)
Theorem C7_schema {G : Type} `{NumPy G} `{!LawfulNumPy G} (g : G) :
  returns generate_sales_data
    (fun df _ =>
       forall r, In r df ->
         keys r = sales_columns
         /\ map lower (keys r) = spec_fields
         /\ List.length (keys r) = 28%nat
         /\ forall c, In c sales_columns -> exists v, dict_get c r = Some v)
    g.
Proof.
  unfold generate_sales_data.
  eapply returns_weaken; [|apply generated_rows, range_from_start].
  intros df g1 R r I. destruct (R r I) as (k & d & s & _ & _ & ->).
  split; [reflexivity|]. split; [reflexivity|]. split; [reflexivity|].
  intros c Ic. unfold sales_columns in Ic. simpl in Ic.
  repeat (destruct Ic as [<-|Ic]; [eexists; reflexivity|]).
  contradiction.
Qed.

(** C7, amended, on the scripted generator. *)
Lemma C7_witness :
  returns (G := list Q) generate_sales_data
    (fun df _ =>
       forall r, In r df ->
         keys r = sales_columns
         /\ map lower (keys r) = spec_fields
         /\ List.length (keys r) = 28%nat
         /\ forall c, In c sales_columns -> exists v, dict_get c r = Some v)
    [1#9].
Proof.
  exact (@C7_schema (list Q) tape_numpy tape_lawful [1#9]).
Defined.

(** C8. [customer_satisfaction] lies in [1, 5] whatever the margin, the
    representative's factor and the noise are; so it does for every
    generated record, in the local variable and in the rounded field. *)
Theorem C8_satisfaction_clamped {G : Type} `{NumPy G} `{!LawfulNumPy G}
  (g : G) :
  (forall final_margin rep_factor noise,
      1 <= customer_satisfaction_of final_margin rep_factor noise <= 5)
  /\ every_generated_sale
       (fun s =>
          1 <= customer_satisfaction s <= 5
          /\ forall k d,
               col_float "Customer_Satisfaction" (create_record k d s)
               = Some (round2 (customer_satisfaction s))
               /\ 1 <= round2 (customer_satisfaction s) <= 5) g.
Proof.
  assert (K : forall fm rf nz, 1 <= customer_satisfaction_of fm rf nz <= 5)
    by (intros; apply clamp_between).
  split; [exact K|].
  apply every_generated_sale_intro. intros s I.
  pose proof (K (final_margin s) (rep_factor s) (noise s)) as B.
  rewrite <- (inv_satisfaction s I) in B.
  split; [exact B|]. intros k d. split; [reflexivity|].
  split.
  - apply round2_ge; [apply (cents_Z 1)|apply B].
  - apply round2_le; [apply (cents_Z 5)|apply B].
Qed.

(** C8 on the scripted generator. *)
Lemma C8_witness :
  (forall final_margin rep_factor noise,
      1 <= customer_satisfaction_of final_margin rep_factor noise <= 5)
  /\ every_generated_sale
       (fun s =>
          1 <= customer_satisfaction s <= 5
          /\ forall k d,
               col_float "Customer_Satisfaction" (create_record k d s)
               = Some (round2 (customer_satisfaction s))
               /\ 1 <= round2 (customer_satisfaction s) <= 5) [0.9; 1#7].
Proof.
  exact (@C8_satisfaction_clamped (list Q) tape_numpy tape_lawful [0.9; 1#7]).
Defined.

(** C9. For every product that appears in the generated dataset, the
    product summary has exactly one row, and the [Total_Revenue] of that
    row is the sum of [Final_Revenue] over the product's records, rounded
    to 2 decimal places; the rounding leaves the sum as it is, since every
    [Final_Revenue] is a whole number of hundredths. *)
Theorem C9_product_total_revenue {G : Type} `{NumPy G} `{!LawfulNumPy G}
  (g : G) :
  returns generate_sales_data
    (fun df _ =>
       exists pd,
         product_data df = Some pd
         /\ NoDup (map (col_str "Product") pd)
         /\ forall p,
              In (Some p) (map (col_str "Product") df) ->
              (exists t, In t pd /\ col_str "Product" t = Some p)
              /\ forall t,
                   In t pd -> col_str "Product" t = Some p ->
                   exists xs,
                     omap (col_float "Final_Revenue") (product_rows p df)
                     = Some xs
                     /\ col_float "Total_Revenue" t
                        = Some (round2 (Qsum xs))
                     /\ round2 (Qsum xs) == Qsum xs) g.
Proof.
  unfold generate_sales_data.
  eapply returns_weaken; [|apply generated_rows, range_from_start].
  intros df g1 R. apply product_data_spec.
  apply Forall_forall. intros r I.
  destruct (R r I) as (k & d & s & _ & _ & ->). exists k, d, s. reflexivity.
Qed.

(** C9 on the scripted generator. *)
Lemma C9_witness :
  returns (G := list Q) generate_sales_data
    (fun df _ =>
       exists pd,
         product_data df = Some pd
         /\ NoDup (map (col_str "Product") pd)
         /\ forall p,
              In (Some p) (map (col_str "Product") df) ->
              (exists t, In t pd /\ col_str "Product" t = Some p)
              /\ forall t,
                   In t pd -> col_str "Product" t = Some p ->
                   exists xs,
                     omap (col_float "Final_Revenue") (product_rows p df)
                     = Some xs
                     /\ col_float "Total_Revenue" t
                        = Some (round2 (Qsum xs))
                     /\ round2 (Qsum xs) == Qsum xs) [1#6; 2#7].
Proof.
  exact (@C9_product_total_revenue (list Q) tape_numpy tape_lawful
           [1#6; 2#7]).
Defined.

(** C10. For every generated record the unit price, the revenue and the
    final revenue are positive, the quantity is at least 1 and the
    discount is below the revenue; so the division of [profit_margin]
    has a non-zero divisor and returns, and the guard of [final_margin]
    takes its dividing branch.  The rounded fields [Revenue] and
    [Final_Revenue] are positive too. *)
Theorem C10_revenue_positive {G : Type} `{NumPy G} `{!LawfulNumPy G}
  (g : G) :
  every_generated_sale
    (fun s =>
       0 < unit_price s /\ (1 <= quantity s)%Z
       /\ discount_percent s < 100 /\ discount_amount s < revenue s
       /\ 0 < revenue s /\ 0 < final_revenue s
       /\ py_div (profit s) (revenue s) = Some (profit s / revenue s)
       /\ profit_margin s = profit s / revenue s * 100
       /\ Qlt_bool 0 (final_revenue s) = true
       /\ forall k d,
            col_float "Revenue" (create_record k d s)
            = Some (round2 (revenue s))
            /\ col_float "Final_Revenue" (create_record k d s)
               = Some (round2 (final_revenue s))
            /\ 0 < round2 (revenue s) /\ 0 < round2 (final_revenue s)) g.
Proof.
  apply every_generated_sale_intro. intros s I.
  destruct (sale_revenue_pos s I) as [R F].
  pose proof (inv_unit_price s I) as U.
  pose proof (inv_discount_percent s I) as D.
  pose proof (inv_final_revenue s I) as E.
  assert (A : discount_amount s < revenue s) by (rewrite E in F; lra).
  split; [lra|]. split; [apply (inv_quantity s I)|].
  split; [lra|]. split; [exact A|]. split; [lra|]. split; [lra|].
  split; [apply py_div_some; lra|].
  split; [apply (inv_profit_margin s I)|].
  split; [apply Qlt_bool_iff; lra|].
  intros k d. split; [reflexivity|]. split; [reflexivity|].
  split; (apply Qlt_le_trans with 1; [lra|]);
    (apply round2_ge; [apply (cents_Z 1)|lra]).
Qed.

(** C10 on the scripted generator. *)
Lemma C10_witness :
  every_generated_sale
    (fun s =>
       0 < unit_price s /\ (1 <= quantity s)%Z
       /\ discount_percent s < 100 /\ discount_amount s < revenue s
       /\ 0 < revenue s /\ 0 < final_revenue s
       /\ py_div (profit s) (revenue s) = Some (profit s / revenue s)
       /\ profit_margin s = profit s / revenue s * 100
       /\ Qlt_bool 0 (final_revenue s) = true
       /\ forall k d,
            col_float "Revenue" (create_record k d s)
            = Some (round2 (revenue s))
            /\ col_float "Final_Revenue" (create_record k d s)
               = Some (round2 (final_revenue s))
            /\ 0 < round2 (revenue s) /\ 0 < round2 (final_revenue s))
    [0.3; 5#11].
Proof.
  exact (@C10_revenue_positive (list Q) tape_numpy tape_lawful [0.3; 5#11]).
Defined.

(* ================================================================== *)
(** * Further properties of the generator *)

(** ** The ranges of one sale *)

Lemma region_bounds (r : string) :
  In r regions ->
  exists m lo hi, dict_get r region_multipliers = Some m
                  /\ 0.7 <= m <= 1.2
                  /\ dict_get r region_delivery_days = Some (lo, hi)
                  /\ (1 <= lo < hi + 1)%Z /\ (hi <= 20)%Z.
Proof.
  unfold regions. simpl.
  intros [<-|[<-|[<-|[<-|[<-|[]]]]]];
    do 3 eexists;
    (split; [reflexivity|split; [|split; [reflexivity|lia]]]);
    split; unfold Qle; simpl; lia.
Qed.

Lemma rep_bounds (r : string) :
  In r sales_reps ->
  exists f, dict_get r rep_performance = Some f /\ 1.03 <= f <= 1.15.
Proof.
  unfold sales_reps. simpl.
  intros [<-|[<-|[<-|[<-|[<-|[<-|[<-|[<-|[<-|[<-|[]]]]]]]]]]];
    eexists; (split; [reflexivity|]); split; unfold Qle; simpl; lia.
Qed.

Lemma unit_price_window (b m f pv : Q) :
  0 <= b -> 0.7 <= m <= 1.2 -> 1.03 <= f <= 1.15 -> 0.85 <= pv <= 1.25 ->
  b * 0.61285 <= b * m * f * pv <= b * 1.725.
Proof.
  intros B [M1 M2] [F1 F2] [P1 P2].
  assert (L1 : b * 0.7 <= b * m)
    by (apply Qmult_le_compat_nonneg; split; lra).
  assert (L2 : b * 0.7 * 1.03 <= b * m * f)
    by (apply Qmult_le_compat_nonneg; split; try lra;
        apply Qmult_le_0_compat; lra).
  assert (L3 : b * 0.7 * 1.03 * 0.85 <= b * m * f * pv)
    by (apply Qmult_le_compat_nonneg; split; try lra;
        repeat apply Qmult_le_0_compat; lra).
  assert (U1 : b * m <= b * 1.2)
    by (apply Qmult_le_compat_nonneg; split; lra).
  assert (N1 : 0 <= b * m) by (apply Qmult_le_0_compat; lra).
  assert (U2 : b * m * f <= b * 1.2 * 1.15)
    by (apply Qmult_le_compat_nonneg; split; lra).
  assert (N2 : 0 <= b * m * f) by (apply Qmult_le_0_compat; lra).
  assert (U3 : b * m * f * pv <= b * 1.2 * 1.15 * 1.25)
    by (apply Qmult_le_compat_nonneg; split; lra).
  split; lra.
Qed.

Section Ranges.

Context {G : Type} `{NumPy G} `{!LawfulNumPy G}.

Lemma sample_sale_ranges (g : G) :
  returns sample_sale (fun s _ => sale_ranges s) g.
Proof.
  unfold sample_sale.
  apply returns_bind, returns_choice; [simpl; lia|]. intros p g1 Hp.
  destruct (product_tables p Hp) as (c & b & Ec & Eb & Lb).
  apply returns_bind. eapply returns_try; [exact Ec|].
  apply returns_bind, returns_choice_p; [reflexivity|simpl; lia|].
  intros r g2 Hr.
  destruct (region_bounds r Hr) as (m & lo & hi & Em & Lm & Ed & Ld & Lh).
  apply returns_bind, returns_choice_p; [reflexivity|simpl; lia|].
  intros rep g3 Hrep.
  destruct (rep_bounds rep Hrep) as (f & Ef & Lf).
  apply returns_bind, returns_choice; [rewrite customers_length; lia|].
  intros cu g4 Hcu.
  apply returns_bind. eapply returns_try; [exact Eb|].
  apply returns_bind. eapply returns_try; [exact Em|].
  apply returns_bind. eapply returns_try; [exact Ef|].
  apply returns_bind, returns_uniform; [lra|]. intros pv g5 Lpv.
  assert (Pb : 0 <= inject_Z b)
    by (change 0 with (inject_Z 0); rewrite <- Zle_Qle; lia).
  pose proof (unit_price_window (inject_Z b) m f pv Pb Lm Lf Lpv) as Wup.
  pose proof (unit_price_floor b m f pv Lb (proj1 Lm) (proj1 Lf) (proj1 Lpv))
    as Lup.
  cbv zeta. remember (inject_Z b * m * f * pv) as up eqn:Eup. clear Eup.
  apply returns_bind, returns_draw.
  apply returns_bind.
  apply returns_weaken
    with (P := fun q _ => (1 <= q <= 3 \/ 5 <= q <= 19)%Z).
  2:{ destruct (Qlt_bool _ _); apply returns_randint; try lia; intros; lia. }
  intros q g7 Lq.
  assert (Lrev : 15 <= up * inject_Z q).
  { assert (Q1 : (1 <= q)%Z) by lia.
    pose proof (inject_Z_le_1 q Q1).
    assert (15 * 1 <= up * inject_Z q)
      by (apply Qmult_le_compat_nonneg; split; (lra || assumption)).
    lra. }
  remember (up * inject_Z q) as rev eqn:Erev. clear Erev.
  apply returns_bind, returns_uniform; [lra|]. intros cr g8 Lcr.
  apply returns_bind. unfold div at 1.
  eapply returns_try; [apply py_div_some; lra|].
  apply returns_bind, returns_draw.
  apply returns_bind.
  apply returns_weaken
    with (P := fun x _ =>
                 (fst x = 0 /\ snd x = 0)
                 \/ (5 <= fst x <= 25 /\ snd x = rev * (fst x / 100))).
  2:{ destruct (Qlt_bool _ _).
      - apply returns_bind, returns_uniform; [lra|]. intros dp g9 Ldp.
        apply returns_ret. right. simpl. split; [lra|reflexivity].
      - apply returns_ret. left. simpl. split; reflexivity. }
  intros [dp da] g10 D. cbn [fst snd] in D.
  apply returns_bind, returns_final_margin.
  apply returns_bind.
  apply returns_weaken
    with (P := fun x _ =>
                 if String.eqb r "North America" then 2 <= x <= 10
                 else 5 <= x <= 25).
  2:{ destruct (String.eqb r "North America"); cbn [negb];
        apply returns_uniform; try lra; auto. }
  intros sh g11 Lsh.
  apply returns_bind, returns_draw.
  apply returns_bind. eapply returns_try; [exact Ed|].
  apply returns_bind, returns_randint; [lia|]. intros dl g12 Ldl.
  apply returns_bind, returns_draw.
  apply returns_ret.
  constructor; cbn [quantity product unit_price revenue cost discount_percent
                      discount_amount region shipping_cost delivery_days
                      is_returned customer_satisfaction].
  - exact Lq.
  - exists b. split; [exact Eb|exact Wup].
  - assert (rev * 0.4 <= rev * cr /\ rev * cr <= rev * 0.7).
    { split; apply Qmult_le_compat_nonneg; split; lra. }
    lra.
  - exact D.
  - exact Lsh.
  - exists lo, hi. split; [exact Ed|lia].
  - eexists. reflexivity.
Qed.

Lemma sample_sale_facts (g : G) :
  returns sample_sale (fun s _ => sale_facts s) g.
Proof.
  apply returns_and; [apply sample_sale_spec|apply sample_sale_ranges].
Qed.

(** The loops again, for any property sampling establishes. *)
Section Every.

Variable P : sale -> Prop.
Hypothesis sampling : forall g : G, returns sample_sale (fun s _ => P s) g.

Lemma transactions_every (n : nat) (d : date) data oid (g : G) :
  returns (transactions n d (data, oid))
    (fun st _ =>
       exists ss, List.length ss = n /\ Forall P ss
                  /\ st = ((data ++ records_from oid (map (pair d) ss))%list,
                           (oid + Z.of_nat n)%Z)) g.
Proof.
  revert data oid g. induction n as [|n IH]; intros data oid g.
  - apply returns_ret. exists []. simpl.
    rewrite app_nil_r, Z.add_0_r. auto.
  - cbn [transactions]. apply returns_bind.
    eapply returns_weaken; [|apply sampling].
    intros s g1 Hs. cbv beta.
    eapply returns_weaken; [|apply IH].
    intros st g2 (ss & L & F & ->). exists (s :: ss).
    split; [simpl; lia|]. split; [constructor; assumption|].
    f_equal; [|lia]. cbn [map records_from].
    rewrite <- app_assoc. reflexivity.
Qed.

Lemma days_every (dates : list date) data oid (g : G) :
  Forall from_start dates ->
  returns (days dates (data, oid))
    (fun st _ =>
       exists sales,
         List.length dates = List.length sales
         /\ Forall (Forall P) sales
         /\ Forall (fun ss => ss <> []) sales
         /\ st = ((data ++ records_from oid (entries_of dates sales))%list,
                  (oid + Z.of_nat (List.length (entries_of dates sales)))%Z))
    g.
Proof.
  intro S. revert data oid g.
  induction S as [|d dates Sd S IH]; intros data oid g.
  - apply returns_ret. exists []. simpl.
    rewrite app_nil_r, Z.add_0_r. auto.
  - cbn [days]. apply returns_bind.
    unfold one_day, num_transactions.
    apply returns_bind, returns_bind, returns_poisson;
      [apply poisson_mean_nonneg, Sd|].
    apply returns_ret.
    eapply returns_weaken; [|apply transactions_every].
    intros st1 g1 (ss & L & F & ->).
    assert (N : ss <> []) by (intro Z; rewrite Z in L; simpl in L; lia).
    rewrite <- L. clear L.
    eapply returns_weaken; [|apply IH].
    intros st g2 (sales & Ls & Fs & Ns & ->). exists (ss :: sales).
    split; [simpl; lia|]. split; [constructor; assumption|].
    split; [constructor; assumption|].
    cbn [entries_of]. rewrite records_from_app, length_app, !length_map.
    rewrite <- app_assoc. f_equal. lia.
Qed.

(** Every generated sale has the property, and no day is without a
    sale. *)
Lemma every_generated_sale_of (g : G) :
  returns generate_sales_data
    (fun df _ =>
       exists sales,
         List.length (date_range start_date end_date) = List.length sales
         /\ df = records_from 1 (entries_of (date_range start_date end_date)
                                            sales)
         /\ Forall (Forall P) sales
         /\ Forall (fun ss => ss <> []) sales) g.
Proof.
  unfold generate_sales_data, generate_over. apply returns_bind.
  eapply returns_weaken; [|apply days_every, range_from_start].
  intros st g1 (sales & L & F & N & ->). apply returns_ret.
  exists sales. auto.
Qed.

End Every.

Lemma every_sale_facts (P : sale -> Prop) (g : G) :
  (forall s, sale_facts s -> P s) -> every_generated_sale P g.
Proof.
  intro W. unfold every_generated_sale.
  eapply returns_weaken; [|apply (every_generated_sale_of sale_facts)].
  - intros df g1 (sales & L & E & F & _). exists sales.
    split; [exact L|]. split; [exact E|].
    eapply Forall_impl; [|exact F].
    intros ss Fs. eapply Forall_impl; [|exact Fs]. exact W.
  - exact sample_sale_facts.
Qed.

End Ranges.

(** ** What every record keeps *)

Lemma category_in_categories (p c : string) :
  In p products -> dict_get p product_categories = Some c ->
  In c categories.
Proof.
  unfold products. simpl.
  intros [<-|[<-|[<-|[<-|[<-|[<-|[<-|[<-|[]]]]]]]]] E;
    vm_compute in E; inversion E; simpl; tauto.
Qed.

(** X1. The category of a record is never sampled: it is the catalogue
    category of the record's product, one of the three of [categories];
    product, region, representative and customer are members of their
    lists. *)
Theorem X1_catalogue {G : Type} `{NumPy G} `{!LawfulNumPy G} (g : G) :
  every_generated_sale
    (fun s =>
       forall k d,
         let r := create_record k d s in
         exists p c,
           col_str "Product" r = Some p /\ col_str "Category" r = Some c
           /\ In p products /\ dict_get p product_categories = Some c
           /\ In c categories
           /\ (exists x, col_str "Region" r = Some x /\ In x regions)
           /\ (exists x, col_str "Sales_Rep" r = Some x /\ In x sales_reps)
           /\ (exists x, col_str "Customer_ID" r = Some x
                         /\ In x customers)) g.
Proof.
  apply every_generated_sale_intro. intros s I k d. cbv zeta.
  exists (product s), (category s).
  split; [reflexivity|]. split; [reflexivity|].
  split; [apply (inv_product s I)|]. split; [apply (inv_category s I)|].
  split.
  { eapply category_in_categories;
      [apply (inv_product s I)|apply (inv_category s I)]. }
  split; [|split]; eexists; (split; [reflexivity|]).
  - apply (inv_region s I).
  - apply (inv_sales_rep s I).
  - apply (inv_customer s I).
Qed.

(** X1 on the scripted generator. *)
Lemma X1_witness :
  every_generated_sale
    (fun s =>
       forall k d,
         let r := create_record k d s in
         exists p c,
           col_str "Product" r = Some p /\ col_str "Category" r = Some c
           /\ In p products /\ dict_get p product_categories = Some c
           /\ In c categories
           /\ (exists x, col_str "Region" r = Some x /\ In x regions)
           /\ (exists x, col_str "Sales_Rep" r = Some x /\ In x sales_reps)
           /\ (exists x, col_str "Customer_ID" r = Some x
                         /\ In x customers)) [1#3].
Proof. exact (@X1_catalogue (list Q) tape_numpy tape_lawful [1#3]). Defined.

(** X2. A quantity is 1, 2 or 3, or a bulk quantity from 5 to 19: no
    record has quantity 4, none 20 or more. *)
Theorem X2_quantity {G : Type} `{NumPy G} `{!LawfulNumPy G} (g : G) :
  every_generated_sale
    (fun s =>
       forall k d,
         col_int "Quantity" (create_record k d s) = Some (quantity s)
         /\ (1 <= quantity s <= 3 \/ 5 <= quantity s <= 19)%Z
         /\ quantity s <> 4%Z /\ (quantity s < 20)%Z) g.
Proof.
  apply every_sale_facts. intros s [_ R] k d.
  pose proof (rg_quantity s R). split; [reflexivity|]. lia.
Qed.

(** X2 on the scripted generator. *)
Lemma X2_witness :
  every_generated_sale
    (fun s =>
       forall k d,
         col_int "Quantity" (create_record k d s) = Some (quantity s)
         /\ (1 <= quantity s <= 3 \/ 5 <= quantity s <= 19)%Z
         /\ quantity s <> 4%Z /\ (quantity s < 20)%Z) [1#3].
Proof. exact (@X2_quantity (list Q) tape_numpy tape_lawful [1#3]). Defined.

Lemma discount_amount_window (s : sale) :
  sale_facts s ->
  5 <= discount_percent s <= 25 ->
  discount_amount s = revenue s * (discount_percent s / 100) ->
  revenue s * 0.05 <= discount_amount s <= revenue s * 0.25.
Proof.
  intros [I _] D E. destruct (sale_revenue_pos s I) as [R _].
  assert (A : 0.05 <= discount_percent s / 100)
    by (apply Qle_shift_div_l; lra).
  assert (B : discount_percent s / 100 <= 0.25)
    by (apply Qle_shift_div_r; lra).
  rewrite E. split; apply Qmult_le_compat_nonneg; split; lra.
Qed.

(** X3. A record has no discount amount exactly when it has no discount
    percentage, in the local variables and in the rounded fields; a
    discount is between 5 and 25 percent of the revenue. *)
Theorem X3_discount {G : Type} `{NumPy G} `{!LawfulNumPy G} (g : G) :
  every_generated_sale
    (fun s =>
       (discount_percent s == 0 <-> discount_amount s == 0)
       /\ (round2 (discount_percent s) == 0
           <-> round2 (discount_amount s) == 0)
       /\ (~ discount_percent s == 0 ->
           5 <= discount_percent s <= 25
           /\ revenue s * 0.05 <= discount_amount s <= revenue s * 0.25)
       /\ forall k d,
            col_float "Discount_Percent" (create_record k d s)
            = Some (round2 (discount_percent s))
            /\ col_float "Discount_Amount" (create_record k d s)
               = Some (round2 (discount_amount s))) g.
Proof.
  apply every_sale_facts. intros s F. pose proof F as [I R].
  destruct (sale_revenue_pos s I) as [Rv _].
  assert (C : forall k d,
             col_float "Discount_Percent" (create_record k d s)
             = Some (round2 (discount_percent s))
             /\ col_float "Discount_Amount" (create_record k d s)
                = Some (round2 (discount_amount s)))
    by (intros; split; reflexivity).
  revert C. generalize (create_record). intros cr C.
  destruct (rg_discount s R) as [[Ep Ea]|[D Ea]].
  - rewrite Ep, Ea in *. split; [tauto|]. split; [tauto|].
    split; [intro N; exfalso; apply N; reflexivity|exact C].
  - pose proof (discount_amount_window s F D Ea) as W.
    assert (P1 : 1 <= round2 (discount_percent s))
      by (apply round2_ge; [apply (cents_Z 1)|lra]).
    assert (P2 : 0.75 <= round2 (discount_amount s)).
    { apply round2_ge; [exists 75%Z; reflexivity|lra]. }
    split; [split; intro Z; lra|]. split; [split; intro Z; lra|].
    split; [intros _; split; [exact D|exact W]|exact C].
Qed.

(** X3 on the scripted generator. *)
Lemma X3_witness :
  every_generated_sale
    (fun s =>
       (discount_percent s == 0 <-> discount_amount s == 0)
       /\ (round2 (discount_percent s) == 0
           <-> round2 (discount_amount s) == 0)
       /\ (~ discount_percent s == 0 ->
           5 <= discount_percent s <= 25
           /\ revenue s * 0.05 <= discount_amount s <= revenue s * 0.25)
       /\ forall k d,
            col_float "Discount_Percent" (create_record k d s)
            = Some (round2 (discount_percent s))
            /\ col_float "Discount_Amount" (create_record k d s)
               = Some (round2 (discount_amount s))) [1#3].
Proof. exact (@X3_discount (list Q) tape_numpy tape_lawful [1#3]). Defined.

Lemma discount_amount_bounds (s : sale) :
  sale_facts s -> 0 <= discount_amount s <= revenue s * 0.25.
Proof.
  intros F. pose proof F as [I R].
  destruct (sale_revenue_pos s I) as [Rv _].
  destruct (rg_discount s R) as [[Ep Ea]|[D Ea]].
  - rewrite Ea. split; lra.
  - pose proof (discount_amount_window s F D Ea). split; lra.
Qed.

Lemma sale_margins (s : sale) :
  sale_facts s ->
  0 < final_profit s /\ final_profit s <= profit s
  /\ 30 <= profit_margin s <= 60
  /\ (20#3) <= final_margin s <= 60.
Proof.
  intros F. pose proof F as [I R].
  destruct (sale_revenue_pos s I) as [Rv Fv].
  pose proof (discount_amount_bounds s F) as D.
  pose proof (rg_cost s R) as C.
  pose proof (inv_final_revenue s I) as Efr.
  pose proof (inv_final_profit s I) as Efp.
  pose proof (inv_profit s I) as Ep.
  rewrite (inv_profit_margin s I), (inv_final_margin s I).
  rewrite Efp, Ep. rewrite Efr in Fv |- *.
  set (rev := revenue s) in *. set (c := cost s) in *.
  set (da := discount_amount s) in *. clearbody rev c da.
  assert (Q1 : 0.3 <= (rev - c) / rev) by (apply Qle_shift_div_l; lra).
  assert (Q2 : (rev - c) / rev <= 0.6) by (apply Qle_shift_div_r; lra).
  assert (Q3 : (1#15) <= (rev - da - c) / (rev - da))
    by (apply Qle_shift_div_l; lra).
  assert (Q4 : (rev - da - c) / (rev - da) <= 0.6)
    by (apply Qle_shift_div_r; lra).
  repeat split; lra.
Qed.





(** X6. The delivery time of a record lies in the window of its region,
    both ends included: never below 1 day nor above 20, and at most 5
    days in North America. *)
Theorem X6_delivery {G : Type} `{NumPy G} `{!LawfulNumPy G} (g : G) :
  every_generated_sale
    (fun s =>
       (exists lo hi,
           dict_get (region s) region_delivery_days = Some (lo, hi)
           /\ (lo <= delivery_days s <= hi)%Z)
       /\ (1 <= delivery_days s <= 20)%Z
       /\ (region s = "North America"%string -> (delivery_days s <= 5)%Z)
       /\ forall k d,
            col_int "Delivery_Days" (create_record k d s)
            = Some (delivery_days s)) g.
Proof.
  apply every_sale_facts. intros s [I R].
  destruct (rg_delivery s R) as (lo & hi & E & L).
  destruct (region_bounds _ (inv_region s I))
    as (m & lo' & hi' & _ & _ & E' & B & U).
  rewrite E in E'. inversion E'; subst lo' hi'.
  split; [exists lo, hi; auto|]. split; [lia|].
  split; [|intros; reflexivity].
  intro N. rewrite N in E. vm_compute in E. inversion E; subst. lia.
Qed.

(** X6 on the scripted generator. *)
Lemma X6_witness :
  every_generated_sale
    (fun s =>
       (exists lo hi,
           dict_get (region s) region_delivery_days = Some (lo, hi)
           /\ (lo <= delivery_days s <= hi)%Z)
       /\ (1 <= delivery_days s <= 20)%Z
       /\ (region s = "North America"%string -> (delivery_days s <= 5)%Z)
       /\ forall k d,
            col_int "Delivery_Days" (create_record k d s)
            = Some (delivery_days s)) [2#5].
Proof. exact (@X6_delivery (list Q) tape_numpy tape_lawful [2#5]). Defined.

(** The floor of line 161 is below everything the clamped satisfaction
    allows. *)
Lemma return_probability_window (cs : Q) :
  1 <= cs <= 5 ->
  return_probability cs = 0.15 - (cs - 3) * 0.03
  /\ 0.09 <= return_probability cs <= 0.21.
Proof.
  intro B. unfold return_probability, py_max.
  assert (E : Qlt_bool 0.01 (0.15 - (cs - 3) * 0.03) = true)
    by (apply Qlt_bool_iff; lra).
  rewrite E. split; [reflexivity|split; lra].
Qed.

(** X7. The floor of 1 percent on the return probability never applies:
    for every record the probability is 0.15 - (satisfaction - 3) * 0.03,
    between 0.09 and 0.21, and the record is returned exactly when the
    draw is below it. *)
Theorem X7_return_probability {G : Type} `{NumPy G} `{!LawfulNumPy G}
  (g : G) :
  every_generated_sale
    (fun s =>
       return_probability (customer_satisfaction s)
       = 0.15 - (customer_satisfaction s - 3) * 0.03
       /\ 0.09 <= return_probability (customer_satisfaction s) <= 0.21
       /\ exists u,
            is_returned s
            = Qlt_bool u (0.15 - (customer_satisfaction s - 3) * 0.03)) g.
Proof.
  apply every_sale_facts. intros s [I R].
  assert (B : 1 <= customer_satisfaction s <= 5)
    by (rewrite (inv_satisfaction s I); apply clamp_between).
  destruct (return_probability_window _ B) as [E W].
  split; [exact E|]. split; [exact W|].
  destruct (rg_returned s R) as (u & Eu). exists u.
  rewrite Eu. fold (return_probability (customer_satisfaction s)).
  rewrite E. reflexivity.
Qed.

(** X7 on the scripted generator. *)
Lemma X7_witness :
  every_generated_sale
    (fun s =>
       return_probability (customer_satisfaction s)
       = 0.15 - (customer_satisfaction s - 3) * 0.03
       /\ 0.09 <= return_probability (customer_satisfaction s) <= 0.21
       /\ exists u,
            is_returned s
            = Qlt_bool u (0.15 - (customer_satisfaction s - 3) * 0.03))
    [2#5].
Proof.
  exact (@X7_return_probability (list Q) tape_numpy tape_lawful [2#5]).
Defined.

Lemma sale_prices (s : sale) :
  sale_facts s ->
  (exists b,
      dict_get (product s) base_prices = Some b
      /\ inject_Z b * 0.61285 <= unit_price s <= inject_Z b * 1.725)
  /\ 15.32 <= unit_price s <= 1380
  /\ revenue s = unit_price s * inject_Z (quantity s)
  /\ unit_price s <= revenue s <= 26220.
Proof.
  intros [I R].
  destruct (rg_unit_price s R) as (b & Eb & W).
  destruct (product_tables _ (inv_product s I)) as (c & b' & _ & Eb' & Lb).
  rewrite Eb in Eb'. inversion Eb'; subst b'.
  assert (Ub : (b <= 800)%Z).
  { pose proof (inv_product s I) as Ip. unfold products in Ip. simpl in Ip.
    destruct Ip as [E|[E|[E|[E|[E|[E|[E|[E|[]]]]]]]]];
      rewrite <- E in Eb; vm_compute in Eb; inversion Eb; lia. }
  assert (B1 : 25 <= inject_Z b)
    by (change 25 with (inject_Z 25); rewrite <- Zle_Qle; exact Lb).
  assert (B2 : inject_Z b <= 800)
    by (change 800 with (inject_Z 800); rewrite <- Zle_Qle; exact Ub).
  split; [exists b; auto|].
  assert (U : 15.32 <= unit_price s <= 1380) by (split; lra).
  split; [exact U|]. split; [apply (inv_revenue s I)|].
  rewrite (inv_revenue s I).
  pose proof (rg_quantity s R) as Lq.
  assert (Q1 : 1 <= inject_Z (quantity s))
    by (apply inject_Z_le_1; lia).
  assert (Q2 : inject_Z (quantity s) <= 19)
    by (change 19 with (inject_Z 19); rewrite <- Zle_Qle; lia).
  assert (unit_price s * 1 <= unit_price s * inject_Z (quantity s))
    by (apply Qmult_le_compat_nonneg; split; lra).
  assert (unit_price s * inject_Z (quantity s) <= 1380 * 19)
    by (apply Qmult_le_compat_nonneg; split; lra).
  split; lra.
Qed.

(** X8. The unit price of a record is its product's base price times a
    factor between 0.7 * 1.03 * 0.85 and 1.2 * 1.15 * 1.25, so between
    15.32 and 1380; the revenue is the unit price times the quantity,
    at most 26220. *)
Theorem X8_unit_price {G : Type} `{NumPy G} `{!LawfulNumPy G} (g : G) :
  every_generated_sale
    (fun s =>
       (exists b,
           dict_get (product s) base_prices = Some b
           /\ inject_Z b * 0.61285 <= unit_price s <= inject_Z b * 1.725)
       /\ 15.32 <= unit_price s <= 1380
       /\ revenue s = unit_price s * inject_Z (quantity s)
       /\ unit_price s <= revenue s <= 26220) g.
Proof. apply every_sale_facts. exact sale_prices. Qed.

(** X8 on the scripted generator. *)
Lemma X8_witness :
  every_generated_sale
    (fun s =>
       (exists b,
           dict_get (product s) base_prices = Some b
           /\ inject_Z b * 0.61285 <= unit_price s <= inject_Z b * 1.725)
       /\ 15.32 <= unit_price s <= 1380
       /\ revenue s = unit_price s * inject_Z (quantity s)
       /\ unit_price s <= revenue s <= 26220) [2#5].
Proof. exact (@X8_unit_price (list Q) tape_numpy tape_lawful [2#5]). Defined.

(** X9. On every day of the range the mean handed to the Poisson draw
    is between 5.88 and 61.074: the rate is never zero, and the draw is
    never rejected. *)
Theorem X9_poisson_mean_window {G : Type} `{NumPy G} `{!LawfulNumPy G}
  (d : date) :
  In d (date_range start_date end_date) ->
  5.88 <= poisson_mean d <= 61.074
  /\ forall g : G,
       num_transactions d g
       = Some (Z.max 1 (fst (poisson (poisson_mean d) g)),
               snd (poisson (poisson_mean d) g)).
Proof.
  intro I. apply date_range_days in I as [_ [Lo Hi]].
  change (toordinal end_date) with (toordinal start_date + 1095)%Z in Hi.
  assert (W : 5.88 <= poisson_mean d <= 61.074).
  { unfold poisson_mean.
    assert (A : 0.49 <= seasonal_factor d <= 2.34).
    { unfold seasonal_factor. cbv zeta.
      pose proof (np_sin_bounded
                    (2 * np_pi * inject_Z (tm_yday d) / 365)) as B.
      set (x := np_sin _) in *. clearbody x.
      repeat match goal with |- context [if ?c then _ else _] =>
               destruct c end; split; lra. }
    assert (B : 0.8 <= daily_factor d <= 1.2)
      by (unfold daily_factor; destruct (weekday d <? 5)%Z; split; lra).
    assert (C : 1 <= growth_factor d <= 1.45).
    { unfold growth_factor, days_between. cbv zeta.
      set (n := (toordinal d - toordinal start_date)%Z).
      assert (N0 : 0 <= inject_Z n)
        by (change 0 with (inject_Z 0); rewrite <- Zle_Qle; subst n; lia).
      assert (N1 : inject_Z n <= 1095)
        by (change 1095 with (inject_Z 1095); rewrite <- Zle_Qle;
            subst n; lia).
      assert (0 <= inject_Z n / 365) by (apply Qle_shift_div_l; lra).
      assert (inject_Z n / 365 <= 3) by (apply Qle_shift_div_r; lra).
      split; lra. }
    set (a := seasonal_factor d) in *. set (b := daily_factor d) in *.
    set (c := growth_factor d) in *. clearbody a b c.
    assert (L1 : 0.49 * 0.8 <= a * b)
      by (apply Qmult_le_compat_nonneg; split; lra).
    assert (L2 : 0.49 * 0.8 * 1 <= a * b * c)
      by (apply Qmult_le_compat_nonneg; split; lra).
    assert (U1 : a * b <= 2.34 * 1.2)
      by (apply Qmult_le_compat_nonneg; split; lra).
    assert (U2 : a * b * c <= 2.34 * 1.2 * 1.45)
      by (apply Qmult_le_compat_nonneg; split; lra).
    split; lra. }
  split; [exact W|]. intro g.
  unfold num_transactions, random_poisson, bind, draw, ret.
  assert (E : Qlt_bool (poisson_mean d) 0 = false)
    by (apply Qlt_bool_false; lra).
  rewrite E. destruct (poisson (poisson_mean d) g); reflexivity.
Qed.

(** X9 on the first day of the range. *)
Lemma X9_witness :
  5.88 <= poisson_mean (G := list Q) start_date <= 61.074
  /\ forall g : list Q,
       num_transactions start_date g
       = Some (Z.max 1 (fst (poisson (poisson_mean start_date) g)),
               snd (poisson (poisson_mean start_date) g)).
Proof.
  apply (@X9_poisson_mean_window (list Q) tape_numpy tape_lawful start_date).
  rewrite date_range_first. left. reflexivity.
Defined.

(** ** The calendar columns *)

Lemma range_calendar_ok :
  forallb calendar_ok (date_range start_date end_date) = true.
Proof. vm_compute. reflexivity. Qed.

Section Rows.

Context {G : Type} `{NumPy G} `{!LawfulNumPy G}.

(** The rows of the frame, with what is known of their sales. *)
Lemma generated_row_facts (g : G) :
  returns generate_sales_data
    (fun df _ =>
       forall r, In r df ->
         exists k d s,
           In d (date_range start_date end_date) /\ sale_facts s
           /\ r = create_record k d s) g.
Proof.
  eapply returns_weaken;
    [|apply (every_generated_sale_of sale_facts sample_sale_facts)].
  intros df g1 (sales & L & -> & F & _) r I.
  apply records_from_In in I as (k & d & s & I & ->).
  apply entries_of_In in I as (Id & ss & Iss & Is).
  exists k, d, s. split; [exact Id|]. split; [|reflexivity].
  rewrite Forall_forall in F. specialize (F _ Iss).
  rewrite Forall_forall in F. auto.
Qed.

End Rows.

(** X10. The calendar columns of a record agree with its date: [Date] is
    the year, month and day in 10 characters, [Year] is 2022 to 2024,
    [Month] 1 to 12, [Quarter] is 'Q' followed by (month - 1) // 3 + 1,
    which is 1 to 4, [Day_of_Week] is one of the seven day names and
    [Week_Number], the ISO week, is 1 to 53. *)
Theorem X10_calendar_columns {G : Type} `{NumPy G} `{!LawfulNumPy G}
  (g : G) :
  returns generate_sales_data
    (fun df _ =>
       forall r, In r df ->
         exists y m dd q w name,
           col_str "Date" r
           = Some (fmt_0d 4 y ++ "-" ++ fmt_0d 2 m ++ "-" ++ fmt_0d 2 dd)%string
           /\ String.length
                (fmt_0d 4 y ++ "-" ++ fmt_0d 2 m ++ "-" ++ fmt_0d 2 dd)
              = 10%nat
           /\ col_int "Year" r = Some y /\ (2022 <= y <= 2024)%Z
           /\ col_int "Month" r = Some m /\ (1 <= m <= 12)%Z
           /\ col_str "Quarter" r = Some ("Q" ++ decimal q)%string
           /\ q = ((m - 1) / 3 + 1)%Z /\ (1 <= q <= 4)%Z
           /\ col_int "Week_Number" r = Some w /\ (1 <= w <= 53)%Z
           /\ col_str "Day_of_Week" r = Some name /\ In name day_names) g.
Proof.
  eapply returns_weaken; [|apply generated_row_facts].
  intros df g1 R r I. destruct (R r I) as (k & d & s & Id & _ & ->).
  pose proof range_calendar_ok as C. rewrite forallb_forall in C.
  specialize (C d Id). unfold calendar_ok in C.
  rewrite !andb_true_iff, !Z.leb_le, Nat.eqb_eq in C.
  destruct C as [[[[[[[[[Y1 Y2] M1] M2] Q1] Q2] W1] W2] Ln] Dn].
  apply existsb_exists in Dn as (name & In_name & En).
  apply String.eqb_eq in En.
  exists (year d), (month d), (day d), ((month d - 1) / 3 + 1)%Z,
    (iso_week d), (strftime_A d).
  split; [reflexivity|]. split; [exact Ln|].
  split; [reflexivity|]. split; [lia|].
  split; [reflexivity|]. split; [lia|].
  split; [reflexivity|]. split; [reflexivity|]. split; [lia|].
  split; [reflexivity|]. split; [lia|].
  split; [reflexivity|]. rewrite En. exact In_name.
Qed.

(** X10 on the scripted generator. *)
Lemma X10_witness :
  returns (G := list Q) generate_sales_data
    (fun df _ =>
       forall r, In r df ->
         exists y m dd q w name,
           col_str "Date" r
           = Some (fmt_0d 4 y ++ "-" ++ fmt_0d 2 m ++ "-" ++ fmt_0d 2 dd)%string
           /\ String.length
                (fmt_0d 4 y ++ "-" ++ fmt_0d 2 m ++ "-" ++ fmt_0d 2 dd)
              = 10%nat
           /\ col_int "Year" r = Some y /\ (2022 <= y <= 2024)%Z
           /\ col_int "Month" r = Some m /\ (1 <= m <= 12)%Z
           /\ col_str "Quarter" r = Some ("Q" ++ decimal q)%string
           /\ q = ((m - 1) / 3 + 1)%Z /\ (1 <= q <= 4)%Z
           /\ col_int "Week_Number" r = Some w /\ (1 <= w <= 53)%Z
           /\ col_str "Day_of_Week" r = Some name /\ In name day_names)
    [3#7].
Proof.
  exact (@X10_calendar_columns (list Q) tape_numpy tape_lawful [3#7]).
Defined.

(** ** Chronological order *)

Lemma leb_refl (s : string) : String.leb s s = true.
Proof. destruct (String.leb_total s s); assumption. Qed.

Lemma ltb_leb (a b : string) :
  String.ltb a b = true -> String.leb b a = false.
Proof.
  unfold String.ltb, String.leb. rewrite (String.compare_antisym b a).
  destruct (String.compare a b); simpl; congruence.
Qed.

Lemma leb_not_ltb_eq (a b : string) :
  String.leb a b = true -> String.ltb a b = false -> a = b.
Proof.
  unfold String.ltb, String.leb. intros L N.
  apply String.compare_eq_iff. destruct (String.compare a b); congruence.
Qed.

Lemma ascending_sorted (l : list string) :
  ascending l = true -> StronglySorted (fun a b => String.leb a b = true) l.
Proof.
  induction l as [|x t IH]; simpl; intro E; constructor.
  - apply IH. apply andb_prop in E. tauto.
  - apply Forall_forall. apply andb_prop in E as [E _].
    rewrite forallb_forall in E. exact E.
Qed.

Lemma sorted_app {A} (R : A -> A -> Prop) (l1 l2 : list A) :
  StronglySorted R l1 -> StronglySorted R l2 ->
  (forall a b, In a l1 -> In b l2 -> R a b) ->
  StronglySorted R (l1 ++ l2).
Proof.
  induction 1 as [|a l1 S IH F]; intros S2 X; simpl; [exact S2|].
  constructor.
  - apply IH; [exact S2|]. intros; apply X; [right|]; assumption.
  - apply Forall_app. split; [exact F|].
    apply Forall_forall. intros b Ib. apply X; [left; reflexivity|exact Ib].
Qed.

Lemma sorted_constant {A} (R : A -> A -> Prop) (a : A) (n : nat) :
  R a a -> StronglySorted R (repeat a n).
Proof.
  intro Ra. induction n as [|n IH]; simpl; constructor; [exact IH|].
  apply Forall_forall. intros b Ib. apply repeat_spec in Ib. subst. exact Ra.
Qed.

Lemma last_app_nonempty {A} (l1 l2 : list A) (x : A) :
  l2 <> [] -> last (l1 ++ l2) x = last l2 x.
Proof.
  intro N. induction l1 as [|a l1 IH]; simpl; [reflexivity|].
  destruct (l1 ++ l2) eqn:E; [|exact IH].
  apply app_eq_nil in E as [_ E]. contradiction.
Qed.

(** The [Date] column of the records of a list of dated sales. *)
Lemma date_column (oid : Z) (l : list (date * sale)) :
  omap (col_str "Date") (records_from oid l)
  = Some (map (fun e => strftime_ymd (fst e)) l).
Proof.
  revert oid. induction l as [|[d s] l IH]; intro oid; simpl.
  - reflexivity.
  - change (col_str "Date" (create_record oid d s))
      with (Some (strftime_ymd d)).
    cbn [obind]. rewrite IH. reflexivity.
Qed.

Lemma entries_dates_sorted (dates : list date) (sales : list (list sale)) :
  StronglySorted (fun a b => String.leb a b = true)
    (map strftime_ymd dates) ->
  StronglySorted (fun a b => String.leb a b = true)
    (map (fun e => strftime_ymd (fst e)) (entries_of dates sales)).
Proof.
  revert sales. induction dates as [|d dates IH]; intros sales S;
    [constructor|].
  destruct sales as [|ss sales]; [constructor|].
  cbn [entries_of]. rewrite map_app, map_map. cbn [fst].
  inversion S as [|? ? S' F]; subst.
  apply sorted_app.
  - rewrite map_const. apply sorted_constant, leb_refl.
  - apply IH, S'.
  - intros a b Ia Ib. apply in_map_iff in Ia as (s & <- & _).
    apply in_map_iff in Ib as ([d' s'] & <- & Ie). cbn [fst].
    apply entries_of_In in Ie as [Id _].
    rewrite Forall_forall in F. apply F. apply in_map. exact Id.
Qed.

Lemma entries_dates_ends (dates : list date) (sales : list (list sale)) x :
  List.length dates = List.length sales ->
  Forall (fun ss => ss <> []) sales ->
  let col := map (fun e => strftime_ymd (fst e)) (entries_of dates sales) in
  hd_error col = hd_error (map strftime_ymd dates)
  /\ last col x = last (map strftime_ymd dates) x
  /\ (List.length dates <= List.length col)%nat.
Proof.
  revert sales. induction dates as [|d dates IH]; intros [|ss sales] L F;
    simpl in L; try discriminate; cbv zeta.
  - simpl. auto.
  - inversion F as [|? ? Nss F']; subst.
    destruct (IH sales ltac:(lia) F') as (_ & Hl & Hn). cbv zeta in Hl, Hn.
    cbn [entries_of]. rewrite map_app, map_map. cbn [fst].
    destruct ss as [|s ss]; [contradiction|].
    split; [reflexivity|]. split.
    + destruct dates as [|d' dates].
      * destruct sales; [|discriminate]. simpl. rewrite app_nil_r.
        rewrite map_const. clear. induction ss; simpl; auto.
      * destruct sales as [|ss' sales]; [discriminate|].
        rewrite last_app_nonempty.
        -- rewrite Hl. reflexivity.
        -- inversion F' as [|? ? Nss' _]; subst.
           destruct ss' as [|s' ss']; [contradiction|]. discriminate.
    + rewrite length_app. simpl in *. lia.
Qed.

Lemma last_cons {A} (l : list A) (a x : A) : last (a :: l) x = last l a.
Proof.
  revert a x. induction l as [|b l IH]; intros a x; [reflexivity|].
  change (last (a :: b :: l) x) with (last (b :: l) x).
  rewrite !IH. reflexivity.
Qed.

Lemma fold_min_sorted (s : string) (t : list string) :
  StronglySorted (fun a b => String.leb a b = true) (s :: t) ->
  fold_left (fun m x => if String.ltb x m then x else m) t s = s.
Proof.
  intro S. inversion S as [|? ? _ F]; subst. clear S.
  induction t as [|x t IH]; simpl; [reflexivity|].
  inversion F as [|? ? Lx F']; subst.
  destruct (String.ltb x s) eqn:E.
  - apply ltb_leb in E. congruence.
  - apply IH, F'.
Qed.

Lemma fold_max_sorted (s : string) (t : list string) :
  StronglySorted (fun a b => String.leb a b = true) (s :: t) ->
  fold_left (fun m x => if String.ltb m x then x else m) t s = last t s.
Proof.
  revert s. induction t as [|x t IH]; intros s S; simpl; [reflexivity|].
  inversion S as [|? ? S' F]; subst. inversion F as [|? ? Lx _]; subst.
  assert (E : (if String.ltb s x then x else s) = x).
  { destruct (String.ltb s x) eqn:E; [reflexivity|].
    apply leb_not_ltb_eq; assumption. }
  rewrite E, (IH x S'). symmetry. apply last_cons.
Qed.

Lemma range_dates_ascending :
  ascending (map strftime_ymd (date_range start_date end_date)) = true.
Proof. vm_compute. reflexivity. Qed.

(** X11. The records are in chronological order: the [Date] column is
    ascending, it starts at 2022-01-01 and ends at 2024-12-31, which are
    the minimum and the maximum the script prints, and the frame has at
    least one row for each of the 1096 days. *)
Theorem X11_chronological {G : Type} `{NumPy G} `{!LawfulNumPy G} (g : G) :
  returns generate_sales_data
    (fun df _ =>
       exists col,
         omap (col_str "Date") df = Some col
         /\ StronglySorted (fun a b => String.leb a b = true) col
         /\ hd_error col = Some "2022-01-01"%string
         /\ last col EmptyString = "2024-12-31"%string
         /\ min_str "Date" df = Some "2022-01-01"%string
         /\ max_str "Date" df = Some "2024-12-31"%string
         /\ (1096 <= List.length df)%nat) g.
Proof.
  eapply returns_weaken;
    [|apply (every_generated_sale_of sale_facts sample_sale_facts)].
  intros df g1 (sales & L & -> & _ & N).
  assert (Eh : hd_error (map strftime_ymd (date_range start_date end_date))
               = Some "2022-01-01"%string) by (vm_compute; reflexivity).
  assert (El : last (map strftime_ymd (date_range start_date end_date))
                 EmptyString = "2024-12-31"%string)
    by (vm_compute; reflexivity).
  assert (En : List.length (date_range start_date end_date) = 1096%nat)
    by (vm_compute; reflexivity).
  pose proof (ascending_sorted _ range_dates_ascending) as Sd.
  set (dates := date_range start_date end_date) in *. clearbody dates.
  pose proof (entries_dates_sorted dates sales Sd) as S.
  destruct (entries_dates_ends dates sales EmptyString L N)
    as (Hh & Hl & Hn).
  cbv zeta in Hh, Hl, Hn.
  pose proof (date_column 1 (entries_of dates sales)) as Ec.
  pose proof (records_from_length 1 (entries_of dates sales)) as Er.
  rewrite <- (length_map (fun e => strftime_ymd (fst e))) in Er.
  set (col := map (fun e => strftime_ymd (fst e)) (entries_of dates sales))
    in *.
  clearbody col.
  set (df := records_from 1 (entries_of dates sales)) in *. clearbody df.
  rewrite Eh in Hh. rewrite El in Hl. rewrite En in Hn.
  exists col. split; [exact Ec|]. split; [exact S|].
  split; [exact Hh|]. split; [exact Hl|].
  unfold min_str, max_str. rewrite Ec. cbn [obind].
  split; [|split; [|lia]].
  - destruct col as [|c0 col']; [discriminate|].
    inversion Hh; subst c0.
    rewrite (fold_min_sorted _ _ S). reflexivity.
  - destruct col as [|c0 col']; [discriminate|].
    rewrite (fold_max_sorted _ _ S). f_equal.
    rewrite <- Hl. symmetry. apply last_cons.
Qed.

(** X11 on the scripted generator. *)
Lemma X11_witness :
  returns (G := list Q) generate_sales_data
    (fun df _ =>
       exists col,
         omap (col_str "Date") df = Some col
         /\ StronglySorted (fun a b => String.leb a b = true) col
         /\ hd_error col = Some "2022-01-01"%string
         /\ last col EmptyString = "2024-12-31"%string
         /\ min_str "Date" df = Some "2022-01-01"%string
         /\ max_str "Date" df = Some "2024-12-31"%string
         /\ (1096 <= List.length df)%nat) [3#7].
Proof.
  exact (@X11_chronological (list Q) tape_numpy tape_lawful [3#7]).
Defined.

(** ** The groups of a frame *)

Lemma place_one {K A} (eq_dec : forall a b : K, {a = b} + {a <> b})
  (F : K -> list A) (k0 : K) (a : A) (ks : list K) :
  NoDup ks -> In k0 ks ->
  Permutation
    (List.concat (map (fun k => if eq_dec k k0 then a :: F k else F k) ks))
    (a :: List.concat (map F ks)).
Proof.
  induction 1 as [|k ks N D IH]; intro I; [contradiction|].
  cbn [map List.concat]. destruct (eq_dec k k0) as [E|E].
  - subst k0. cbn [app]. apply perm_skip, Permutation_app_head.
    assert (X : map (fun k' => if eq_dec k' k then a :: F k' else F k') ks
                = map F ks).
    { apply map_ext_in. intros k' I'.
      destruct (eq_dec k' k) as [E'|_]; [subst; contradiction|reflexivity]. }
    rewrite X. reflexivity.
  - destruct I as [I|I]; [contradiction|].
    eapply Permutation_trans;
      [apply Permutation_app_head, IH, I|].
    symmetry. apply Permutation_middle.
Qed.

(** The groups of [groupby] are a partition of the frame: put end to
    end they are the rows of the frame in another order. *)
Lemma groups_partition {K} (eq_dec : forall a b : K, {a = b} + {a <> b})
  (key : record -> option K) (ks : list K) (df : DataFrame) :
  NoDup ks -> (forall r, In r df -> exists k, In k ks /\ key r = Some k) ->
  Permutation (List.concat (map (fun k => filter (has_key eq_dec key k) df) ks))
    df.
Proof.
  intros N. induction df as [|r df IH]; intro C.
  - cbn [filter]. clear. induction ks; simpl; auto.
  - destruct (C r (or_introl eq_refl)) as (k0 & I0 & E0).
    assert (X : map (fun k => filter (has_key eq_dec key k) (r :: df)) ks
                = map (fun k => if eq_dec k k0
                                then r :: filter (has_key eq_dec key k) df
                                else filter (has_key eq_dec key k) df) ks).
    { apply map_ext. intro k. cbn [filter]. unfold has_key at 1.
      rewrite E0. destruct (eq_dec k k0); reflexivity. }
    rewrite X.
    eapply Permutation_trans; [apply place_one; assumption|].
    apply perm_skip, IH. intros; apply C; right; assumption.
Qed.

Lemma groupby_inv {K} (eq_dec : forall a b : K, {a = b} + {a <> b})
  (leb : K -> K -> bool) (key : record -> option K) (df : DataFrame) gs :
  groupby eq_dec leb key df = Some gs ->
  exists ks,
    NoDup ks
    /\ gs = map (fun k => (k, filter (has_key eq_dec key k) df)) ks
    /\ (forall r, In r df -> exists k, In k ks /\ key r = Some k)
    /\ (forall k, In k ks -> exists r, In r df /\ key r = Some k).
Proof.
  unfold groupby. intro E. apply obind_inv in E as (ks0 & E0 & E).
  inversion E; subst gs. clear E.
  pose proof (omap_inv _ _ _ E0) as F.
  exists (sort_keys leb (nodup eq_dec ks0)).
  split; [apply sort_keys_NoDup, NoDup_nodup|]. split; [reflexivity|].
  split.
  - intros r I. destruct (Forall2_In_l _ _ _ _ F I) as (k & Ik & Ek).
    exists k. split; [|exact Ek]. apply sort_keys_In, nodup_In, Ik.
  - intros k I. apply sort_keys_In, nodup_In in I.
    destruct (Forall2_In_r _ _ _ _ F I) as (r & Ir & Er). exists r. auto.
Qed.

Lemma groups_rows {K} (eq_dec : forall a b : K, {a = b} + {a <> b})
  (key : record -> option K) (ks : list K) (df : DataFrame) :
  map snd (map (fun k => (k, filter (has_key eq_dec key k) df)) ks)
  = map (fun k => filter (has_key eq_dec key k) df) ks.
Proof. rewrite map_map. reflexivity. Qed.

(** ** Sums *)

Lemma Qsum_app (l1 l2 : list Q) : Qsum (l1 ++ l2) == Qsum l1 + Qsum l2.
Proof.
  induction l1 as [|x l1 IH]; simpl.
  - unfold Qsum at 2. simpl. lra.
  - rewrite !Qsum_cons, IH. lra.
Qed.

Lemma Qsum_perm (l1 l2 : list Q) : Permutation l1 l2 -> Qsum l1 == Qsum l2.
Proof.
  induction 1 as [|x l l' P IH|x y l|l l' l'' P1 IH1 P2 IH2].
  - reflexivity.
  - rewrite !Qsum_cons, IH. reflexivity.
  - rewrite !Qsum_cons. lra.
  - rewrite IH1. exact IH2.
Qed.

Lemma fold_add_acc (l : list Z) (a : Z) :
  fold_left Z.add l a = (a + fold_left Z.add l 0)%Z.
Proof.
  revert a. induction l as [|x l IH]; intro a; simpl; [lia|].
  rewrite IH, (IH x). lia.
Qed.

Lemma column_weights (c : string) (rows : list record) xs :
  omap (col_float c) rows = Some xs -> xs = map (weight c) rows.
Proof.
  revert xs. induction rows as [|r rows IH]; intros xs E; simpl in E.
  - inversion E. reflexivity.
  - apply obind_inv in E as (x & Ex & E).
    apply obind_inv in E as (xs' & Es & E). inversion E; subst.
    simpl. unfold weight at 1. rewrite Ex. f_equal. apply IH, Es.
Qed.

Lemma Qsum_concat_weights (c : string) (groups : list (list record)) :
  Qsum (map (weight c) (List.concat groups))
  == fold_right Qplus 0 (map (fun rows => Qsum (map (weight c) rows)) groups).
Proof.
  induction groups as [|rows groups IH]; simpl; [reflexivity|].
  rewrite map_app, Qsum_app, IH. reflexivity.
Qed.

Lemma length_concat (groups : list (list record)) :
  Z.of_nat (List.length (List.concat groups))
  = fold_right Z.add 0%Z (map (fun rows => count rows) groups).
Proof.
  induction groups as [|rows groups IH]; simpl; [reflexivity|].
  rewrite length_app. unfold count at 1. lia.
Qed.


(** ** Tables of groups *)

Lemma column_units (c : string) (rows : list record) xs :
  omap (col_int c) rows = Some xs -> xs = map (units c) rows.
Proof.
  revert xs. induction rows as [|r rows IH]; intros xs E; simpl in E.
  - inversion E. reflexivity.
  - apply obind_inv in E as (x & Ex & E).
    apply obind_inv in E as (xs' & Es & E). inversion E; subst.
    simpl. unfold units at 1. rewrite Ex. f_equal. apply IH, Es.
Qed.

Lemma fold_add_right (l : list Z) :
  fold_left Z.add l 0%Z = fold_right Z.add 0%Z l.
Proof.
  induction l as [|x l IH]; simpl; [reflexivity|].
  rewrite fold_add_acc, IH. reflexivity.
Qed.

Lemma sum_float_total (c : string) (rows : list record) x :
  sum_float c rows = Some x -> x = total c rows.
Proof.
  unfold sum_float. intro E. apply obind_inv in E as (xs & Exs & E).
  inversion E. rewrite (column_weights _ _ _ Exs). reflexivity.
Qed.

Lemma sum_int_total (c : string) (rows : list record) n :
  sum_int c rows = Some n -> n = total_units c rows.
Proof.
  unfold sum_int. intro E. apply obind_inv in E as (xs & Exs & E).
  inversion E. rewrite (column_units _ _ _ Exs). apply fold_add_right.
Qed.

Lemma total_cents (c : string) (rows : list record) :
  Forall (fun r => cents (weight c r)) rows -> cents (total c rows).
Proof.
  intro F. apply Qsum_cents. apply Forall_forall. intros x I.
  apply in_map_iff in I as (r & <- & I). rewrite Forall_forall in F. auto.
Qed.

Lemma total_perm (c : string) (l1 l2 : list record) :
  Permutation l1 l2 -> total c l1 == total c l2.
Proof. intro P. apply Qsum_perm, Permutation_map, P. Qed.

Lemma total_units_perm (c : string) (l1 l2 : list record) :
  Permutation l1 l2 -> total_units c l1 = total_units c l2.
Proof.
  unfold total_units.
  induction 1 as [|x l l' P IH|x y l|l l' l'' P1 IH1 P2 IH2]; simpl; lia.
Qed.

Lemma total_concat (c : string) (groups : list (list record)) :
  total c (List.concat groups)
  == fold_right Qplus 0 (map (total c) groups).
Proof. apply Qsum_concat_weights. Qed.

Lemma total_units_concat (c : string) (groups : list (list record)) :
  total_units c (List.concat groups)
  = fold_right Z.add 0%Z (map (total_units c) groups).
Proof.
  unfold total_units.
  induction groups as [|rows groups IH]; simpl; [reflexivity|].
  rewrite map_app, fold_right_app, <- IH.
  generalize (fold_right Z.add 0%Z
                (map (units c) (List.concat groups))).
  intro z. induction (map (units c) rows); simpl; lia.
Qed.

(** An integer column of a table that holds a measure of each group
    sums to the measures of the groups. *)
Lemma table_sum_int {K} (row : K * list record -> option record)
  (c : string) (m : list record -> Z) gs table :
  omap row gs = Some table ->
  (forall g t, In g gs -> row g = Some t -> col_int c t = Some (m (snd g))) ->
  sum_int c table = Some (fold_right Z.add 0%Z (map m (map snd gs))).
Proof.
  intros E W. unfold sum_int.
  assert (X : omap (col_int c) table = Some (map m (map snd gs))).
  { revert table E. induction gs as [|g gs IH]; intros table E; simpl in E.
    - inversion E. reflexivity.
    - apply obind_inv in E as (t & Et & E).
      apply obind_inv in E as (ts & Ets & E). inversion E; subst.
      simpl. rewrite (W g t (or_introl eq_refl) Et). cbn [obind].
      rewrite (IH (fun g' t' I => W g' t' (or_intror I)) ts Ets).
      reflexivity. }
  rewrite X. cbn [obind]. rewrite fold_add_right. reflexivity.
Qed.

(** A float column of a table that holds a measure of each group sums
    to the measures of the groups. *)
Lemma table_sum_float {K} (row : K * list record -> option record)
  (c : string) (m : list record -> Q) gs table :
  omap row gs = Some table ->
  (forall g t, In g gs -> row g = Some t ->
               exists x, col_float c t = Some x /\ x == m (snd g)) ->
  exists x, sum_float c table = Some x
            /\ x == fold_right Qplus 0 (map m (map snd gs)).
Proof.
  intros E W. unfold sum_float.
  assert (X : exists xs, omap (col_float c) table = Some xs
                         /\ Qsum xs
                            == fold_right Qplus 0 (map m (map snd gs))).
  { revert table E. induction gs as [|g gs IH]; intros table E; simpl in E.
    - inversion E. exists []. split; reflexivity.
    - apply obind_inv in E as (t & Et & E).
      apply obind_inv in E as (ts & Ets & E). inversion E; subst.
      destruct (W g t (or_introl eq_refl) Et) as (x & Ex & Qx).
      destruct (IH (fun g' t' I => W g' t' (or_intror I)) ts Ets)
        as (xs & Exs & Qxs).
      exists (x :: xs). simpl. rewrite Ex, Exs. cbn [obind].
      split; [reflexivity|]. rewrite Qsum_cons, Qx, Qxs. reflexivity. }
  destruct X as (xs & Exs & Qxs). rewrite Exs. cbn [obind].
  exists (Qsum xs). split; [reflexivity|exact Qxs].
Qed.

(** What the totals of a summary table add up to: the groups are a
    partition of the frame, so a count, a sum of units or a sum of
    hundredths taken group by group is the one of the frame. *)
Section Conservation.

Context {K : Type} (eq_dec : forall a b : K, {a = b} + {a <> b})
        (leb : K -> K -> bool) (key : record -> option K)
        (row : K * list record -> option record).

Variables (df table : DataFrame).
Hypothesis rows : Forall is_row df.
Hypothesis tabled : obind (groupby eq_dec leb key df) (omap row) = Some table.

Lemma conserved_groups :
  exists gs, groupby eq_dec leb key df = Some gs
             /\ omap row gs = Some table
             /\ Permutation (List.concat (map snd gs)) df
             /\ forall g, In g gs -> Forall is_row (snd g).
Proof.
  destruct (obind_inv _ _ _ tabled) as (gs & Eg & Et).
  exists gs. split; [exact Eg|]. split; [exact Et|].
  destruct (groupby_inv _ _ _ _ _ Eg) as (ks & N & -> & C & _).
  split.
  - rewrite groups_rows. apply groups_partition; assumption.
  - intros g I. apply in_map_iff in I as (k & <- & _). cbn [snd].
    apply Forall_forall. intros r Ir. apply filter_In in Ir as [Ir _].
    rewrite Forall_forall in rows. auto.
Qed.

Lemma conserved_count (c : string) :
  (forall g t, row g = Some t -> col_int c t = Some (count (snd g))) ->
  sum_int c table = Some (count df).
Proof.
  intro W. destruct conserved_groups as (gs & _ & Et & P & _).
  rewrite (table_sum_int row c count gs table Et)
    by (intros; apply W; assumption).
  rewrite <- length_concat. unfold count.
  rewrite (Permutation_length P). reflexivity.
Qed.

Lemma conserved_units (c c' : string) :
  (forall g t, row g = Some t ->
               exists n, sum_int c' (snd g) = Some n
                         /\ col_int c t = Some n) ->
  sum_int c table = Some (total_units c' df).
Proof.
  intro W. destruct conserved_groups as (gs & _ & Et & P & _).
  rewrite (table_sum_int row c (total_units c') gs table Et).
  - rewrite <- total_units_concat, (total_units_perm _ _ _ P). reflexivity.
  - intros g t _ E. destruct (W g t E) as (n & En & Ec).
    rewrite Ec, (sum_int_total _ _ _ En). reflexivity.
Qed.

Lemma conserved_total (c c' : string) :
  (forall k d s, cents (weight c' (create_record k d s))) ->
  (forall g t, row g = Some t ->
               exists x, sum_float c' (snd g) = Some x
                         /\ col_float c t = Some (round2 x)) ->
  exists x, sum_float c table = Some x /\ x == total c' df.
Proof.
  intros Cw W. destruct conserved_groups as (gs & _ & Et & P & F).
  destruct (table_sum_float row c (total c') gs table Et) as (x & Ex & Qx).
  - intros g t I E. destruct (W g t E) as (x & Ex & Ec).
    exists (round2 x). split; [exact Ec|].
    rewrite (sum_float_total _ _ _ Ex). apply round2_of_cents, total_cents.
    apply Forall_forall. intros r Ir.
    pose proof (F g I) as Fg. rewrite Forall_forall in Fg.
    destruct (Fg r Ir) as (k & d & s & ->). apply Cw.
  - exists x. split; [exact Ex|].
    rewrite Qx, <- total_concat. apply total_perm, P.
Qed.

End Conservation.

Ltac row_inv H :=
  repeat (let x := fresh "x" in let E := fresh "E" in
          apply obind_inv in H as (x & E & H));
  inversion H; subst; clear H.

Lemma customer_row_inv g t :
  customer_row g = Some t ->
  col_int "Total_Orders" t = Some (count (snd g))
  /\ (exists n, sum_int "Quantity" (snd g) = Some n
                /\ col_int "Total_Quantity" t = Some n)
  /\ (exists x, sum_float "Final_Revenue" (snd g) = Some x
                /\ col_float "Total_Revenue" t = Some (round2 x))
  /\ (exists n, count_true "Is_Returned" (snd g) = Some n
                /\ col_int "Returns_Count" t = Some n)
  /\ (exists x, mean "Customer_Satisfaction" (snd g) = Some x
                /\ col_float "Avg_Satisfaction" t = Some (round2 x))
  /\ (exists a b, min_str "Date" (snd g) = Some a
                  /\ max_str "Date" (snd g) = Some b
                  /\ col_str "First_Order_Date" t = Some a
                  /\ col_str "Last_Order_Date" t = Some b)
  /\ (exists r, first "Region" (snd g) = Some r
                /\ col_str "Region" t = Some r)
  /\ col_str "Customer_ID" t = Some (fst g).
Proof.
  destruct g as [k rows]. unfold customer_row. intro E. row_inv E.
  cbn [fst snd]. repeat split; eauto 6.
Qed.

Lemma product_row_inv g t :
  product_row g = Some t ->
  col_int "Total_Orders" t = Some (count (snd g))
  /\ (exists n, sum_int "Quantity" (snd g) = Some n
                /\ col_int "Total_Quantity" t = Some n)
  /\ (exists x, sum_float "Final_Revenue" (snd g) = Some x
                /\ col_float "Total_Revenue" t = Some (round2 x))
  /\ (exists x, mean "Final_Margin" (snd g) = Some x
                /\ col_float "Avg_Margin" t = Some (round2 x))
  /\ (exists x, mean "Customer_Satisfaction" (snd g) = Some x
                /\ col_float "Avg_Satisfaction" t = Some (round2 x))
  /\ (exists n x, count_true "Is_Returned" (snd g) = Some n
                  /\ py_div (inject_Z n) (inject_Z (count (snd g))) = Some x
                  /\ col_float "Return_Rate" t = Some (round2 (x * 100)))
  /\ col_str "Product" t = Some (fst g).
Proof.
  destruct g as [k rows]. unfold product_row. intro E. row_inv E.
  cbn [fst snd]. repeat split; eauto 6.
Qed.

Lemma rep_row_inv g t :
  rep_row g = Some t ->
  col_int "Total_Orders" t = Some (count (snd g))
  /\ (exists x, sum_float "Final_Revenue" (snd g) = Some x
                /\ col_float "Total_Revenue" t = Some (round2 x))
  /\ (exists x, mean "Final_Margin" (snd g) = Some x
                /\ col_float "Avg_Margin" t = Some (round2 x))
  /\ (exists x, mean "Customer_Satisfaction" (snd g) = Some x
                /\ col_float "Avg_Customer_Satisfaction" t
                   = Some (round2 x))
  /\ (exists n, nunique "Customer_ID" (snd g) = Some n
                /\ col_int "Unique_Customers" t = Some n)
  /\ col_str "Sales_Rep" t = Some (fst g).
Proof.
  destruct g as [k rows]. unfold rep_row. intro E. row_inv E.
  cbn [fst snd]. repeat split; eauto 6.
Qed.

Lemma month_row_inv g t :
  month_row g = Some t ->
  col_int "Orders" t = Some (count (snd g))
  /\ (exists n, sum_int "Quantity" (snd g) = Some n
                /\ col_int "Units_Sold" t = Some n)
  /\ (exists x, sum_float "Final_Revenue" (snd g) = Some x
                /\ col_float "Revenue" t = Some (round2 x))
  /\ (exists x, sum_float "Final_Profit" (snd g) = Some x
                /\ col_float "Profit" t = Some (round2 x))
  /\ (exists n, nunique "Customer_ID" (snd g) = Some n
                /\ col_int "Unique_Customers" t = Some n)
  /\ col_int "Year" t = Some (fst (fst g))
  /\ col_int "Month" t = Some (snd (fst g))
  /\ col_str "Date" t
     = Some (strftime_ymd (mkdate (fst (fst g)) (snd (fst g)) 1)).
Proof.
  destruct g as [[y m] rows]. unfold month_row. intro E. row_inv E.
  cbn [fst snd]. repeat split; eauto 6.
Qed.

(** ** The script and its tables *)

Lemma generated_rows_facts (df : DataFrame) :
  generated df ->
  forall r, In r df ->
    exists k d s,
      In d (date_range start_date end_date) /\ sale_facts s
      /\ r = create_record k d s.
Proof.
  intros (sales & L & -> & F & _) r I.
  apply records_from_In in I as (k & d & s & I & ->).
  apply entries_of_In in I as (Id & ss & Iss & Is).
  exists k, d, s. split; [exact Id|]. split; [|reflexivity].
  rewrite Forall_forall in F. specialize (F _ Iss).
  rewrite Forall_forall in F. auto.
Qed.

Lemma generated_is_row (df : DataFrame) : generated df -> Forall is_row df.
Proof.
  intro Gd. apply Forall_forall. intros r I.
  destruct (generated_rows_facts df Gd r I) as (k & d & s & _ & _ & ->).
  exists k, d, s. reflexivity.
Qed.

Lemma entries_at_least (dates : list date) (sales : list (list sale)) :
  List.length dates = List.length sales ->
  Forall (fun ss => ss <> []) sales ->
  (List.length dates <= List.length (entries_of dates sales))%nat.
Proof.
  revert sales. induction dates as [|d dates IH]; intros [|ss sales] L F;
    simpl in *; try discriminate; [lia|].
  inversion F as [|? ? N F']; subst.
  rewrite length_app, length_map.
  specialize (IH sales ltac:(lia) F').
  destruct ss; [contradiction|simpl; lia].
Qed.

Lemma generated_length (df : DataFrame) :
  generated df -> (1096 <= count df)%Z.
Proof.
  intros (sales & L & -> & _ & N). unfold count.
  rewrite records_from_length.
  pose proof (entries_at_least _ _ L N) as X.
  assert (D : List.length (date_range start_date end_date) = 1096%nat)
    by (vm_compute; reflexivity).
  rewrite D in X. lia.
Qed.

Section ScriptTables.

Context {G : Type} `{NumPy G} `{!LawfulNumPy G}.

(** The script returns the frame of a run and its four tables. *)
Lemma script_spec (g : G) :
  returns script (fun o _ => generated (sales_data o) /\ tables_of o) g.
Proof.
  unfold script. apply returns_bind, returns_draw. cbn [fst snd].
  apply returns_bind.
  eapply returns_weaken;
    [|apply (every_generated_sale_of sale_facts sample_sale_facts)].
  intros df g1 Gd. change (generated df) in Gd.
  pose proof (generated_is_row df Gd) as F.
  destruct (summary_total string_dec String.leb (col_str "Customer_ID")
              customer_row df F) as (t1 & E1);
    [intros; eexists; reflexivity|exact customer_row_total|].
  destruct (summary_total string_dec String.leb (col_str "Product")
              product_row df F) as (t2 & E2);
    [intros; eexists; reflexivity|exact product_row_total|].
  destruct (summary_total string_dec String.leb (col_str "Sales_Rep")
              rep_row df F) as (t3 & E3);
    [intros; eexists; reflexivity|exact rep_row_total|].
  destruct (summary_total year_month_dec year_month_leb year_month
              month_row df F) as (t4 & E4);
    [intros; eexists; reflexivity|exact month_row_total|].
  apply returns_bind. eapply returns_try; [exact E1|].
  apply returns_bind. eapply returns_try; [exact E2|].
  apply returns_bind. eapply returns_try; [exact E3|].
  apply returns_bind. eapply returns_try; [exact E4|].
  apply returns_ret. cbn [sales_data]. split; [exact Gd|].
  unfold tables_of. cbn. auto.
Qed.

End ScriptTables.

Lemma frame_sum_float (c : string) (df : DataFrame) :
  Forall is_row df ->
  (forall k d s, exists x, col_float c (create_record k d s) = Some x) ->
  sum_float c df = Some (total c df).
Proof.
  intros F T. destruct (column_total (col_float c) df F T) as (xs & E & _).
  unfold sum_float. rewrite E. cbn [obind].
  rewrite (column_weights _ _ _ E). reflexivity.
Qed.

Lemma frame_sum_int (c : string) (df : DataFrame) :
  Forall is_row df ->
  (forall k d s, exists x, col_int c (create_record k d s) = Some x) ->
  sum_int c df = Some (total_units c df).
Proof.
  intros F T. destruct (column_total (col_int c) df F T) as (xs & E & _).
  unfold sum_int. rewrite E. cbn [obind].
  rewrite (column_units _ _ _ E), fold_add_right. reflexivity.
Qed.

(** X12. Every order is counted once in each summary: the
    [Total_Orders] of the customer, product and sales-rep summaries and
    the [Orders] of the monthly summary each add up to the number of
    rows of the sales data, which is 1096 at least. *)
Theorem X12_orders_partition {G : Type} `{NumPy G} `{!LawfulNumPy G}
  (g : G) :
  returns script
    (fun o _ =>
       let n := count (sales_data o) in
       (1096 <= n)%Z
       /\ sum_int "Total_Orders" (customer_summary o) = Some n
       /\ sum_int "Total_Orders" (product_performance o) = Some n
       /\ sum_int "Total_Orders" (sales_rep_performance o) = Some n
       /\ sum_int "Orders" (monthly_summary o) = Some n) g.
Proof.
  eapply returns_weaken; [|apply script_spec].
  intros o g1 (Gd & T1 & T2 & T3 & T4). cbv zeta.
  pose proof (generated_is_row _ Gd) as F.
  split; [apply generated_length, Gd|].
  split; [|split; [|split]].
  - eapply conserved_count; [exact F|exact T1|].
    intros gr t E. apply (customer_row_inv gr t E).
  - eapply conserved_count; [exact F|exact T2|].
    intros gr t E. apply (product_row_inv gr t E).
  - eapply conserved_count; [exact F|exact T3|].
    intros gr t E. apply (rep_row_inv gr t E).
  - eapply conserved_count; [exact F|exact T4|].
    intros gr t E. apply (month_row_inv gr t E).
Qed.

Lemma X12_witness :
  returns script
    (fun o _ =>
       let n := count (sales_data o) in
       (1096 <= n)%Z
       /\ sum_int "Total_Orders" (customer_summary o) = Some n
       /\ sum_int "Total_Orders" (product_performance o) = Some n
       /\ sum_int "Total_Orders" (sales_rep_performance o) = Some n
       /\ sum_int "Orders" (monthly_summary o) = Some n) [1#3].
Proof.
  exact (@X12_orders_partition (list Q) tape_numpy tape_lawful [1#3]).
Defined.

Lemma units_at_least (c : string) (df : DataFrame) :
  (forall r, In r df -> (1 <= units c r)%Z) ->
  (count df <= total_units c df)%Z.
Proof.
  unfold count, total_units. induction df as [|r df IH]; intro W.
  - simpl. lia.
  - cbn [map fold_right List.length].
    specialize (IH (fun r' I => W r' (or_intror I))).
    specialize (W r (or_introl eq_refl)). lia.
Qed.

(** X13. Every unit is counted once in each summary that totals
    quantities: the [Total_Quantity] of the customer and product
    summaries and the [Units_Sold] of the monthly summary each add up to
    the sum of the [Quantity] column of the sales data, which is no less
    than the number of orders. *)
Theorem X13_units_conserved {G : Type} `{NumPy G} `{!LawfulNumPy G}
  (g : G) :
  returns script
    (fun o _ =>
       exists q,
         sum_int "Quantity" (sales_data o) = Some q
         /\ (count (sales_data o) <= q)%Z
         /\ sum_int "Total_Quantity" (customer_summary o) = Some q
         /\ sum_int "Total_Quantity" (product_performance o) = Some q
         /\ sum_int "Units_Sold" (monthly_summary o) = Some q) g.
Proof.
  eapply returns_weaken; [|apply script_spec].
  intros o g1 (Gd & T1 & T2 & T3 & T4).
  pose proof (generated_is_row _ Gd) as F.
  exists (total_units "Quantity" (sales_data o)).
  split; [apply frame_sum_int; [exact F|intros; eexists; reflexivity]|].
  split.
  { apply units_at_least. intros r I.
    destruct (generated_rows_facts _ Gd r I) as (k & d & s & _ & Fs & ->).
    change (1 <= quantity s)%Z. destruct Fs as [Iv _].
    pose proof (inv_quantity s Iv). lia. }
  split; [|split].
  - eapply conserved_units; [exact F|exact T1|].
    intros gr t E. apply (customer_row_inv gr t E).
  - eapply conserved_units; [exact F|exact T2|].
    intros gr t E. apply (product_row_inv gr t E).
  - eapply conserved_units; [exact F|exact T4|].
    intros gr t E. apply (month_row_inv gr t E).
Qed.

Lemma X13_witness :
  returns script
    (fun o _ =>
       exists q,
         sum_int "Quantity" (sales_data o) = Some q
         /\ (count (sales_data o) <= q)%Z
         /\ sum_int "Total_Quantity" (customer_summary o) = Some q
         /\ sum_int "Total_Quantity" (product_performance o) = Some q
         /\ sum_int "Units_Sold" (monthly_summary o) = Some q) [2#5].
Proof.
  exact (@X13_units_conserved (list Q) tape_numpy tape_lawful [2#5]).
Defined.

(** X14. No revenue is lost or counted twice by the summaries: with
    sums taken exactly, the [Total_Revenue] of the customer, product and
    sales-rep summaries and the [Revenue] of the monthly summary each
    add up to the sum of the [Final_Revenue] column of the sales data,
    and the [Profit] of the monthly summary adds up to the sum of its
    [Final_Profit] column; rounding the group sums to two places loses
    nothing, the rows being whole numbers of hundredths. *)
Theorem X14_revenue_conserved {G : Type} `{NumPy G} `{!LawfulNumPy G}
  (g : G) :
  returns script
    (fun o _ =>
       exists all_revenue all_profit,
         sum_float "Final_Revenue" (sales_data o) = Some all_revenue
         /\ sum_float "Final_Profit" (sales_data o) = Some all_profit
         /\ (exists x, sum_float "Total_Revenue" (customer_summary o)
                       = Some x /\ x == all_revenue)
         /\ (exists x, sum_float "Total_Revenue" (product_performance o)
                       = Some x /\ x == all_revenue)
         /\ (exists x, sum_float "Total_Revenue" (sales_rep_performance o)
                       = Some x /\ x == all_revenue)
         /\ (exists x, sum_float "Revenue" (monthly_summary o)
                       = Some x /\ x == all_revenue)
         /\ (exists x, sum_float "Profit" (monthly_summary o)
                       = Some x /\ x == all_profit)) g.
Proof.
  eapply returns_weaken; [|apply script_spec].
  intros o g1 (Gd & T1 & T2 & T3 & T4).
  pose proof (generated_is_row _ Gd) as F.
  exists (total "Final_Revenue" (sales_data o)),
         (total "Final_Profit" (sales_data o)).
  split; [apply frame_sum_float; [exact F|intros; eexists; reflexivity]|].
  split; [apply frame_sum_float; [exact F|intros; eexists; reflexivity]|].
  split; [|split; [|split; [|split]]].
  - eapply conserved_total; [exact F|exact T1| |].
    + intros k d s. apply round2_cents.
    + intros gr t E. apply (customer_row_inv gr t E).
  - eapply conserved_total; [exact F|exact T2| |].
    + intros k d s. apply round2_cents.
    + intros gr t E. apply (product_row_inv gr t E).
  - eapply conserved_total; [exact F|exact T3| |].
    + intros k d s. apply round2_cents.
    + intros gr t E. apply (rep_row_inv gr t E).
  - eapply conserved_total; [exact F|exact T4| |].
    + intros k d s. apply round2_cents.
    + intros gr t E. apply (month_row_inv gr t E).
  - eapply conserved_total; [exact F|exact T4| |].
    + intros k d s. apply round2_cents.
    + intros gr t E. apply (month_row_inv gr t E).
Qed.

Lemma X14_witness :
  returns script
    (fun o _ =>
       exists all_revenue all_profit,
         sum_float "Final_Revenue" (sales_data o) = Some all_revenue
         /\ sum_float "Final_Profit" (sales_data o) = Some all_profit
         /\ (exists x, sum_float "Total_Revenue" (customer_summary o)
                       = Some x /\ x == all_revenue)
         /\ (exists x, sum_float "Total_Revenue" (product_performance o)
                       = Some x /\ x == all_revenue)
         /\ (exists x, sum_float "Total_Revenue" (sales_rep_performance o)
                       = Some x /\ x == all_revenue)
         /\ (exists x, sum_float "Revenue" (monthly_summary o)
                       = Some x /\ x == all_revenue)
         /\ (exists x, sum_float "Profit" (monthly_summary o)
                       = Some x /\ x == all_profit)) [3#7].
Proof.
  exact (@X14_revenue_conserved (list Q) tape_numpy tape_lawful [3#7]).
Defined.

(** ** Aggregates of a group *)

Lemma omap_length {A B} (f : A -> option B) (l : list A) bs :
  omap f l = Some bs -> List.length bs = List.length l.
Proof.
  intro E. symmetry. eapply Forall2_length, omap_inv, E.
Qed.

Lemma py_div_inv (a b x : Q) :
  py_div a b = Some x -> ~ b == 0 /\ x = a / b.
Proof.
  unfold py_div. destruct (Qeq_bool b 0) eqn:E; [discriminate|].
  intro X. inversion X. split; [|reflexivity].
  intro Z. apply Qeq_eq_bool in Z. congruence.
Qed.

Lemma Qsum_window (lo hi : Q) (xs : list Q) :
  Forall (fun x => lo <= x <= hi) xs ->
  lo * inject_Z (Z.of_nat (List.length xs)) <= Qsum xs
  /\ Qsum xs <= hi * inject_Z (Z.of_nat (List.length xs)).
Proof.
  induction 1 as [|x xs B _ IH].
  - cbn [List.length]. change (inject_Z (Z.of_nat 0)) with 0.
    unfold Qsum. cbn [fold_left]. lra.
  - rewrite Qsum_cons. cbn [List.length].
    rewrite Nat2Z.inj_succ. unfold Z.succ. rewrite inject_Z_plus.
    change (inject_Z 1) with 1.
    set (n := inject_Z (Z.of_nat (List.length xs))) in *. clearbody n.
    set (t := Qsum xs) in *. clearbody t. lra.
Qed.

(** The mean of a column is between the bounds of its values. *)
Lemma mean_window (c : string) (lo hi : Q) (rows : list record) x :
  mean c rows = Some x ->
  (forall r, In r rows -> lo <= weight c r <= hi) ->
  lo <= x <= hi.
Proof.
  unfold mean. intros E W. apply obind_inv in E as (xs & Exs & E).
  apply py_div_inv in E as [N ->].
  rewrite (column_weights _ _ _ Exs) in *.
  assert (F : Forall (fun x => lo <= x <= hi) (map (weight c) rows)).
  { apply Forall_forall. intros x I.
    apply in_map_iff in I as (r & <- & I). auto. }
  destruct (Qsum_window lo hi _ F) as [L U].
  set (n := inject_Z (Z.of_nat (List.length (map (weight c) rows)))) in *.
  assert (P : 0 < n).
  { assert (P : 0 <= n).
    { unfold n. change 0 with (inject_Z 0). rewrite <- Zle_Qle. lia. }
    destruct (Qle_lt_or_eq _ _ P) as [Lt|Eq]; [exact Lt|].
    symmetry in Eq. contradiction. }
  clearbody n. set (t := Qsum (map (weight c) rows)) in *. clearbody t.
  split.
  - apply Qle_shift_div_l; [exact P|exact L].
  - apply Qle_shift_div_r; [exact P|exact U].
Qed.

Lemma count_true_window (c : string) (rows : list record) n :
  count_true c rows = Some n -> (0 <= n <= count rows)%Z.
Proof.
  unfold count_true, count. intro E.
  apply obind_inv in E as (bs & Ebs & E). inversion E; subst.
  rewrite <- (omap_length _ _ _ Ebs).
  pose proof (filter_length_le (fun b : bool => b) bs). lia.
Qed.

Lemma nunique_window (c : string) (rows : list record) n
  (pool : list string) :
  nunique c rows = Some n -> rows <> [] ->
  (forall r s, In r rows -> col_str c r = Some s -> In s pool) ->
  (1 <= n <= count rows)%Z
  /\ (n <= Z.of_nat (List.length pool))%Z.
Proof.
  unfold nunique, count. intros E NE W.
  apply obind_inv in E as (ss & Ess & E). inversion E; subst. clear E.
  pose proof (omap_length _ _ _ Ess) as L.
  pose proof (omap_inv _ _ _ Ess) as F.
  assert (A1 : (List.length (nodup string_dec ss) <= List.length ss)%nat).
  { apply NoDup_incl_length; [apply NoDup_nodup|].
    intros x I. apply nodup_In in I. exact I. }
  assert (A2 : (List.length (nodup string_dec ss)
                <= List.length pool)%nat).
  { apply NoDup_incl_length; [apply NoDup_nodup|].
    intros x I. apply nodup_In in I.
    destruct (Forall2_In_r _ _ _ _ F I) as (r & Ir & Er). eauto. }
  assert (A3 : (1 <= List.length (nodup string_dec ss))%nat).
  { destruct ss as [|s ss].
    - destruct rows; [contradiction|discriminate].
    - assert (I : In s (nodup string_dec (s :: ss)))
        by (apply nodup_In; left; reflexivity).
      destruct (nodup string_dec (s :: ss)); [contradiction|simpl; lia]. }
  lia.
Qed.

Lemma total_units_window (c : string) (lo hi : Z) (rows : list record) :
  (forall r, In r rows -> (lo <= units c r <= hi)%Z) ->
  (lo * count rows <= total_units c rows <= hi * count rows)%Z.
Proof.
  unfold count, total_units. induction rows as [|r rows IH]; intro W.
  - simpl. lia.
  - cbn [map fold_right List.length].
    specialize (IH (fun r' I => W r' (or_intror I))).
    specialize (W r (or_introl eq_refl)). lia.
Qed.

Lemma has_key_true {K} (eq_dec : forall a b : K, {a = b} + {a <> b})
  (key : record -> option K) (k : K) (r : record) :
  has_key eq_dec key k r = true <-> key r = Some k.
Proof.
  unfold has_key. destruct (key r) as [k'|].
  - destruct (eq_dec k k') as [->|N]; split; try congruence; auto.
  - split; discriminate.
Qed.

(** The rows of a table and the groups they summarise. *)
Lemma table_rows {K} (eq_dec : forall a b : K, {a = b} + {a <> b})
  (leb : K -> K -> bool) (key : record -> option K)
  (row : K * list record -> option record) (df table : DataFrame) :
  obind (groupby eq_dec leb key df) (omap row) = Some table ->
  exists ks,
    NoDup ks
    /\ (forall k, In k ks <-> exists r, In r df /\ key r = Some k)
    /\ (exists ks0, NoDup ks0 /\ ks = sort_keys leb ks0)
    /\ Forall2 (fun k t => row (k, filter (has_key eq_dec key k) df)
                           = Some t) ks table.
Proof.
  intro E. apply obind_inv in E as (gs & Eg & Et).
  pose proof (groupby_inv _ _ _ _ _ Eg) as (ks & N & -> & C & D).
  exists ks. split; [exact N|]. split; [|split].
  - intro k. split; [apply D|].
    intros (r & Ir & Er). destruct (C r Ir) as (k' & Ik & Ek).
    congruence.
  - unfold groupby in Eg. apply obind_inv in Eg as (ks0 & _ & Eg).
    inversion Eg as [Em]. exists (nodup eq_dec ks0).
    split; [apply NoDup_nodup|].
    assert (Inj : forall l1 l2 : list K,
               map (fun k => (k, filter (has_key eq_dec key k) df)) l1
               = map (fun k => (k, filter (has_key eq_dec key k) df)) l2 ->
               l1 = l2).
    { induction l1 as [|a l1 IH]; intros [|b l2] X; simpl in X;
        try discriminate; [reflexivity|].
      inversion X. f_equal. apply IH. assumption. }
    symmetry. apply Inj. exact Em.
  - apply omap_inv in Et. clear - Et. revert table Et.
    induction ks as [|k ks IH]; intros table Et; simpl in Et.
    + inversion Et. constructor.
    + inversion Et; subst. constructor; [assumption|]. apply IH. assumption.
Qed.

Lemma group_nonempty {K} (eq_dec : forall a b : K, {a = b} + {a <> b})
  (key : record -> option K) (k : K) (df : DataFrame) :
  (exists r, In r df /\ key r = Some k) ->
  filter (has_key eq_dec key k) df <> [].
Proof.
  intros (r & Ir & Er) Z.
  assert (X : In r (filter (has_key eq_dec key k) df)).
  { apply filter_In. split; [exact Ir|]. apply has_key_true, Er. }
  rewrite Z in X. contradiction.
Qed.

Lemma count_nonempty (rows : list record) : rows <> [] -> (1 <= count rows)%Z.
Proof. unfold count. destruct rows; [contradiction|simpl; lia]. Qed.

(** A table has no more rows than its keys can take values. *)
Lemma table_size {K} (ks : list K) (pool : list K) (table : DataFrame)
  (R : K -> record -> Prop) :
  NoDup ks -> incl ks pool -> Forall2 R ks table ->
  (List.length table <= List.length pool)%nat.
Proof.
  intros N I F. rewrite <- (Forall2_length F).
  apply NoDup_incl_length; assumption.
Qed.

(** ** The columns of a generated row *)

Lemma round2_above (x : Q) (k : Z) :
  inject_Z k - (1#2) < x * 100 -> k # 100 <= round2 x.
Proof.
  intro L. unfold round2.
  destruct (round_half_even_near (x * 100)) as [_ N].
  set (r := round_half_even (x * 100)) in *. clearbody r.
  assert (K : inject_Z k < inject_Z (r + 1)).
  { rewrite inject_Z_plus. change (inject_Z 1) with 1. lra. }
  rewrite <- Zlt_Qlt in K.
  unfold Qle. simpl. lia.
Qed.

Lemma generated_rows_all (df : DataFrame) :
  generated df -> forall r, In r df -> generated_row r.
Proof. exact (generated_rows_facts df). Qed.

Lemma row_keys (r : record) :
  generated_row r ->
  (exists p, col_str "Product" r = Some p /\ In p products)
  /\ (exists c, col_str "Customer_ID" r = Some c /\ In c customers)
  /\ (exists p, col_str "Sales_Rep" r = Some p /\ In p sales_reps)
  /\ (exists p, col_str "Region" r = Some p /\ In p regions).
Proof.
  intros (k & d & s & _ & [I _] & ->).
  split; [exists (product s); split; [reflexivity|apply I]|].
  split; [exists (customer_id s); split; [reflexivity|apply I]|].
  split; [exists (sales_rep s); split; [reflexivity|apply I]|].
  exists (region s); split; [reflexivity|apply I].
Qed.

Lemma row_measures (r : record) :
  generated_row r ->
  (1 <= units "Quantity" r <= 19)%Z
  /\ 1 <= weight "Customer_Satisfaction" r <= 5
  /\ 6.67 <= weight "Final_Margin" r <= 60.
Proof.
  intros (k & d & s & _ & F & ->). pose proof F as [I R].
  split; [|split].
  - change (1 <= quantity s <= 19)%Z. pose proof (inv_quantity s I). lia.
  - change (1 <= round2 (customer_satisfaction s) <= 5).
    rewrite (inv_satisfaction s I).
    pose proof (clamp_between
                  (3.5 + (final_margin s / 100 * 0.5
                          + (rep_factor s - 1) * 2) + noise s)) as B.
    split.
    + apply round2_ge; [apply (cents_Z 1)|apply B].
    + apply round2_le; [apply (cents_Z 5)|apply B].
  - change (6.67 <= round2 (final_margin s) <= 60).
    destruct (sale_margins s F) as (_ & _ & _ & L & U).
    split.
    + apply (round2_above (final_margin s) 667).
      change (inject_Z 667) with 667. lra.
    + apply round2_le; [apply (cents_Z 60)|exact U].
Qed.

Lemma group_rows {K} (eq_dec : forall a b : K, {a = b} + {a <> b})
  (key : record -> option K) (k : K) (df : DataFrame) (P : record -> Prop) :
  (forall r, In r df -> P r) ->
  forall r, In r (filter (has_key eq_dec key k) df) ->
            P r /\ key r = Some k.
Proof.
  intros W r I. apply filter_In in I as [I E].
  split; [auto|]. apply has_key_true in E. exact E.
Qed.


Lemma table_nonempty {K} (R : K -> record -> Prop) (ks : list K)
  (table : DataFrame) (k : K) :
  Forall2 R ks table -> In k ks -> (1 <= List.length table)%nat.
Proof.
  intros F I. rewrite <- (Forall2_length F).
  destruct ks; [contradiction|simpl; lia].
Qed.

Lemma generated_nonempty (df : DataFrame) :
  generated df -> exists r, In r df.
Proof.
  intro Gd. pose proof (generated_length df Gd) as L. unfold count in L.
  destruct df as [|r df]; [simpl in L; lia|].
  exists r. left. reflexivity.
Qed.



(** ** Dates of a group *)

Lemma omap_filter_sorted {B} (R : B -> B -> Prop) (f : record -> option B)
  (p : record -> bool) (df : DataFrame) col :
  omap f df = Some col -> StronglySorted R col ->
  exists col',
    omap f (filter p df) = Some col'
    /\ StronglySorted R col' /\ incl col' col.
Proof.
  revert col. induction df as [|r df IH]; intros col E S; simpl in E.
  - inversion E; subst. exists []. simpl.
    split; [reflexivity|]. split; [constructor|apply incl_refl].
  - apply obind_inv in E as (b & Eb & E).
    apply obind_inv in E as (bs & Ebs & E). inversion E; subst. clear E.
    inversion S as [|? ? S' F]; subst.
    destruct (IH bs Ebs S') as (col' & Ec & Sc & Ic).
    cbn [filter]. destruct (p r).
    + exists (b :: col'). simpl. rewrite Eb, Ec. cbn [obind].
      split; [reflexivity|]. split.
      * constructor; [exact Sc|]. rewrite Forall_forall in *.
        intros x Ix. apply F, Ic, Ix.
      * intros x [->|Ix]; [left; reflexivity|right; apply Ic, Ix].
    + exists col'. split; [exact Ec|]. split; [exact Sc|].
      intros x Ix. right. apply Ic, Ix.
Qed.

Lemma generated_dates (df : DataFrame) :
  generated df ->
  exists col,
    omap (col_str "Date") df = Some col
    /\ StronglySorted (fun a b => String.leb a b = true) col
    /\ incl col (map strftime_ymd (date_range start_date end_date)).
Proof.
  intros (sales & L & -> & _ & _).
  pose proof (ascending_sorted _ range_dates_ascending) as Sd.
  set (dates := date_range start_date end_date) in *. clearbody dates.
  exists (map (fun e => strftime_ymd (fst e)) (entries_of dates sales)).
  split; [apply date_column|]. split; [apply entries_dates_sorted, Sd|].
  intros x I. apply in_map_iff in I as ([d s] & <- & I). cbn [fst].
  apply entries_of_In in I as [I _]. apply in_map, I.
Qed.

Lemma last_In {A} (l : list A) (a : A) : In (last l a) (a :: l).
Proof.
  revert a. induction l as [|b l IH]; intro a; [left; reflexivity|].
  rewrite last_cons. right. apply IH.
Qed.

(** The earliest and the latest date of rows in chronological order are
    the dates of the first and of the last row. *)
Lemma sorted_min_max (rows : list record) col a b :
  omap (col_str "Date") rows = Some col ->
  StronglySorted (fun a b => String.leb a b = true) col ->
  min_str "Date" rows = Some a -> max_str "Date" rows = Some b ->
  In a col /\ In b col /\ String.leb a b = true
  /\ hd_error col = Some a.
Proof.
  unfold min_str, max_str. intros E S. rewrite E. cbn [obind].
  destruct col as [|s t]; [discriminate|].
  rewrite (fold_min_sorted _ _ S), (fold_max_sorted _ _ S).
  intros Ea Eb. inversion Ea; subst a. inversion Eb; subst b.
  split; [left; reflexivity|]. split; [apply last_In|].
  split; [|reflexivity].
  destruct (last_In t s) as [<-|I]; [apply leb_refl|].
  inversion S as [|? ? _ F]; subst. rewrite Forall_forall in F. auto.
Qed.

(** X16. The customer summary has between one and a thousand rows, one
    per customer who ordered. In each, the customer is one of the pool
    and the region one of the five, the orders are at least one, the
    returns are between none and all of the orders, the average
    satisfaction is between 1 and 5, and the first and last order dates
    are days of the range, the first no later than the last. *)
Theorem X16_customer_summary {G : Type} `{NumPy G} `{!LawfulNumPy G}
  (g : G) :
  returns script
    (fun o _ =>
       (1 <= List.length (customer_summary o) <= 1000)%nat
       /\ forall t, In t (customer_summary o) ->
            exists c home orders returned sat first_date last_date,
              col_str "Customer_ID" t = Some c /\ In c customers
              /\ col_str "Region" t = Some home /\ In home regions
              /\ col_int "Total_Orders" t = Some orders
              /\ col_int "Returns_Count" t = Some returned
              /\ (1 <= orders)%Z /\ (0 <= returned <= orders)%Z
              /\ col_float "Avg_Satisfaction" t = Some sat
              /\ 1 <= sat <= 5
              /\ col_str "First_Order_Date" t = Some first_date
              /\ col_str "Last_Order_Date" t = Some last_date
              /\ In first_date
                   (map strftime_ymd (date_range start_date end_date))
              /\ In last_date
                   (map strftime_ymd (date_range start_date end_date))
              /\ String.leb first_date last_date = true) g.
Proof.
  eapply returns_weaken; [|apply script_spec].
  intros o g1 (Gd & T & _ & _ & _).
  pose proof (generated_rows_all _ Gd) as Rows.
  destruct (generated_dates _ Gd) as (col & Ecol & Scol & Icol).
  destruct (table_rows _ _ _ _ _ _ T) as (ks & N & Iks & _ & F).
  assert (Pk : forall k, In k ks -> In k customers).
  { intros k I. apply Iks in I as (r & Ir & Er).
    destruct (row_keys r (Rows r Ir)) as (_ & (p & Ep & Ip) & _).
    congruence. }
  split.
  - split.
    + destruct (generated_nonempty _ Gd) as (r & Ir).
      destruct (row_keys r (Rows r Ir)) as (_ & (p & Ep & _) & _).
      eapply table_nonempty; [exact F|]. apply Iks. eauto.
    + rewrite <- customers_length.
      apply (table_size ks customers _ _ N Pk F).
  - intros t It. destruct (Forall2_In_r _ _ _ _ F It) as (k & Ik & Et).
    pose proof (group_nonempty string_dec _ k _ (proj1 (Iks k) Ik)) as NE.
    pose proof (group_rows string_dec (col_str "Customer_ID") k _ _ Rows)
      as Gr.
    destruct (omap_filter_sorted _ _
                (has_key string_dec (col_str "Customer_ID") k) _ _
                Ecol Scol) as (col' & Ecol' & Scol' & Icol').
    set (rows := filter (has_key string_dec (col_str "Customer_ID") k)
                   (sales_data o)) in *.
    clearbody rows.
    destruct (customer_row_inv _ _ Et)
      as (Eo & _ & _ & (n & En & Ecn) & (c & Ec & Ecc)
          & (a & b & Ea & Eb & Eca & Ecb) & (rg & Erg & Ecrg) & Ek).
    cbn [fst snd] in *.
    exists k, rg, (count rows), n, (round2 c), a, b.
    split; [exact Ek|]. split; [apply Pk, Ik|].
    split; [exact Ecrg|]. split.
    { destruct rows as [|r rows]; [contradiction|]. cbn [first] in Erg.
      destruct (Gr r (or_introl eq_refl)) as [Rr _].
      destruct (row_keys r Rr) as (_ & _ & _ & (p & Ep & Ip)).
      congruence. }
    split; [exact Eo|]. split; [exact Ecn|].
    split; [apply count_nonempty, NE|].
    split; [apply (count_true_window _ _ _ En)|].
    split; [exact Ecc|].
    assert (Bc : 1 <= c <= 5).
    { apply (mean_window _ _ _ _ _ Ec). intros r I.
      apply (row_measures r (proj1 (Gr r I))). }
    split.
    { split; [apply round2_ge; [apply (cents_Z 1)|apply Bc]|].
      apply round2_le; [apply (cents_Z 5)|apply Bc]. }
    split; [exact Eca|]. split; [exact Ecb|].
    destruct (sorted_min_max rows col' a b Ecol' Scol' Ea Eb)
      as (Ia & Ib & Lab & _).
    split; [apply Icol, Icol', Ia|]. split; [apply Icol, Icol', Ib|].
    exact Lab.
Qed.

Lemma X16_witness :
  returns script
    (fun o _ =>
       (1 <= List.length (customer_summary o) <= 1000)%nat
       /\ forall t, In t (customer_summary o) ->
            exists c home orders returned sat first_date last_date,
              col_str "Customer_ID" t = Some c /\ In c customers
              /\ col_str "Region" t = Some home /\ In home regions
              /\ col_int "Total_Orders" t = Some orders
              /\ col_int "Returns_Count" t = Some returned
              /\ (1 <= orders)%Z /\ (0 <= returned <= orders)%Z
              /\ col_float "Avg_Satisfaction" t = Some sat
              /\ 1 <= sat <= 5
              /\ col_str "First_Order_Date" t = Some first_date
              /\ col_str "Last_Order_Date" t = Some last_date
              /\ In first_date
                   (map strftime_ymd (date_range start_date end_date))
              /\ In last_date
                   (map strftime_ymd (date_range start_date end_date))
              /\ String.leb first_date last_date = true) [2#5].
Proof.
  exact (@X16_customer_summary (list Q) tape_numpy tape_lawful [2#5]).
Defined.

(** X17. The sales-rep summary has between one and ten rows, one per
    representative who sold. In each, the representative is one of the
    ten, the orders are at least one, the distinct customers are at
    least one and no more than the orders or the pool of a thousand,
    the average margin is between 6.67 and 60 and the average
    satisfaction between 1 and 5. *)
Theorem X17_sales_rep_performance {G : Type} `{NumPy G} `{!LawfulNumPy G}
  (g : G) :
  returns script
    (fun o _ =>
       (1 <= List.length (sales_rep_performance o) <= 10)%nat
       /\ forall t, In t (sales_rep_performance o) ->
            exists rep orders unique margin sat,
              col_str "Sales_Rep" t = Some rep /\ In rep sales_reps
              /\ col_int "Total_Orders" t = Some orders
              /\ col_int "Unique_Customers" t = Some unique
              /\ (1 <= unique <= orders)%Z /\ (unique <= 1000)%Z
              /\ col_float "Avg_Margin" t = Some margin
              /\ 6.67 <= margin <= 60
              /\ col_float "Avg_Customer_Satisfaction" t = Some sat
              /\ 1 <= sat <= 5) g.
Proof.
  eapply returns_weaken; [|apply script_spec].
  intros o g1 (Gd & _ & _ & T & _).
  pose proof (generated_rows_all _ Gd) as Rows.
  destruct (table_rows _ _ _ _ _ _ T) as (ks & N & Iks & _ & F).
  assert (Pk : forall k, In k ks -> In k sales_reps).
  { intros k I. apply Iks in I as (r & Ir & Er).
    destruct (row_keys r (Rows r Ir)) as (_ & _ & (p & Ep & Ip) & _).
    congruence. }
  split.
  - split.
    + destruct (generated_nonempty _ Gd) as (r & Ir).
      destruct (row_keys r (Rows r Ir)) as (_ & _ & (p & Ep & _) & _).
      eapply table_nonempty; [exact F|]. apply Iks. eauto.
    + apply (table_size ks sales_reps _ _ N Pk F).
  - intros t It. destruct (Forall2_In_r _ _ _ _ F It) as (k & Ik & Et).
    pose proof (group_nonempty string_dec _ k _ (proj1 (Iks k) Ik)) as NE.
    pose proof (group_rows string_dec (col_str "Sales_Rep") k _ _ Rows)
      as Gr.
    set (rows := filter (has_key string_dec (col_str "Sales_Rep") k)
                   (sales_data o)) in *.
    clearbody rows.
    destruct (rep_row_inv _ _ Et)
      as (Eo & _ & (m & Em & Ecm) & (c & Ec & Ecc) & (n & En & Ecn) & Ek).
    cbn [fst snd] in *.
    exists k, (count rows), n, (round2 m), (round2 c).
    split; [exact Ek|]. split; [apply Pk, Ik|].
    split; [exact Eo|]. split; [exact Ecn|].
    destruct (nunique_window "Customer_ID" rows n customers En NE)
      as [W1 W2].
    { intros r s I E. destruct (Gr r I) as [Rr _].
      destruct (row_keys r Rr) as (_ & (p & Ep & Ip) & _). congruence. }
    rewrite customers_length in W2.
    split; [exact W1|]. split; [exact W2|].
    split; [exact Ecm|].
    assert (Bm : 6.67 <= m <= 60).
    { apply (mean_window _ _ _ _ _ Em). intros r I.
      apply (row_measures r (proj1 (Gr r I))). }
    split.
    { split; [apply round2_ge; [exists 667%Z; reflexivity|apply Bm]|].
      apply round2_le; [apply (cents_Z 60)|apply Bm]. }
    split; [exact Ecc|].
    assert (Bc : 1 <= c <= 5).
    { apply (mean_window _ _ _ _ _ Ec). intros r I.
      apply (row_measures r (proj1 (Gr r I))). }
    split; [apply round2_ge; [apply (cents_Z 1)|apply Bc]|].
    apply round2_le; [apply (cents_Z 5)|apply Bc].
Qed.

Lemma X17_witness :
  returns script
    (fun o _ =>
       (1 <= List.length (sales_rep_performance o) <= 10)%nat
       /\ forall t, In t (sales_rep_performance o) ->
            exists rep orders unique margin sat,
              col_str "Sales_Rep" t = Some rep /\ In rep sales_reps
              /\ col_int "Total_Orders" t = Some orders
              /\ col_int "Unique_Customers" t = Some unique
              /\ (1 <= unique <= orders)%Z /\ (unique <= 1000)%Z
              /\ col_float "Avg_Margin" t = Some margin
              /\ 6.67 <= margin <= 60
              /\ col_float "Avg_Customer_Satisfaction" t = Some sat
              /\ 1 <= sat <= 5) [3#7].
Proof.
  exact (@X17_sales_rep_performance (list Q) tape_numpy tape_lawful [3#7]).
Defined.

(** ** The order of the keys *)

Section Sorting.

Context {K : Type} (leb : K -> K -> bool).

Hypothesis total : forall a b, leb a b = true \/ leb b a = true.
Hypothesis trans :
  forall a b c, leb a b = true -> leb b c = true -> leb a c = true.
Hypothesis antisym : forall a b, leb a b = true -> leb b a = true -> a = b.

Lemma insert_key_sorted (k : K) (l : list K) :
  Sorted (ascending_by leb) l ->
  Sorted (ascending_by leb) (insert_key leb k l).
Proof.
  induction 1 as [|h t S IH Hd]; simpl.
  - repeat constructor.
  - destruct (leb k h) eqn:E.
    + constructor; [constructor; assumption|]. constructor. exact E.
    + constructor; [exact IH|].
      assert (Lh : ascending_by leb h k)
        by (destruct (total k h); congruence).
      destruct t as [|h' t]; simpl.
      * constructor. exact Lh.
      * destruct (leb k h'); constructor; [exact Lh|].
        inversion Hd. assumption.
Qed.

Lemma sort_keys_sorted (l : list K) :
  Sorted (ascending_by leb) (sort_keys leb l).
Proof.
  induction l as [|k l IH]; simpl; [constructor|].
  apply insert_key_sorted, IH.
Qed.

Lemma sort_keys_strict (l : list K) :
  NoDup l -> StronglySorted (strictly_by leb) (sort_keys leb l).
Proof.
  intro N. apply (sort_keys_NoDup leb) in N.
  assert (S : StronglySorted (ascending_by leb) (sort_keys leb l)).
  { apply Sorted_StronglySorted; [|apply sort_keys_sorted].
    intros a b c. apply trans. }
  induction S as [|a t S IH F]; [constructor|].
  inversion N as [|? ? Na Nt]; subst.
  constructor; [apply IH, Nt|].
  rewrite Forall_forall in *. intros b Ib. split; [apply F, Ib|].
  intros ->. contradiction.
Qed.

Lemma strict_sorted_unique (l1 l2 : list K) :
  StronglySorted (strictly_by leb) l1 ->
  StronglySorted (strictly_by leb) l2 ->
  (forall x, In x l1 <-> In x l2) -> l1 = l2.
Proof.
  intro S1. revert l2.
  induction S1 as [|a t1 S1 IH F1]; intros l2 S2 E.
  - destruct l2 as [|b t2]; [reflexivity|].
    destruct (proj2 (E b) (or_introl eq_refl)).
  - destruct S2 as [|b t2 S2 F2].
    + destruct (proj1 (E a) (or_introl eq_refl)).
    + rewrite Forall_forall in F1, F2.
      assert (Eab : a = b).
      { destruct (proj1 (E a) (or_introl eq_refl)) as [X|X]; [auto|].
        destruct (proj2 (E b) (or_introl eq_refl)) as [Y|Y]; [auto|].
        destruct (F2 a X) as [L1 _]. destruct (F1 b Y) as [L2 _].
        symmetry. apply antisym; assumption. }
      subst b. f_equal. apply IH; [exact S2|].
      intro x. split; intro I.
      * destruct (proj1 (E x) (or_intror I)) as [X|X]; [|exact X].
        subst x. destruct (F1 a I) as [_ X]. contradiction.
      * destruct (proj2 (E x) (or_intror I)) as [X|X]; [|exact X].
        subst x. destruct (F2 a I) as [_ X]. contradiction.
Qed.

Lemma strict_chain (l : list K) :
  Sorted (strictly_by leb) l -> StronglySorted (strictly_by leb) l.
Proof.
  apply Sorted_StronglySorted. intros a b c [L1 N1] [L2 N2].
  split; [eapply trans; eassumption|].
  intros ->. apply N1. apply antisym; assumption.
Qed.

(** Sorting the keys gives the one strictly ascending list of them. *)
Lemma sort_keys_unique (l m : list K) :
  NoDup l -> Sorted (strictly_by leb) m ->
  (forall x, In x (sort_keys leb l) <-> In x m) ->
  sort_keys leb l = m.
Proof.
  intros N S E. apply strict_sorted_unique; [|apply strict_chain, S|exact E].
  apply sort_keys_strict, N.
Qed.

End Sorting.

Lemma year_month_leb_total (a b : Z * Z) :
  year_month_leb a b = true \/ year_month_leb b a = true.
Proof.
  destruct a as [y m], b as [y' m']. unfold year_month_leb. cbn [fst snd].
  destruct (Z.ltb_spec y y'), (Z.ltb_spec y' y), (Z.eqb_spec y y'),
    (Z.eqb_spec y' y), (Z.leb_spec m m'), (Z.leb_spec m' m);
    simpl; auto; lia.
Qed.

Lemma year_month_leb_trans (a b c : Z * Z) :
  year_month_leb a b = true -> year_month_leb b c = true ->
  year_month_leb a c = true.
Proof.
  destruct a as [y m], b as [y' m'], c as [y2 m2].
  unfold year_month_leb. cbn [fst snd].
  destruct (Z.ltb_spec y y'), (Z.ltb_spec y' y2), (Z.ltb_spec y y2),
    (Z.eqb_spec y y'), (Z.eqb_spec y' y2), (Z.eqb_spec y y2),
    (Z.leb_spec m m'), (Z.leb_spec m' m2), (Z.leb_spec m m2);
    simpl; auto; lia.
Qed.

Lemma year_month_leb_antisym (a b : Z * Z) :
  year_month_leb a b = true -> year_month_leb b a = true -> a = b.
Proof.
  destruct a as [y m], b as [y' m']. unfold year_month_leb. cbn [fst snd].
  destruct (Z.ltb_spec y y'), (Z.ltb_spec y' y), (Z.eqb_spec y y'),
    (Z.eqb_spec y' y), (Z.leb_spec m m'), (Z.leb_spec m' m);
    simpl; intros; try discriminate; try lia; f_equal; lia.
Qed.

Lemma months_sorted : Sorted (strictly_by year_month_leb) months.
Proof.
  unfold months. cbn [flat_map map app].
  repeat first
    [ apply Sorted_nil | apply Sorted_cons | apply HdRel_nil
    | apply HdRel_cons; split; [reflexivity|discriminate] ].
Qed.

(** The days of the range fall in the 36 months, and each of the months
    has a day of the range. *)
Lemma range_months (k : Z * Z) :
  In k months
  <-> exists d, In d (date_range start_date end_date)
                /\ (year d, month d) = k.
Proof.
  split.
  - intro I.
    assert (C : forallb
                  (fun k => existsb
                              (fun d => (year d =? fst k)%Z
                                        && (month d =? snd k)%Z)
                              (date_range start_date end_date))
                  months = true) by (vm_compute; reflexivity).
    rewrite forallb_forall in C. specialize (C k I).
    apply existsb_exists in C as (d & Id & E).
    apply andb_prop in E as [E1 E2].
    apply Z.eqb_eq in E1, E2. exists d. split; [exact Id|].
    destruct k. cbn [fst snd] in *. congruence.
  - intros (d & Id & <-).
    assert (C : forallb
                  (fun d => existsb
                              (fun k => (year d =? fst k)%Z
                                        && (month d =? snd k)%Z)
                              months)
                  (date_range start_date end_date) = true)
      by (vm_compute; reflexivity).
    rewrite forallb_forall in C. specialize (C d Id).
    apply existsb_exists in C as ([y m] & Ik & E).
    apply andb_prop in E as [E1 E2]. cbn [fst snd] in *.
    apply Z.eqb_eq in E1, E2. rewrite E1, E2. exact Ik.
Qed.

Lemma generated_covers (df : DataFrame) d :
  generated df -> In d (date_range start_date end_date) ->
  exists k s, In (create_record k d s) df.
Proof.
  intros (sales & L & -> & _ & N) I.
  destruct (entries_of_covers _ sales d L) as (s & Is); [|exact I|].
  - eapply Forall_impl; [|exact N]. intros ss X.
    destruct ss; [contradiction|simpl; lia].
  - destruct (records_from_covers 1 _ d s Is) as (k & Ik).
    exists k, s. exact Ik.
Qed.

(** X18. The monthly summary has exactly 36 rows, one for each month
    from January 2022 to December 2024 in chronological order, whatever
    the draws; each row is dated the first of its month, has at least
    one order, at least one and at most as many distinct customers as
    orders, and at least as many units as orders. *)
Theorem X18_monthly_summary {G : Type} `{NumPy G} `{!LawfulNumPy G}
  (g : G) :
  returns script
    (fun o _ =>
       map year_month (monthly_summary o) = map Some months
       /\ List.length (monthly_summary o) = 36%nat
       /\ forall t, In t (monthly_summary o) ->
            exists y m orders unique sold,
              year_month t = Some (y, m)
              /\ col_str "Date" t = Some (strftime_ymd (mkdate y m 1))
              /\ col_int "Orders" t = Some orders
              /\ col_int "Unique_Customers" t = Some unique
              /\ col_int "Units_Sold" t = Some sold
              /\ (1 <= unique <= orders)%Z /\ (orders <= sold)%Z) g.
Proof.
  eapply returns_weaken; [|apply script_spec].
  intros o g1 (Gd & _ & _ & _ & T).
  pose proof (generated_rows_all _ Gd) as Rows.
  destruct (table_rows _ _ _ _ _ _ T) as (ks & N & Iks & (ks0 & N0 & Eks) & F).
  assert (Em : ks = months).
  { assert (X : forall k, In k ks <-> In k months).
    { intro k. rewrite Iks, range_months. split.
      - intros (r & Ir & Er).
        destruct (Rows r Ir) as (i & d & s & Id & _ & ->).
        exists d. split; [exact Id|]. inversion Er. reflexivity.
      - intros (d & Id & <-).
        destruct (generated_covers _ d Gd Id) as (i & s & Ir).
        eexists. split; [exact Ir|]. reflexivity. }
    rewrite Eks. apply sort_keys_unique.
    - exact year_month_leb_total.
    - exact year_month_leb_trans.
    - exact year_month_leb_antisym.
    - exact N0.
    - exact months_sorted.
    - intro x. rewrite <- Eks. apply X. }
  clear Eks. subst ks.
  assert (Rt : forall t, In t (monthly_summary o) ->
                 exists y m orders unique sold,
                   In (y, m) months
                   /\ year_month t = Some (y, m)
                   /\ col_str "Date" t = Some (strftime_ymd (mkdate y m 1))
                   /\ col_int "Orders" t = Some orders
                   /\ col_int "Unique_Customers" t = Some unique
                   /\ col_int "Units_Sold" t = Some sold
                   /\ (1 <= unique <= orders)%Z /\ (orders <= sold)%Z).
  { intros t It.
    destruct (Forall2_In_r _ _ _ _ F It) as ([y m] & Ik & Et).
    pose proof (group_nonempty year_month_dec _ _ _ (proj1 (Iks _) Ik))
      as NE.
    pose proof (group_rows year_month_dec year_month (y, m) _ _ Rows) as Gr.
    set (rows := filter (has_key year_month_dec year_month (y, m))
                   (sales_data o)) in *.
    clearbody rows.
    destruct (month_row_inv _ _ Et)
      as (Eo & (q & Eq & Ecq) & _ & _ & (n & En & Ecn) & Ey & Emo & Ed).
    cbn [fst snd] in *.
    exists y, m, (count rows), n, q.
    split; [exact Ik|].
    split; [unfold year_month; rewrite Ey, Emo; reflexivity|].
    split; [exact Ed|]. split; [exact Eo|]. split; [exact Ecn|].
    split; [exact Ecq|].
    destruct (nunique_window "Customer_ID" rows n customers En NE)
      as [W1 _].
    { intros r s I E. destruct (Gr r I) as [Rr _].
      destruct (row_keys r Rr) as (_ & (p & Ep & Ip) & _). congruence. }
    split; [exact W1|].
    rewrite (sum_int_total _ _ _ Eq).
    pose proof (total_units_window "Quantity" 1 19 rows
                  (fun r I => proj1 (row_measures r (proj1 (Gr r I)))))
      as W.
    lia. }
  assert (Ek : map year_month (monthly_summary o) = map Some months).
  { clear - F. induction F as [|[y m] t ks ts Et F IH]; [reflexivity|].
    simpl. rewrite IH. f_equal.
    destruct (month_row_inv _ _ Et) as (_ & _ & _ & _ & _ & Ey & Emo & _).
    cbn [fst snd] in *. unfold year_month. rewrite Ey, Emo. reflexivity. }
  split; [exact Ek|]. split.
  - rewrite <- (length_map year_month), Ek, length_map. reflexivity.
  - intros t It.
    destruct (Rt t It) as (y & m & a & b & c & _ & R).
    exists y, m, a, b, c. exact R.
Qed.

Lemma X18_witness :
  returns script
    (fun o _ =>
       map year_month (monthly_summary o) = map Some months
       /\ List.length (monthly_summary o) = 36%nat
       /\ forall t, In t (monthly_summary o) ->
            exists y m orders unique sold,
              year_month t = Some (y, m)
              /\ col_str "Date" t = Some (strftime_ymd (mkdate y m 1))
              /\ col_int "Orders" t = Some orders
              /\ col_int "Unique_Customers" t = Some unique
              /\ col_int "Units_Sold" t = Some sold
              /\ (1 <= unique <= orders)%Z /\ (orders <= sold)%Z) [1#3].
Proof.
  exact (@X18_monthly_summary (list Q) tape_numpy tape_lawful [1#3]).
Defined.

(** ** The figures the script prints *)




Section Figures.

Context {G : Type} `{NumPy G} `{!LawfulNumPy G}.


End Figures.




(** ** Satisfaction and returns *)

Lemma py_max_mono (a b b' : Q) : b <= b' -> py_max a b <= py_max a b'.
Proof.
  intro L. destruct (py_max_ge a b') as [A B].
  apply py_max_le; [exact A|lra].
Qed.

Lemma py_min_mono (a b b' : Q) : b <= b' -> py_min a b <= py_min a b'.
Proof.
  intro L. destruct (py_min_le a b) as [A B].
  apply py_min_ge; [exact A|lra].
Qed.

(** X20. Satisfaction never falls when the final margin, the
    representative's factor or the noise rises, and the probability of a
    return never rises with satisfaction: a better margin or a better
    representative cannot make a return more likely. *)
Theorem X20_satisfaction_monotone (fm fm' rf rf' nz nz' : Q) :
  fm <= fm' -> rf <= rf' -> nz <= nz' ->
  customer_satisfaction_of fm rf nz <= customer_satisfaction_of fm' rf' nz'
  /\ return_probability (customer_satisfaction_of fm' rf' nz')
     <= return_probability (customer_satisfaction_of fm rf nz).
Proof.
  intros L1 L2 L3.
  assert (M : customer_satisfaction_of fm rf nz
              <= customer_satisfaction_of fm' rf' nz').
  { unfold customer_satisfaction_of. cbv zeta.
    apply py_min_mono, py_max_mono.
    assert (D : fm / 100 <= fm' / 100).
    { unfold Qdiv. apply Qmult_le_compat_r; [exact L1|].
      unfold Qle. simpl. lia. }
    set (a := fm / 100) in *. set (b := fm' / 100) in *. clearbody a b.
    lra. }
  split; [exact M|].
  unfold return_probability. apply py_max_mono.
  set (c := customer_satisfaction_of fm rf nz) in *.
  set (c' := customer_satisfaction_of fm' rf' nz') in *. clearbody c c'.
  lra.
Qed.

Lemma X20_witness :
  customer_satisfaction_of 10 1.03 0 <= customer_satisfaction_of 50 1.15 0.1
  /\ return_probability (customer_satisfaction_of 50 1.15 0.1)
     <= return_probability (customer_satisfaction_of 10 1.03 0).
Proof.
  apply X20_satisfaction_monotone; unfold Qle; simpl; lia.
Defined.

(* ================================================================== *)
(** * The dashboard *)

(** ** The sample data *)

Lemma every_third_In {A} (l : list A) (x : A) :
  In x (Dashboard.every_third l) -> In x l.
Proof.
  assert (K : forall n (l : list A), (List.length l <= n)%nat ->
                In x (Dashboard.every_third l) -> In x l).
  { induction n as [|n IH]; intros l' L I.
    - destruct l'; [contradiction|simpl in L; lia].
    - destruct l' as [|a [|b [|c t]]]; simpl in I |- *; try tauto.
      destruct I as [I|I]; [auto|]. right. right. right.
      apply (IH t); [simpl in L; lia|exact I]. }
  apply (K (List.length l)). lia.
Qed.

Lemma sample_products (p : string) :
  In p Dashboard.products ->
  exists b, dict_get p Dashboard.base_prices = Some b /\ (25 <= b <= 800)%Z.
Proof.
  unfold Dashboard.products. simpl.
  intros [<-|[<-|[<-|[<-|[<-|[<-|[<-|[<-|[]]]]]]]]];
    eexists; (split; [reflexivity|lia]).
Qed.

Lemma sample_dates (d : date) :
  In d (Dashboard.every_third
          (date_range Dashboard.start_date Dashboard.end_date)) ->
  (2022 <= year d <= 2024)%Z /\ (1 <= month d <= 12)%Z
  /\ (1 <= (month d - 1) / 3 + 1 <= 4)%Z.
Proof.
  intro I. apply every_third_In in I.
  change (In d (date_range start_date end_date)) in I.
  pose proof range_calendar_ok as C. rewrite forallb_forall in C.
  specialize (C d I). unfold calendar_ok in C.
  repeat (apply andb_prop in C as [C ?]).
  repeat match goal with
         | X : (_ <=? _)%Z = true |- _ => apply Z.leb_le in X
         end.
  lia.
Qed.

(** Two roundings and the rounding of their sum differ by a hundredth
    at most. *)
Lemma round2_split (x : Q) :
  Qabs (round2 (x * 0.6) + round2 (x * 0.4) - round2 x) <= 0.01.
Proof.
  unfold round2.
  destruct (round_half_even_near (x * 0.6 * 100)) as [A1 A2].
  destruct (round_half_even_near (x * 0.4 * 100)) as [B1 B2].
  destruct (round_half_even_near (x * 100)) as [C1 C2].
  set (a := round_half_even (x * 0.6 * 100)) in *.
  set (b := round_half_even (x * 0.4 * 100)) in *.
  set (c := round_half_even (x * 100)) in *. clearbody a b c.
  assert (U : inject_Z (a + b - c) < inject_Z 2).
  { unfold Z.sub. rewrite !inject_Z_plus, inject_Z_opp.
    change (inject_Z 2) with 2. lra. }
  assert (L : inject_Z (- 2) < inject_Z (a + b - c)).
  { unfold Z.sub. rewrite !inject_Z_plus, inject_Z_opp.
    change (inject_Z (- 2)) with (- (2)). lra. }
  rewrite <- Zlt_Qlt in U, L.
  assert (E : (a # 100) + (b # 100) - (c # 100) == (a + b - c) # 100).
  { rewrite (Qmake_100 a), (Qmake_100 b), (Qmake_100 c),
      (Qmake_100 (a + b - c)).
    unfold Z.sub. rewrite !inject_Z_plus, inject_Z_opp. ring. }
  rewrite E. apply Qabs_Qle_condition.
  unfold Qle, Qopp. simpl. lia.
Qed.

Section SampleData.

Context {G : Type} `{NumPy G} `{!LawfulNumPy G}.

Lemma month_factor_window (d : date) :
  0.8 <= Dashboard.month_factor d <= 1.2.
Proof.
  unfold Dashboard.month_factor.
  pose proof (np_sin_bounded (2 * np_pi * inject_Z (month d) / 12)) as B.
  set (v := np_sin _) in *. clearbody v. split; lra.
Qed.

Lemma year_factor_window (d : date) :
  (2022 <= year d <= 2024)%Z -> 1 <= Dashboard.year_factor d <= 1.2.
Proof.
  intros [L U]. unfold Dashboard.year_factor.
  assert (B1 : 0 <= inject_Z (year d - 2022))
    by (change 0 with (inject_Z 0); rewrite <- Zle_Qle; lia).
  assert (B2 : inject_Z (year d - 2022) <= 2)
    by (change 2 with (inject_Z 2); rewrite <- Zle_Qle; lia).
  set (v := inject_Z (year d - 2022)) in *. clearbody v. split; lra.
Qed.

Lemma sample_row_spec (d : date) (g : G) :
  In d (Dashboard.every_third
          (date_range Dashboard.start_date Dashboard.end_date)) ->
  returns (Dashboard.sample_row d)
    (fun r _ => Dashboard.sample_facts r /\ Dashboard.Date r = d) g.
Proof.
  intro Id. destruct (sample_dates d Id) as (Ly & Lm & Lq).
  unfold Dashboard.sample_row.
  apply returns_bind, returns_choice; [simpl; lia|]. intros p g1 Hp.
  apply returns_bind, returns_choice; [simpl; lia|]. intros c g2 Hc.
  apply returns_bind, returns_choice; [simpl; lia|]. intros r g3 Hr.
  apply returns_bind, returns_choice; [simpl; lia|]. intros rep g4 Hrep.
  destruct (sample_products p Hp) as (b & Eb & Lb).
  apply returns_bind. eapply returns_try; [exact Eb|].
  apply returns_bind, returns_uniform; [lra|]. intros v g5 Lv.
  apply returns_bind, returns_randint; [lia|]. intros q g6 Lq'.
  apply returns_ret. cbv zeta.
  pose proof (month_factor_window d) as Lmf.
  pose proof (year_factor_window d Ly) as Lyf.
  assert (B1 : 25 <= inject_Z b)
    by (change 25 with (inject_Z 25); rewrite <- Zle_Qle; lia).
  assert (B2 : inject_Z b <= 800)
    by (change 800 with (inject_Z 800); rewrite <- Zle_Qle; lia).
  assert (Q1 : 1 <= inject_Z q) by (apply inject_Z_le_1; lia).
  assert (Q2 : inject_Z q <= 4)
    by (change 4 with (inject_Z 4); rewrite <- Zle_Qle; lia).
  set (mf := Dashboard.month_factor d) in *.
  set (yf := Dashboard.year_factor d) in *.
  clearbody mf yf.
  assert (P1 : inject_Z b * 0.8 <= inject_Z b * v)
    by (apply Qmult_le_compat_nonneg; split; lra).
  assert (P2 : inject_Z b * v <= inject_Z b * 1.3)
    by (apply Qmult_le_compat_nonneg; split; lra).
  assert (P3 : 20 * 1 <= inject_Z b * v * inject_Z q)
    by (apply Qmult_le_compat_nonneg; split; lra).
  assert (P4 : inject_Z b * v * inject_Z q <= 1040 * 4)
    by (apply Qmult_le_compat_nonneg; split; lra).
  assert (F1 : 0.8 * 1 <= mf * yf)
    by (apply Qmult_le_compat_nonneg; split; lra).
  assert (F2 : mf * yf <= 1.2 * 1.2)
    by (apply Qmult_le_compat_nonneg; split; lra).
  assert (R1 : 20 * 0.8 <= inject_Z b * v * inject_Z q * (mf * yf))
    by (apply Qmult_le_compat_nonneg; split; lra).
  assert (R2 : inject_Z b * v * inject_Z q * (mf * yf) <= 4160 * 1.44)
    by (apply Qmult_le_compat_nonneg; split; lra).
  split; [|reflexivity].
  constructor; cbn [Dashboard.Date Dashboard.Product Dashboard.Category
                    Dashboard.Region Dashboard.Sales_Rep Dashboard.Quantity
                    Dashboard.Unit_Price Dashboard.Revenue Dashboard.Cost
                    Dashboard.Profit Dashboard.Profit_Margin Dashboard.Year
                    Dashboard.Month Dashboard.Quarter];
    try assumption; try reflexivity.
  - lia.
  - exists b. split; [exact Eb|]. split.
    + apply round2_ge; [|exact P1].
      exists (b * 80)%Z. unfold Qeq, Qmult, inject_Z. simpl. lia.
    + apply round2_le; [|exact P2].
      exists (b * 130)%Z. unfold Qeq, Qmult, inject_Z. simpl. lia.
  - split.
    + apply round2_ge; [apply (cents_Z 16)|lra].
    + apply round2_le; [exists 599040%Z; vm_compute; reflexivity|lra].
  - apply round2_split.
  - split; [reflexivity|exact Ly].
  - split; [reflexivity|exact Lm].
  - split; [reflexivity|exact Lq].
Qed.

Lemma sales_spec (n : nat) (d : date) (data : list Dashboard.row) (g : G) :
  In d (Dashboard.every_third
          (date_range Dashboard.start_date Dashboard.end_date)) ->
  returns (Dashboard.sales n d data)
    (fun data' _ =>
       exists rows,
         data' = (data ++ rows)%list /\ List.length rows = n
         /\ Forall (fun r => Dashboard.sample_facts r
                             /\ Dashboard.Date r = d) rows) g.
Proof.
  intro Id. revert data g. induction n as [|n IH]; intros data g.
  - apply returns_ret. exists []. rewrite app_nil_r. auto.
  - cbn [Dashboard.sales]. apply returns_bind.
    eapply returns_weaken; [|apply sample_row_spec, Id].
    intros r g1 Fr. cbv beta.
    eapply returns_weaken; [|apply IH].
    intros data' g2 (rows & -> & L & F). exists (r :: rows).
    split; [rewrite <- app_assoc; reflexivity|].
    split; [simpl; lia|]. constructor; assumption.
Qed.

Lemma sample_days_spec (dates : list date) (data : list Dashboard.row)
  (g : G) :
  incl dates (Dashboard.every_third
                (date_range Dashboard.start_date Dashboard.end_date)) ->
  returns (Dashboard.sample_days dates data)
    (fun data' _ =>
       exists rows,
         data' = (data ++ rows)%list
         /\ Forall Dashboard.sample_facts rows
         /\ incl (map Dashboard.Date rows) dates) g.
Proof.
  revert data g. induction dates as [|d dates IH]; intros data g I.
  - apply returns_ret. exists []. rewrite app_nil_r.
    split; [reflexivity|]. split; [constructor|apply incl_refl].
  - cbn [Dashboard.sample_days].
    apply returns_bind, returns_poisson; [lra|].
    apply returns_bind.
    eapply returns_weaken;
      [|apply sales_spec, I; left; reflexivity].
    intros data1 g1 (rows1 & -> & _ & F1). cbv beta.
    eapply returns_weaken;
      [|apply IH; intros x Ix; apply I; right; exact Ix].
    intros data2 g2 (rows2 & -> & F2 & I2).
    exists (rows1 ++ rows2)%list.
    split; [rewrite app_assoc; reflexivity|]. split.
    + apply Forall_app. split; [|exact F2].
      eapply Forall_impl; [|exact F1]. intros r [Fr _]. exact Fr.
    + rewrite map_app. apply incl_app.
      * intros x Ix. apply in_map_iff in Ix as (r & <- & Ir).
        rewrite Forall_forall in F1. destruct (F1 r Ir) as [_ ->].
        left. reflexivity.
      * intros x Ix. right. apply I2, Ix.
Qed.

End SampleData.

(** X21. The sample generator of the dashboard always returns, and every
    row it makes is a sale of one of the eight products, three
    categories, five regions and five representatives on one of the
    sampled days; the quantity is from 1 to 4, the unit price between
    0.8 and 1.3 times the base price, the revenue between 16 and
    5990.4, cost and profit add up to the revenue within a hundredth,
    the margin is 40, and year, month and quarter are those of the
    date. *)
Theorem X21_sample_rows {G : Type} `{NumPy G} `{!LawfulNumPy G} (g : G) :
  returns Dashboard.generate_sample_data
    (fun df _ => Forall Dashboard.sample_facts df) g.
Proof.
  unfold Dashboard.generate_sample_data.
  apply returns_bind, returns_draw. cbn [fst snd].
  eapply returns_weaken; [|apply sample_days_spec, incl_refl].
  intros df g1 (rows & -> & F & _). exact F.
Qed.

Lemma X21_witness :
  returns (G := list Q) Dashboard.generate_sample_data
    (fun df _ => Forall Dashboard.sample_facts df) [1#3].
Proof. exact (@X21_sample_rows (list Q) tape_numpy tape_lawful [1#3]). Defined.

(** ** The filters *)












(** ** The metrics *)







